(** * content-agent: the [browse_url] tool and its helpers

    A shallow embedding of the web-page acquisition code of the agent
    (address guard, robots.txt check, page cache, size limits, word count
    and passage ranking) together with the properties stated about it.

    Conventions of the model.
    - A JavaScript string is modelled by [string]: a sequence of code units
      below 256 (the Latin-1 part of UTF-16).  The built-in string methods
      are modelled on that range: [toLowerCase] lower-cases A-Z and the
      Latin-1 capitals, white space is TAB, LF, VT, FF, CR, SPACE and NBSP.
    - The platform (URL parser, [fetch], [Date.now], the HTML parser, the
      readability library, the IPv6 part of [net.isIP]) is not code of the
      repository; it is a record of oracles, [Platform].
    - [browse_url] runs in a state-and-exception monad whose state holds the
      module-level [pageCache] and the trace of network events; a thrown
      exception keeps the state, as in JavaScript. *)

From Stdlib Require Import ZArith NArith List Ascii String Bool Lia Sorted.
From Stdlib Require Import DecimalString.
From stdpp Require Import gmap strings.

Local Open Scope Z_scope.

(* ================================================================== *)
(** ** JavaScript string primitives                                    *)
(* ================================================================== *)

Module JS.

Definition code (c : ascii) : N := N_of_ascii c.

Definition in_range (lo hi : N) (c : ascii) : bool :=
  ((lo <=? code c) && (code c <=? hi))%N.

Definition is_digit (c : ascii) : bool := in_range 48 57 c.
Definition is_lower_az (c : ascii) : bool := in_range 97 122 c.

(** ECMAScript WhiteSpace and LineTerminator below 256: the class [\s] of
    regular expressions and the characters removed by [trim]. *)
Definition is_space (c : ascii) : bool :=
  in_range 9 13 c || (code c =? 32)%N || (code c =? 160)%N.

Definition LF : ascii := ascii_of_N 10.
Definition CR : ascii := ascii_of_N 13.

(** [String.prototype.toLowerCase] on one code unit below 256. *)
Definition lower_char (c : ascii) : ascii :=
  if in_range 65 90 c || (in_range 192 222 c && negb (code c =? 215)%N)
  then ascii_of_N (code c + 32) else c.

Fixpoint map_chars (f : ascii -> ascii) (s : string) : string :=
  match s with
  | EmptyString => EmptyString
  | String c s' => String (f c) (map_chars f s')
  end.

Definition toLowerCase (s : string) : string := map_chars lower_char s.

Fixpoint all_chars (p : ascii -> bool) (s : string) : bool :=
  match s with
  | EmptyString => true
  | String c s' => p c && all_chars p s'
  end.

Definition strlen (s : string) : Z := Z.of_nat (String.length s).

(** The empty string is the only falsy string. *)
Definition truthy (s : string) : bool := negb (String.eqb s "").

(** [s.startsWith(p)] *)
Definition startsWith (s p : string) : bool := String.prefix p s.

(** [s.endsWith(p)]: [p] is [s] itself or ends the tail of [s]. *)
Fixpoint endsWith (s p : string) : bool :=
  String.eqb s p
  || match s with
     | EmptyString => false
     | String _ s' => endsWith s' p
     end.

Fixpoint trimStart (s : string) : string :=
  match s with
  | EmptyString => EmptyString
  | String c s' => if is_space c then trimStart s' else s
  end.

Fixpoint trimEnd (s : string) : string :=
  match s with
  | EmptyString => EmptyString
  | String c s' =>
      match trimEnd s' with
      | EmptyString => if is_space c then EmptyString else String c EmptyString
      | r => String c r
      end
  end.

(** [s.trim()] *)
Definition trim (s : string) : string := trimEnd (trimStart s).

(** [s.split(sep)] for a one-character separator: the pieces between the
    separators, empty pieces included; never the empty list. *)
Fixpoint split_char (sep : ascii) (s : string) : list string :=
  match s with
  | EmptyString => [EmptyString]
  | String c s' =>
      if Ascii.eqb c sep then EmptyString :: split_char sep s'
      else match split_char sep s' with
           | [] => [String c EmptyString]
           | p :: ps => String c p :: ps
           end
  end.

(** [s.slice(0, n)] on a string, for [n >= 0]. *)
Fixpoint take (n : nat) (s : string) : string :=
  match n, s with
  | S n', String c s' => String c (take n' s')
  | _, _ => EmptyString
  end.

Definition slice0 (s : string) (n : Z) : string :=
  if n <? 0 then take (Z.to_nat (strlen s + n)) s else take (Z.to_nat n) s.

(** The value of a run of decimal digits read from the left. *)
Fixpoint digits_value (acc : Z) (s : string) : Z :=
  match s with
  | String c s' =>
      if is_digit c then digits_value (10 * acc + (Z.of_N (code c) - 48)) s'
      else acc
  | EmptyString => acc
  end.

(** [parseInt(s, 10)]: leading white space is skipped, one sign is read,
    then the longest run of digits; [None] is NaN. *)
Definition parseInt10 (s : string) : option Z :=
  match trimStart s with
  | String c r =>
      if Ascii.eqb c "-" then
        match r with
        | String d _ => if is_digit d then Some (- digits_value 0 r) else None
        | EmptyString => None
        end
      else if Ascii.eqb c "+" then
        match r with
        | String d _ => if is_digit d then Some (digits_value 0 r) else None
        | EmptyString => None
        end
      else if is_digit c then Some (digits_value 0 (String c r)) else None
  | EmptyString => None
  end.

(** [Number(s)] on the values the model covers: a run of decimal digits
    with optional white space around it ([Some n], the form HTTP gives to
    Content-Length), and the empty or blank string, which is 0.  On any
    other string the result is [None]: NaN, or a number written with a
    sign, a fraction, an exponent, a radix prefix or as [Infinity], which
    the model does not evaluate; the statements below use [Number] only
    where it answers [Some]. *)
Definition Number (s : string) : option Z :=
  match trim s with
  | EmptyString => Some 0
  | t => if all_chars is_digit t then Some (digits_value 0 t) else None
  end.

(** Comparisons with NaN or [undefined] are false. *)
Definition num_eq (o : option Z) (n : Z) : bool :=
  match o with Some v => v =? n | None => false end.
Definition num_ge (o : option Z) (n : Z) : bool :=
  match o with Some v => n <=? v | None => false end.
Definition num_le (o : option Z) (n : Z) : bool :=
  match o with Some v => v <=? n | None => false end.
Definition num_gt (o : option Z) (n : Z) : bool :=
  match o with Some v => n <? v | None => false end.

End JS.

(* ================================================================== *)
(** ** [net.isIP]                                                      *)
(* ================================================================== *)

Module Net.
Import JS.

(** One segment of a dotted-decimal address:
    [25[0-5] | 2[0-4]\d | 1\d\d | [1-9]\d | \d]. *)
Definition v4seg (s : string) : bool :=
  match s with
  | String a EmptyString => is_digit a
  | String a (String b EmptyString) => in_range 49 57 a && is_digit b
  | String a (String b (String c EmptyString)) =>
      (Ascii.eqb a "1" && is_digit b && is_digit c)
      || (Ascii.eqb a "2" && in_range 48 52 b && is_digit c)
      || (Ascii.eqb a "2" && Ascii.eqb b "5" && in_range 48 53 c)
  | _ => false
  end.

Definition isIPv4 (s : string) : bool :=
  match split_char "." s with
  | [a; b; c; d] => v4seg a && v4seg b && v4seg c && v4seg d
  | _ => false
  end.

(** [isIP(s)]: 4, 6 or 0.  The IPv6 recogniser is a parameter. *)
Definition isIP (isIPv6 : string -> bool) (s : string) : Z :=
  if isIPv4 s then 4 else if isIPv6 s then 6 else 0.

End Net.

(* ================================================================== *)
(** ** The address guard                                               *)
(* ================================================================== *)

Section Guard.
Import JS.

Variable isIPv6 : string -> bool.

Definition octets_of (lower : string) : list (option Z) :=
  map parseInt10 (split_char "." lower).

(** [octets[i]]: out of range is [undefined], which compares like NaN. *)
Definition octet (octets : list (option Z)) (i : nat) : option Z :=
  match nth_error octets i with Some o => o | None => None end.

Definition isPrivateHostname (host : string) : bool :=
  let lower := toLowerCase host in
  if String.eqb lower "localhost"
     || String.eqb lower "127.0.0.1"
     || String.eqb lower "0.0.0.0"
     || String.eqb lower "::1"
     || endsWith lower ".local"
  then true
  else
    if negb (Net.isIP isIPv6 lower =? 0) then
      if startsWith lower "10." then true
      else if startsWith lower "127." then true
      else if startsWith lower "192.168." then true
      else
        let octets := octets_of lower in
        if (Z.of_nat (length octets) =? 4)
           && num_eq (octet octets 0) 172
           && num_ge (octet octets 1) 16
           && num_le (octet octets 1) 31
        then true
        else false
    else false.

End Guard.


(* ================================================================== *)
(** ** Regular-expression helpers used by the module                   *)
(* ================================================================== *)

Module Re.
Import JS.

(** Put [c] in front of the first piece. *)
Definition cons_head (c : ascii) (l : list string) : list string :=
  match l with
  | [] => [String c EmptyString]
  | p :: ps => String c p :: ps
  end.

(** [s.split(/\r?\n/)] *)
Fixpoint split_lines (s : string) : list string :=
  match s with
  | EmptyString => [EmptyString]
  | String c s' =>
      if Ascii.eqb c LF then EmptyString :: split_lines s'
      else
        match s' with
        | String d s'' =>
            if Ascii.eqb c CR && Ascii.eqb d LF
            then EmptyString :: split_lines s''
            else cons_head c (split_lines s')
        | EmptyString => cons_head c (split_lines s')
        end
  end.

(** The rest of a string from its first line terminator on. *)
Fixpoint skip_to_eol (s : string) : string :=
  match s with
  | EmptyString => EmptyString
  | String c s' =>
      if Ascii.eqb c LF || Ascii.eqb c CR then s else skip_to_eol s'
  end.

(** [s.replace(/#.*/, "")]: the first [#] and what follows it up to a line
    terminator are removed. *)
Fixpoint strip_comment (s : string) : string :=
  match s with
  | EmptyString => EmptyString
  | String c s' =>
      if Ascii.eqb c "#" then skip_to_eol s' else String c (strip_comment s')
  end.

(** [s.split(/\s+/)]: a maximal run of white space is one separator. *)
Fixpoint split_ws (s : string) : list string :=
  match s with
  | EmptyString => [EmptyString]
  | String c s' =>
      if is_space c then
        match s' with
        | String d _ =>
            if is_space d then split_ws s' else EmptyString :: split_ws s'
        | EmptyString => EmptyString :: split_ws s'
        end
      else cons_head c (split_ws s')
  end.

(** [s.split(/\n{2,}/)]: a maximal run of two or more LF is one separator;
    [in_sep] says that the scan is inside such a run. *)
Fixpoint split_paras_from (in_sep : bool) (s : string) : list string :=
  match s with
  | EmptyString => [EmptyString]
  | String c s' =>
      if Ascii.eqb c LF then
        if in_sep then split_paras_from true s'
        else
          match s' with
          | String d _ =>
              if Ascii.eqb d LF then EmptyString :: split_paras_from true s'
              else cons_head c (split_paras_from false s')
          | EmptyString => cons_head c (split_paras_from false s')
          end
      else cons_head c (split_paras_from false s')
  end.

Definition split_paras (s : string) : list string := split_paras_from false s.

(** [s.replace(/[^a-z0-9\s]/g, " ")] *)
Definition blank_non_alnum (s : string) : string :=
  map_chars
    (fun c => if is_lower_az c || is_digit c || is_space c then c else " "%char)
    s.

(** [s.replace(/\s+/g, " ")] *)
Definition collapse_ws (s : string) : string :=
  String.concat " " (split_ws s).

End Re.

(* ================================================================== *)
(** ** The relevance ranker                                            *)
(* ================================================================== *)

Module Ranker.
Import JS Re.

Definition tokenize (s : string) : list string :=
  List.filter (fun w => 2 <? strlen w) (split_ws (blank_non_alnum (toLowerCase s))).

Record Passage := { snippet : string; score : Z }.

(** [Array.prototype.sort] with the comparator [b.score - a.score]: a
    stable sort by descending score. *)
Fixpoint insert_desc (x : string * Z) (l : list (string * Z)) : list (string * Z) :=
  match l with
  | [] => [x]
  | y :: l' => if snd y <=? snd x then x :: l else y :: insert_desc x l'
  end.

Definition sort_desc (l : list (string * Z)) : list (string * Z) :=
  fold_right insert_desc [] l.

(** [a.slice(0, n)] on an array. *)
Definition slice0_list {A} (l : list A) (n : Z) : list A :=
  if n <? 0 then firstn (Z.to_nat (Z.of_nat (length l) + n)) l
  else firstn (Z.to_nat n) l.

Definition relevantPassages (text question : string) (max : Z) : list Passage :=
  let qTokens : gset string := list_to_set (tokenize question) in
  let paras :=
    List.filter (fun p => 60 <? strlen p) (map trim (split_paras text)) in
  let scored :=
    map (fun p =>
           let t := tokenize p in
           let score :=
             fold_left
               (fun acc w => acc + (if bool_decide (w ∈ qTokens) then 1 else 0))
               t 0 in
           (p, score))
        paras in
  map (fun ps => {| snippet := slice0 (fst ps) 600; score := snd ps |})
      (slice0_list
         (sort_desc (List.filter (fun ps => 0 <? snd ps) scored))
         max).

(** [mainText ? mainText.split(/\s+/).length : 0] *)
Definition wordCount (mainText : string) : Z :=
  if truthy mainText then Z.of_nat (length (split_ws mainText)) else 0.

End Ranker.

(* ================================================================== *)
(** ** robots.txt                                                      *)
(* ================================================================== *)

Module Robots.
Import JS Re.

Inductive RuleType := allow | disallow.

Record Rule := { type : RuleType; path : string }.

Record Group := { agents : list string; rules : list Rule }.

Definition is_allow (t : RuleType) : bool :=
  match t with allow => true | disallow => false end.

(** The lines of the body: comments stripped, trimmed, blank lines dropped. *)
Definition robots_lines (body : string) : list string :=
  List.filter truthy (map (fun l => trim (strip_comment l)) (split_lines body)).

(** One iteration of the parsing loop over [(groups, current)]. *)
Definition parse_line (st : list Group * option Group) (line : string)
  : list Group * option Group :=
  let '(groups, current) := st in
  match split_char ":" line with
  | [] => st
  | rawKey :: rest =>
      if negb (truthy rawKey) || (length rest =? 0)%nat then st
      else
        let key := trim (toLowerCase rawKey) in
        let value := trim (String.concat ":" rest) in
        if String.eqb key "user-agent" then
          let groups' :=
            match current with
            | Some c => if (0 <? length (rules c))%nat then groups ++ [c] else groups
            | None => groups
            end in
          (groups', Some {| agents := [toLowerCase value]; rules := [] |})
        else if String.eqb key "allow" || String.eqb key "disallow" then
          let c :=
            match current with
            | Some c => c
            | None => {| agents := ["*"]; rules := [] |}
            end in
          let t := if String.eqb key "allow" then allow else disallow in
          (groups,
           Some {| agents := agents c;
                   rules := rules c ++ [{| type := t; path := value |}] |})
        else st
  end.

Definition parse_robots (body : string) : list Group :=
  let '(groups, current) := fold_left parse_line (robots_lines body) ([], None) in
  match current with
  | Some c => groups ++ [c]
  | None => groups
  end.

Definition has_agent (a : string) (g : Group) : bool :=
  existsb (String.eqb a) (agents g).

(** [groups.find(has ua) || groups.find(has "*")] *)
Definition applicable (groups : list Group) (ua : string) : option Group :=
  match find (has_agent ua) groups with
  | Some g => Some g
  | None => find (has_agent "*") groups
  end.


(** One iteration of the longest-match loop over [best]. *)
Definition best_step (p : string) (best : option (RuleType * Z)) (r : Rule)
  : option (RuleType * Z) :=
  if String.eqb (path r) "" then best
  else if startsWith p (path r) then
    let len := strlen (path r) in
    match best with
    | None => Some (type r, len)
    | Some (_, blen) => if blen <? len then Some (type r, len) else best
    end
  else best.

Definition best_rule (p : string) (rs : list Rule) : option (RuleType * Z) :=
  fold_left (best_step p) rs None.

(** [fetchRobotsAllowed] from the parsing of the body on. *)
Definition robots_decide (body : string) (userAgent : string) (pathname : string) : bool :=
  let groups := parse_robots body in
  let ua := toLowerCase userAgent in
  match applicable groups ua with
  | None => true
  | Some g =>
      let p := if truthy pathname then pathname else "/" in
      match best_rule p (rules g) with
      | None => true
      | Some (t, _) => is_allow t
      end
  end.

End Robots.

(* ================================================================== *)
(** ** The platform and the execution monad                            *)
(* ================================================================== *)

(** A parsed URL, as the fields of a [URL] object the code reads;
    [href] is what [toString()] returns. *)
Record URL := {
  protocol : string;
  hostname : string;
  host : string;
  pathname : string;
  href : string
}.

Record Request := {
  req_url : string;
  req_redirect : option string;
  req_headers : list (string * string)
}.

(** A [fetch] response: [content_length] is [headers.get("content-length")],
    [text] the decoded body that [res.text()] resolves to ([None]: it
    rejects). *)
Record Response := {
  ok : bool;
  status : Z;
  statusText : string;
  res_url : string;
  content_length : option string;
  text : option string
}.

Record Element := {
  tagName : string;
  textContent : option string;
  getAttribute : string -> option string
}.

(** A document, as the answers to the queries the code makes. *)
Record Document := {
  meta_name : string -> option string;
  meta_property : string -> option string;
  title_text : option string;
  body_text : option string;
  query_headings : list Element;
  query_anchors : list Element
}.

Record Platform := {
  isIPv6 : string -> bool;
  (** [new URL(url)]; [None]: it throws *)
  newURL : string -> option URL;
  (** [new URL(rel, base).toString()]; [None]: it throws *)
  resolveURL : string -> string -> option string;
  (** [fetch(url, init)]; [None]: the promise rejects (network error, or
      the abort fired by the 10 s timer) *)
  fetch : Request -> option Response;
  (** [Date.now()] *)
  dateNow : Z;
  (** [parseHTML(html).document]; [None]: it throws *)
  parseHTML : string -> option Document;
  (** [new Readability(doc).parse()?.textContent] together with the
      document as the call leaves it (the parse edits the document in
      place); [None]: it throws *)
  readability : Document -> option (option string * Document)
}.

Record Heading := { h_tag : string; h_text : string }.

Record Link := {
  l_href : string;
  l_text : string;
  l_rel : string;
  l_nofollow : bool
}.

Record PageAnalysis := {
  pa_url : string;
  finalUrl : string;
  title : option string;
  description : option string;
  publishedAt : option string;
  author : option string;
  wordCount : Z;
  headings : list Heading;
  links : list Link;
  excerpt : string;
  mainText : string;
  relevantPassages : list Ranker.Passage
}.

(** An entry of [pageCache]: [{ at, data }]. *)
Record CacheEntry := { entry_at : Z; entry_data : PageAnalysis }.

Inductive Error :=
| InvalidURL                       (* new URL(url) threw *)
| UnsupportedScheme                (* "Only http/https URLs are supported." *)
| BlockedAddress                   (* "Blocked private/local address." *)
| RobotsDisallowed                 (* "Fetching disallowed by robots.txt." *)
| FetchFailed                      (* fetch rejected: network error or timeout *)
| HTTPStatus (st : Z) (txt : string) (* `HTTP ${status} ${statusText}` *)
| SizeLimit                        (* "Page exceeds 5MB limit." *)
| BodyFailed                       (* res.text() rejected *)
| ParseFailed                      (* parseHTML or Readability threw *)
| BadLink.                         (* new URL(href, u) threw *)

Inductive Event :=
| EvFetch (r : Request)            (* a call of fetch *)
| EvText (url : string).           (* a call of res.text() *)

Record State := {
  pageCache : gmap string CacheEntry;
  trace : list Event
}.

Module Exec.

(** State and exceptions: the state that a failing computation leaves is
    kept. *)
Definition M (A : Type) : Type := State -> (Error + A) * State.

Definition ret {A} (a : A) : M A := fun s => (inr a, s).

Definition throw {A} (e : Error) : M A := fun s => (inl e, s).

Definition bind {A B} (m : M A) (k : A -> M B) : M B :=
  fun s =>
    match m s with
    | (inl e, s') => (inl e, s')
    | (inr a, s') => k a s'
    end.

(** [try { m } catch { h }] *)
Definition try_catch {A} (m : M A) (h : Error -> M A) : M A :=
  fun s =>
    match m s with
    | (inl e, s') => h e s'
    | r => r
    end.

Definition lift {A} (o : option A) (e : Error) : M A :=
  match o with Some a => ret a | None => throw e end.

Definition emit (ev : Event) : M unit :=
  fun s => (inr tt, {| pageCache := pageCache s; trace := trace s ++ [ev] |}).

Definition cache_get (key : string) : M (option CacheEntry) :=
  fun s => (inr (pageCache s !! key), s).

Definition cache_set (key : string) (e : CacheEntry) : M unit :=
  fun s => (inr tt, {| pageCache := <[key := e]> (pageCache s); trace := trace s |}).

Fixpoint mapM {A B} (f : A -> M B) (l : list A) : M (list B) :=
  match l with
  | [] => ret []
  | x :: l' => bind (f x) (fun y => bind (mapM f l') (fun ys => ret (y :: ys)))
  end.

End Exec.

Import Exec.

Notation "x <- c1 ;; c2" := (bind c1 (fun x => c2))
  (at level 100, c1 at next level, right associativity).
Notation "c1 ;;; c2" := (bind c1 (fun _ => c2))
  (at level 100, right associativity).

(* ================================================================== *)
(** ** [fetchRobotsAllowed]                                            *)
(* ================================================================== *)

Section Pipeline.
Import JS Re.

Variable P : Platform.

(** [await fetch(...)] *)
Definition do_fetch (r : Request) : M Response :=
  emit (EvFetch r) ;;; lift (fetch P r) FetchFailed.

(** [await res.text()] *)
Definition read_text (r : Request) (res : Response) : M string :=
  emit (EvText (req_url r)) ;;; lift (text res) BodyFailed.

Definition robots_request (robotsUrl : string) : Request :=
  {| req_url := robotsUrl; req_redirect := None; req_headers := [] |}.

(** The body of the [try] block of [fetchRobotsAllowed]. *)
Definition robots_try (target : URL) (userAgent : string) : M bool :=
  robotsUrl <- lift (resolveURL P "/robots.txt"
                       (protocol target +:+ "//" +:+ host target)) InvalidURL ;;
  let rq := robots_request robotsUrl in
  res <- do_fetch rq ;;
  if negb (ok res) then ret true
  else
    body <- read_text rq res ;;
    ret (Robots.robots_decide body userAgent (pathname target)).

Definition fetchRobotsAllowed (target : URL) (userAgent : string) : M bool :=
  try_catch (robots_try target userAgent) (fun _ => ret true).

(* ================================================================== *)
(** ** Metadata, headings and links                                    *)
(* ================================================================== *)

(** [a || b] on values that are a string or null. *)
Definition or_else (a b : option string) : option string :=
  match a with
  | Some s => if truthy s then Some s else b
  | None => b
  end.

(** [x || ""] *)
Definition or_empty (a : option string) : string :=
  match a with Some s => s | None => EmptyString end.

Definition getMeta (doc : Document) (name : string) : option string :=
  or_else (meta_name doc name) (or_else (meta_property doc name) None).

Record Metadata := {
  m_title : option string;
  m_description : option string;
  m_publishedAt : option string;
  m_author : option string
}.

Definition extractMetadata (doc : Document) : Metadata :=
  {| m_title := or_else (meta_property doc "og:title") (or_else (title_text doc) None);
     m_description :=
       or_else (getMeta doc "description") (or_else (getMeta doc "og:description") None);
     m_publishedAt := getMeta doc "article:published_time";
     m_author := or_else (getMeta doc "author") (getMeta doc "article:author") |}.

(** [s.includes(p)] *)
Fixpoint includes (s p : string) : bool :=
  String.prefix p s
  || match s with
     | EmptyString => false
     | String _ s' => includes s' p
     end.

Definition heading_of (h : Element) : Heading :=
  {| h_tag := tagName h;
     h_text := slice0 (trim (or_empty (textContent h))) 300 |}.

Definition link_of (u : URL) (a : Element) : M Link :=
  let href_attr := trim (or_empty (getAttribute a "href")) in
  let rel := toLowerCase (or_empty (getAttribute a "rel")) in
  let txt := collapse_ws (trim (or_empty (textContent a))) in
  abs <- lift (resolveURL P href_attr (href u)) BadLink ;;
  ret {| l_href := abs;
         l_text := slice0 txt 200;
         l_rel := rel;
         l_nofollow := includes rel "nofollow" |}.

(** [Array.from(querySelectorAll("a[href]")).slice(0, 500).map(...)] *)
Definition collect_links (u : URL) (doc : Document) : M (list Link) :=
  mapM (link_of u) (firstn 500 (query_anchors doc)).

(* ================================================================== *)
(** ** [browse_url]                                                    *)
(* ================================================================== *)

Definition CACHE_TTL_MS : Z := 10 * 60 * 1000.

Definition SIZE_LIMIT : Z := 5 * 1024 * 1024.

Definition page_request (u : URL) : Request :=
  {| req_url := href u;
     req_redirect := Some "follow";
     req_headers :=
       [("User-Agent",
         "content-agent (+https://github.com/mattvollmer/content-agent)");
        ("Accept", "text/html,application/xhtml+xml")] |}.

(** [cl && Number(cl) > 5 * 1024 * 1024] *)
Definition declared_too_large (cl : option string) : bool :=
  match cl with
  | Some s => truthy s && num_gt (Number s) SIZE_LIMIT
  | None => false
  end.

(** [execute] from the robots check on: what runs when the cache lookup
    found nothing to serve. *)
Definition execute_on_miss (u : URL) (question : option string)
    (cache : bool) (key : string) (now : Z) : M PageAnalysis :=
  allowed <- fetchRobotsAllowed u "content-agent" ;;
  if negb allowed then throw RobotsDisallowed
  else
    let rq := page_request u in
    res <- do_fetch rq ;;
    if negb (ok res) then throw (HTTPStatus (status res) (statusText res))
    else if declared_too_large (content_length res) then throw SizeLimit
    else
      html <- read_text rq res ;;
      if SIZE_LIMIT <? strlen html then throw SizeLimit
      else
        doc <- lift (parseHTML P html) ParseFailed ;;
        let meta := extractMetadata doc in
        article <- lift (readability P doc) ParseFailed ;;
        let '(articleText, doc') := article in
        let mainText :=
          or_empty (or_else articleText (or_else (body_text doc') (Some EmptyString))) in
        let headings := map heading_of (query_headings doc') in
        links <- collect_links u doc' ;;
        let result :=
          {| pa_url := href u;
             finalUrl := if truthy (res_url res) then res_url res else href u;
             title := m_title meta;
             description := m_description meta;
             publishedAt := m_publishedAt meta;
             author := m_author meta;
             wordCount := Ranker.wordCount mainText;
             headings := headings;
             links := links;
             excerpt := slice0 mainText 1000;
             mainText := mainText;
             relevantPassages :=
               match question with
               | Some q =>
                   if truthy q then Ranker.relevantPassages mainText q 10 else []
               | None => []
               end |} in
        (if cache then cache_set key {| entry_at := now; entry_data := result |}
         else ret tt) ;;;
        ret result.

Definition browse_url (url : string) (question : option string) (cache : bool)
  : M PageAnalysis :=
  u <- lift (newURL P url) InvalidURL ;;
  if negb (String.eqb (protocol u) "http:") && negb (String.eqb (protocol u) "https:")
  then throw UnsupportedScheme
  else if isPrivateHostname (isIPv6 P) (hostname u) then throw BlockedAddress
  else
    let key := href u in
    let now := dateNow P in
    cached <- (if cache then cache_get key else ret None) ;;
    match cached with
    | Some e =>
        if now - entry_at e <? CACHE_TTL_MS then ret (entry_data e)
        else execute_on_miss u question cache key now
    | None => execute_on_miss u question cache key now
    end.

End Pipeline.

(* ================================================================== *)
(** ** More string built-ins                                           *)
(* ================================================================== *)

Module Str.

(** [s.slice(a, b)] for [0 <= a <= b]. *)
Definition slice (s : string) (a b : nat) : string :=
  String.substring a (b - a) s.

(** [s.slice(1)] *)
Definition tail (s : string) : string :=
  match s with
  | EmptyString => EmptyString
  | String _ s' => s'
  end.

(** [String(n)] and [`${n}`] for an integer [n]. *)
Definition of_int (n : Z) : string := NilZero.string_of_int (Z.to_int n).

Fixpoint replicate (n : nat) (c : ascii) : string :=
  match n with
  | O => EmptyString
  | S n' => String c (replicate n' c)
  end.

(** [s.padStart(n, c)] for a one-character filler. *)
Definition padStart (s : string) (n : nat) (c : ascii) : string :=
  replicate (n - String.length s) c +:+ s.

(** [s.replace(/\/$/, "")]: one slash at the end is removed. *)
Fixpoint strip_slash (s : string) : string :=
  match s with
  | EmptyString => EmptyString
  | String c EmptyString => if Ascii.eqb c "/" then EmptyString else s
  | String c s' => String c (strip_slash s')
  end.

(** A value that is a string or undefined, read as a condition. *)
Definition given (o : option string) : bool :=
  match o with Some s => JS.truthy s | None => false end.

End Str.

(* ================================================================== *)
(** ** Dates of the analytics tools                                    *)
(* ================================================================== *)

(** [yyyymmddToIso] *)
Definition yyyymmddToIso (d : string) : string :=
  if JS.truthy d && (JS.strlen d =? 8)
  then Str.slice d 0 4 +:+ "-" +:+ Str.slice d 4 6 +:+ "-" +:+ Str.slice d 6 8
  else d.

(** What the UTC getters of a valid [Date] answer: [getUTCFullYear],
    [getUTCMonth] (0 to 11) and [getUTCDate]. *)
Record UTCDate := { utcFullYear : Z; utcMonth : Z; utcDate : Z }.

(** [toYMD] *)
Definition toYMD (date : UTCDate) : string :=
  let y := utcFullYear date in
  let m := Str.padStart (Str.of_int (utcMonth date + 1)) 2 "0" in
  let d := Str.padStart (Str.of_int (utcDate date)) 2 "0" in
  Str.of_int y +:+ "-" +:+ m +:+ "-" +:+ d.

(** The pattern [/^\d{4}-\d{2}-\d{2}$/] of the input schema of
    [get_ga_metrics]. *)
Definition iso_date_pattern (s : string) : bool :=
  match s with
  | String y1 (String y2 (String y3 (String y4 (String h1
      (String m1 (String m2 (String h2 (String d1 (String d2 EmptyString))))))))) =>
      JS.is_digit y1 && JS.is_digit y2 && JS.is_digit y3 && JS.is_digit y4
      && Ascii.eqb h1 "-" && JS.is_digit m1 && JS.is_digit m2
      && Ascii.eqb h2 "-" && JS.is_digit d1 && JS.is_digit d2
  | _ => false
  end.

(* ================================================================== *)
(** ** [resolveAbsoluteUrl]                                            *)
(* ================================================================== *)

(** The variables of [process.env] that the module reads; [None] is
    undefined. *)
Record Env := {
  SITE_ORIGIN : option string;
  BLOG_PATH_PREFIX : option string;
  DATOCMS_API_TOKEN : option string;
  GITHUB_TOKEN : option string;
  GA4_PROPERTY_ID : option string
}.

(** What a tool throws: an [Error] with a message, or the failure of a
    platform call. *)
Inductive Thrown :=
| Message (msg : string)      (* throw new Error(msg) *)
| Rejected                    (* fetch rejected *)
| BadJson                     (* res.json() rejected *)
| TypeError.                  (* a property of undefined, a method of a non-array *)

Record PageRef := { ref_url : option string; ref_path : option string; ref_slug : option string }.

Definition resolveAbsoluteUrl (env : Env) (input : PageRef) : Thrown + string :=
  if Str.given (ref_url input) then inr (or_empty (ref_url input))
  else
    if negb (Str.given (SITE_ORIGIN env)) then
      inl (Message "Missing SITE_ORIGIN environment variable. Provide full url, or set SITE_ORIGIN to construct pageLocation from path/slug.")
    else
      let origin := or_empty (SITE_ORIGIN env) in
      if Str.given (ref_path input) then
        let path0 := or_empty (ref_path input) in
        let p := if JS.startsWith path0 "/" then path0 else "/" +:+ path0 in
        inr (Str.strip_slash origin +:+ p)
      else if Str.given (ref_slug input) then
        let slug0 := or_empty (ref_slug input) in
        let prefix :=
          Str.strip_slash
            (if Str.given (BLOG_PATH_PREFIX env)
             then or_empty (BLOG_PATH_PREFIX env) else "/blog/") in
        let s := if JS.startsWith slug0 "/" then Str.tail slug0 else slug0 in
        inr (Str.strip_slash origin +:+ prefix +:+ "/" +:+ s)
      else inl (Message "Provide one of url, path, or slug").

(* ================================================================== *)
(** ** The analytics request                                           *)
(* ================================================================== *)

Module GA.

Definition DEFAULT_GA_METRICS : list string :=
  ["screenPageViews"; "activeUsers"; "sessions"].

(** [ALLOWED_GA_METRICS.has(m)] *)
Definition allowed (m : string) : bool :=
  existsb (String.eqb m) DEFAULT_GA_METRICS.

Record ReportOptions := {
  opt_pageLocation : string;
  opt_startDate : string;
  opt_endDate : string;
  opt_metrics : option (list string)
}.

(** The argument of [runReport]. *)
Record RunReport := {
  property : string;
  dateRange : string * string;
  pageLocationFilter : string;
  metrics : list string;
  limit : Z
}.

(** [runGa4ReportByLocation], up to its call of the analytics client. *)
Definition runGa4ReportByLocation (env : Env) (opts : ReportOptions)
  : Thrown + RunReport :=
  if negb (Str.given (GA4_PROPERTY_ID env)) then
    inl (Message "Missing GA4_PROPERTY_ID environment variable.")
  else
    let metrics :=
      match opt_metrics opts with
      | Some (m :: ms) => m :: ms
      | _ => DEFAULT_GA_METRICS
      end in
    inr {| property := "properties/" +:+ or_empty (GA4_PROPERTY_ID env);
           dateRange := (opt_startDate opts, opt_endDate opts);
           pageLocationFilter := opt_pageLocation opts;
           metrics := metrics;
           limit := 100000 |}.

Record Input := {
  page : PageRef;
  lastNDays : option Z;
  startDate : option string;
  endDate : option string;
  in_metrics : option (list string)
}.

(** A number is truthy unless it is 0; [None] is undefined. *)
Definition number_given (n : option Z) : bool :=
  match n with Some k => negb (k =? 0) | None => false end.

(** [get_ga_metrics.execute]; [utc t] is the calendar date of the
    instant [t], in milliseconds, and [now] the instant of the call. *)
Definition get_ga_metrics (env : Env) (utc : Z -> UTCDate) (now : Z) (input : Input)
  : Thrown + RunReport :=
  match resolveAbsoluteUrl env (page input) with
  | inl err => inl err
  | inr pageLocation =>
      let range :=
        if number_given (lastNDays input) then
          let n := match lastNDays input with Some k => k | None => 0 end in
          let end_ := toYMD (utc now) in
          let start := toYMD (utc (now - (n - 1) * 86400000)) in
          (Some start, Some end_)
        else (startDate input, endDate input) in
      if negb (Str.given (fst range)) || negb (Str.given (snd range)) then
        inl (Message "Invalid date range. Check lastNDays or start/end dates.")
      else
        let safeMetrics :=
          List.filter allowed
            (match in_metrics input with
             | Some ms => ms
             | None => DEFAULT_GA_METRICS
             end) in
        runGa4ReportByLocation env
          {| opt_pageLocation := pageLocation;
             opt_startDate := or_empty (fst range);
             opt_endDate := or_empty (snd range);
             opt_metrics := Some safeMetrics |}
  end.

End GA.

(* ================================================================== *)
(** ** Calls of a remote service                                       *)
(* ================================================================== *)

(** A tool that calls a remote service: the requests it has issued, in
    order, and what it throws or returns. *)
Module Tool.
Section Tool.
Context {Req : Type}.

Definition IO (A : Type) : Type := list Req * (Thrown + A).

Definition ret {A} (a : A) : IO A := ([], inr a).

Definition throw {A} (e : Thrown) : IO A := ([], inl e).

Definition bind {A B} (c : IO A) (k : A -> IO B) : IO B :=
  match snd c with
  | inl e => (fst c, inl e)
  | inr a => (fst c ++ fst (k a), snd (k a))
  end.

(** [await fetch(req)]: the request is issued; no answer is a rejection. *)
Definition call {Res} (fetch : Req -> option Res) (req : Req) : IO Res :=
  ([req], match fetch req with Some res => inr res | None => inl Rejected end).

(** A value that may be undefined, of which a property is read. *)
Definition defined {A} (o : option A) : IO A :=
  match o with Some a => ret a | None => throw TypeError end.

End Tool.
End Tool.

(* ================================================================== *)
(** ** [datoQuery]                                                     *)
(* ================================================================== *)

Module Dato.
Import Tool.

(** The two GraphQL operations of [get_author_expertise] with their
    variables. *)
Inductive Query :=
| FindAuthorIdsForExpertise (authorName : string)
| AuthorExpertiseBlogs (authorIds : list string) (first : Z).

Record DatoRequest := { authorization : string; includeDrafts : string; body : Query }.

Record Author := { author_id : string; author_name : option string }.

Record Blog := {
  blog_id : string;
  blog_title : option string;
  blog_description : option string;
  blog_createdAt : string;
  blog_status : string;
  blog_slug : option string
}.

(** The [data] of an answer, with the fields the two operations select. *)
Record Data := { allAuthors : option (list Author); allBlogs : option (list Blog) }.

(** The body of an answer as [datoQuery] types it: [errors] is the list
    of the messages. *)
Record Json := { data : option Data; errors : option (list string) }.

(** [json = None]: [res.json()] rejects. *)
Record DatoResponse := { ok : bool; statusText : string; json : option Json }.

Section Dato.
Variable env : Env.
Variable fetch : DatoRequest -> option DatoResponse.

Definition datoQuery (query : Query) : IO (Req := DatoRequest) (option Data) :=
  if negb (Str.given (DATOCMS_API_TOKEN env)) then
    throw (Message "Missing DATOCMS_API_TOKEN environment variable. Please export your DatoCMS API key.")
  else
    bind (call fetch
            {| authorization := "Bearer " +:+ or_empty (DATOCMS_API_TOKEN env);
               includeDrafts := "true";
               body := query |})
      (fun res =>
         match json res with
         | None => throw BadJson
         | Some js =>
             if negb (ok res) || bool_decide (is_Some (errors js)) then
               let joined :=
                 match errors js with
                 | Some msgs => String.concat "; " msgs
                 | None => EmptyString
                 end in
               let err := if JS.truthy joined then joined else statusText res in
               throw (Message ("DatoCMS GraphQL error: " +:+ err))
             else ret (data js)
         end).

End Dato.
End Dato.

(* ================================================================== *)
(** ** The GitHub tools                                                *)
(* ================================================================== *)

Module GitHub.
Import Tool.

(** The two endpoints, under [https://api.github.com]. *)
Inductive Endpoint :=
| RepoReleases (repo : string)     (* /repos/coder/<repo>/releases *)
| OrgRepos.                        (* /orgs/coder/repos *)

Record ApiRequest := {
  endpoint : Endpoint;
  searchParams : list (string * string);
  accept : string;
  authorization : string;
  apiVersion : string
}.

(** [json = None]: [res.json()] rejects.  The list is the array of a
    success answer; for an error answer it stands for whatever JSON value
    the body holds, which the tools do not look at. *)
Record ApiResponse (A : Type) := {
  ok : bool;
  status : Z;
  statusText : string;
  json : option (list A)
}.
Arguments ok {A}.
Arguments status {A}.
Arguments statusText {A}.
Arguments json {A}.

Record ApiRelease := {
  name : option string;
  tag_name : option string;
  draft : bool;
  prerelease : bool;
  published_at : option string;
  html_url : string;
  body : option string             (* [None]: null or absent *)
}.

(** What the tool returns for a release; [r_body = None] is undefined and
    [Some None] is null. *)
Record Release := {
  r_name : option string;
  r_tag : option string;
  r_draft : bool;
  r_prerelease : bool;
  r_publishedAt : option string;
  r_url : string;
  r_body : option (option string)
}.

Definition request (env : Env) (e : Endpoint) (params : list (string * string))
  : ApiRequest :=
  {| endpoint := e;
     searchParams := params;
     accept := "application/vnd.github+json";
     authorization := "Bearer " +:+ or_empty (GITHUB_TOKEN env);
     apiVersion := "2022-11-28" |}.

Definition MISSING_TOKEN : Thrown :=
  Message "Missing GITHUB_TOKEN environment variable. Please export a GitHub token.".

(** [get_github_releases.execute] *)
Definition get_github_releases (env : Env)
    (fetch : ApiRequest -> option (ApiResponse ApiRelease))
    (repo : string) (limit : Z)
    (includePrereleases includeDrafts includeBody : bool)
  : IO (Req := ApiRequest) (list Release) :=
  if negb (Str.given (GITHUB_TOKEN env)) then throw MISSING_TOKEN
  else
    bind (call fetch
            (request env (RepoReleases repo)
               [("per_page", Str.of_int (Z.min limit 100))]))
      (fun res =>
         match json res with
         | None => throw BadJson
         | Some js =>
             if negb (ok res) then
               throw (Message ("GitHub releases error: " +:+ Str.of_int (status res)
                               +:+ " " +:+ statusText res))
             else
               ret (map (fun r =>
                           {| r_name := name r;
                              r_tag := tag_name r;
                              r_draft := draft r;
                              r_prerelease := prerelease r;
                              r_publishedAt := published_at r;
                              r_url := html_url r;
                              r_body := if includeBody then Some (body r) else None |})
                      (Ranker.slice0_list
                         (List.filter
                            (fun r => if includeDrafts then true else negb (draft r))
                            (List.filter
                               (fun r => if includePrereleases then true
                                         else negb (prerelease r))
                               js))
                         limit))
         end).

Record ApiRepo := {
  repo_name : string;
  full_name : string;
  private : bool;
  archived : bool;
  fork : bool;
  description : option string;
  language : option string;
  stargazers_count : Z;
  updated_at : string;
  repo_html_url : string
}.

Record Repo := {
  o_name : string;
  o_fullName : string;
  o_private : bool;
  o_archived : bool;
  o_fork : bool;
  o_description : option string;
  o_language : option string;
  o_stars : Z;
  o_updatedAt : string;
  o_url : string
}.

(** [list_accessible_repos.execute] *)
Definition list_accessible_repos (env : Env)
    (fetch : ApiRequest -> option (ApiResponse ApiRepo))
    (type sort direction : string) (includeArchived : bool) (limit : Z)
  : IO (Req := ApiRequest) (list Repo) :=
  if negb (Str.given (GITHUB_TOKEN env)) then throw MISSING_TOKEN
  else
    bind (call fetch
            (request env OrgRepos
               [("type", type); ("sort", sort); ("direction", direction);
                ("per_page", Str.of_int (Z.min limit 100))]))
      (fun res =>
         if negb (ok res) then
           throw (Message ("GitHub repos error: " +:+ Str.of_int (status res)
                           +:+ " " +:+ statusText res))
         else
           match json res with
           | None => throw BadJson
           | Some js =>
               ret (map (fun r =>
                           {| o_name := repo_name r;
                              o_fullName := full_name r;
                              o_private := private r;
                              o_archived := archived r;
                              o_fork := fork r;
                              o_description := description r;
                              o_language := language r;
                              o_stars := stargazers_count r;
                              o_updatedAt := updated_at r;
                              o_url := repo_html_url r |})
                      (List.filter
                         (fun r => if includeArchived then true else negb (archived r))
                         js))
           end).

End GitHub.

(* ================================================================== *)
(** ** Counting words                                                  *)
(* ================================================================== *)

Module Counts.

(** A [Map<string, number>] with its entries in insertion order;
    [bump w m] is [m.set(w, (m.get(w) || 0) + 1)]. *)
Fixpoint bump (w : string) (m : list (string * Z)) : list (string * Z) :=
  match m with
  | [] => [(w, 1)]
  | (k, n) :: m' =>
      if String.eqb k w then (k, n + 1) :: m' else (k, n) :: bump w m'
  end.

(** [for (const w of ws) m.set(w, (m.get(w) || 0) + 1)] *)
Definition bump_all (ws : list string) (m : list (string * Z)) : list (string * Z) :=
  fold_left (fun m w => bump w m) ws m.

(** [Array.from(m.entries()).sort(([, a], [, b]) => b - a).slice(0, n)] *)
Definition top (n : Z) (m : list (string * Z)) : list (string * Z) :=
  Ranker.slice0_list (Ranker.sort_desc m) n.

(** [l.includes(w)] and [set.has(w)] for a list or set of strings. *)
Definition has (l : list string) (w : string) : bool :=
  existsb (String.eqb w) l.

End Counts.

(* ================================================================== *)
(** ** [suggest_content_topics]                                        *)
(* ================================================================== *)

Module Topics.
Import Counts.

Record ReleaseData := {
  name : option string;
  tag : option string;
  body : option string
}.

Record ContentIdea := { release : string; suggestedTopics : list string }.

Record Suggestions := {
  analyzedReleases : Z;
  topThemes : list (string * Z);
  contentIdeas : list ContentIdea;
  generalSuggestions : list string
}.

Definition COMMON_WORDS : list string :=
  ["the"; "and"; "for"; "with"; "this"; "that"; "fix"; "add"; "update"; "new";
   "now"; "can"; "will"].

(** The words of a release; the chain of calls on the text is the one of
    [tokenize]. *)
Definition keywords (r : ReleaseData) : list string :=
  List.filter (fun word => negb (has COMMON_WORDS word))
    (Ranker.tokenize
       (or_empty (name r) +:+ " " +:+ or_empty (tag r) +:+ " " +:+ or_empty (body r))).

(** [release.name || release.tag || "Release"] *)
Definition releaseName (r : ReleaseData) : string :=
  if Str.given (name r) then or_empty (name r)
  else if Str.given (tag r) then or_empty (tag r)
  else "Release".

Definition idea (r : ReleaseData) : ContentIdea :=
  {| release := releaseName r;
     suggestedTopics :=
       ["What's new in " +:+ releaseName r;
        "Getting started with " +:+ releaseName r +:+ " features";
        "Migration guide for " +:+ releaseName r;
        "Deep dive into " +:+ releaseName r +:+ " improvements"] |}.

(** One turn of the loop over the releases. *)
Definition step (st : list (string * Z) * list ContentIdea) (r : ReleaseData)
  : list (string * Z) * list ContentIdea :=
  (bump_all (keywords r) (fst st), snd st ++ [idea r]).

(** [suggest_content_topics.execute] *)
Definition suggest_content_topics (releaseData : list ReleaseData) : Suggestions :=
  let st := fold_left step releaseData ([], []) in
  {| analyzedReleases := Z.of_nat (length releaseData);
     topThemes := top 15 (fst st);
     contentIdeas := snd st;
     generalSuggestions :=
       ["Feature spotlight posts"; "Tutorial and how-to guides";
        "Migration and upgrade guides"; "Performance and improvement highlights";
        "Developer experience stories"] |}.

End Topics.

(* ================================================================== *)
(** ** [get_author_expertise]                                          *)
(* ================================================================== *)

Module Expertise.
Import Tool Counts Dato.

Definition STOP_WORDS : list string :=
  ["the"; "and"; "or"; "but"; "in"; "on"; "at"; "to"; "for"; "of"; "with"; "by";
   "is"; "are"; "was"; "were"; "be"; "been"; "have"; "has"; "had"; "do"; "does";
   "did"; "will"; "would"; "could"; "should"; "may"; "might"; "can"; "this";
   "that"; "these"; "those"; "a"; "an"; "how"; "what"; "when"; "where"; "why";
   "who"].

Record RecentPost := {
  title : option string;
  slug : option string;
  createdAt : string;
  status : string
}.

Record Result := {
  authorName : string;
  postCount : Z;
  expertise : list (string * Z);
  recentPosts : list RecentPost
}.

Definition nothing (authorName : string) : Result :=
  {| authorName := authorName; postCount := 0; expertise := []; recentPosts := [] |}.

(** The words of a post, from its title and its description. *)
Definition post_words (post : Blog) : list string :=
  List.filter
    (fun word => (2 <? JS.strlen word) && negb (has STOP_WORDS word))
    (Re.split_ws
       (Re.blank_non_alnum
          (JS.toLowerCase
             (or_empty (blog_title post) +:+ " " +:+ or_empty (blog_description post))))).

Definition recent (p : Blog) : RecentPost :=
  {| title := blog_title p;
     slug := blog_slug p;
     createdAt := blog_createdAt p;
     status := blog_status p |}.

Section Expertise.
Variable env : Env.
Variable fetch : DatoRequest -> option DatoResponse.

(** [get_author_expertise.execute] *)
Definition get_author_expertise (authorName : string) (limit : Z)
  : IO (Req := DatoRequest) Result :=
  bind (datoQuery env fetch (FindAuthorIdsForExpertise authorName)) (fun authors =>
  bind (defined authors) (fun authors =>
  let authorIds :=
    match allAuthors authors with
    | Some l => map author_id l
    | None => []
    end in
  if (length authorIds =? 0)%nat then ret (nothing authorName)
  else
    bind (datoQuery env fetch (AuthorExpertiseBlogs authorIds limit)) (fun data =>
    bind (defined data) (fun data =>
    bind (defined (allBlogs data)) (fun blogs =>
    if (length blogs =? 0)%nat then ret (nothing authorName)
    else
      let keywords := fold_left (fun m post => bump_all (post_words post) m) blogs [] in
      ret {| authorName := authorName;
             postCount := Z.of_nat (length blogs);
             expertise := top 10 keywords;
             recentPosts := map recent (Ranker.slice0_list blogs 5) |}))))).

End Expertise.
End Expertise.

(* ================================================================== *)
(** * The vocabulary of the statements                                 *)
(* ================================================================== *)

(** The characters of a dotted-decimal literal. *)
Definition digit_or_dot (c : ascii) : bool := JS.is_digit c || Ascii.eqb c ".".

Definition is_fetch (ev : Event) : bool :=
  match ev with EvFetch _ => true | EvText _ => false end.

(** The number of [fetch] calls recorded in a trace. *)
Definition fetches (t : list Event) : nat := length (List.filter is_fetch t).

(** The state after a successful or failed run over cache [c]: only a
    result that was built is stored, and only when caching was asked. *)
Definition stored (cache : bool) (key : string) (now : Z)
    (res : Error + PageAnalysis) (c : gmap string CacheEntry)
  : gmap string CacheEntry :=
  match res with
  | inr r => if cache then <[key := {| entry_at := now; entry_data := r |}]> c else c
  | inl _ => c
  end.

(** The links of a document do not depend on the state. *)
Definition links_result (P : Platform) (u : URL) (doc : Document)
  : Error + list Link :=
  fst (collect_links P u doc {| pageCache := ∅; trace := [] |}).

(** [m] neither reads nor writes the cache: its result and its trace are
    the same over every cache, and the cache is handed back as it was. *)
Definition cache_free {A} (m : M A) : Prop :=
  forall tr, exists res tr', forall c,
    m {| pageCache := c; trace := tr |} = (res, {| pageCache := c; trace := tr' |}).

(** [m] does not read the cache and writes it by [stored] only. *)
Definition stores (cache : bool) (key : string) (now : Z) (m : M PageAnalysis) : Prop :=
  forall tr, exists res tr', forall c,
    m {| pageCache := c; trace := tr |}
    = (res, {| pageCache := stored cache key now res c; trace := tr' |}).

(** The URL parses, has a supported scheme and passes the address guard. *)
Definition guard_passes (P : Platform) (url : string) (u : URL) : Prop :=
  newURL P url = Some u
  /\ (protocol u = "http:" \/ protocol u = "https:")
  /\ isPrivateHostname (isIPv6 P) (hostname u) = false.

(** The cache lookup of [execute] finds nothing it may serve. *)
Definition cache_miss (P : Platform) (u : URL) (cache : bool)
    (c : gmap string CacheEntry) : Prop :=
  cache = false
  \/ match c !! href u with
     | Some e => CACHE_TTL_MS <= dateNow P - entry_at e
     | None => True
     end.

(** The response announces no size, or one that [Number] reads and that
    is within the limit. *)
Definition within_declared_limit (cl : option string) : Prop :=
  cl = None
  \/ exists s n, cl = Some s /\ JS.Number s = Some n /\ n <= SIZE_LIMIT.






(** A line that the parsing loop acts on: a non-empty key before the first
    colon that reads user-agent, allow or disallow. *)
Definition is_directive (line : string) : bool :=
  match JS.split_char ":" line with
  | [] => false
  | rawKey :: rest =>
      JS.truthy rawKey && negb (length rest =? 0)%nat
      && (let key := JS.trim (JS.toLowerCase rawKey) in
          String.eqb key "user-agent" || String.eqb key "allow"
          || String.eqb key "disallow")
  end.

(** No line of the body is a directive. *)
Definition no_directive (body : string) : bool :=
  forallb (fun l => negb (is_directive l)) (Robots.robots_lines body).

(** The ways in which resolving the robots policy fails. *)
Inductive robots_failure (P : Platform) (target : URL) : Prop :=
| robots_url_invalid :
    resolveURL P "/robots.txt" (protocol target +:+ "//" +:+ host target) = None ->
    robots_failure P target
| robots_unreachable (ru : string) :
    (* network error, or the abort fired by the 10 s timer *)
    resolveURL P "/robots.txt" (protocol target +:+ "//" +:+ host target) = Some ru ->
    fetch P (robots_request ru) = None ->
    robots_failure P target
| robots_bad_status (ru : string) (res : Response) :
    resolveURL P "/robots.txt" (protocol target +:+ "//" +:+ host target) = Some ru ->
    fetch P (robots_request ru) = Some res ->
    ok res = false ->
    robots_failure P target
| robots_body_unreadable (ru : string) (res : Response) :
    resolveURL P "/robots.txt" (protocol target +:+ "//" +:+ host target) = Some ru ->
    fetch P (robots_request ru) = Some res ->
    ok res = true ->
    text res = None ->
    robots_failure P target
| robots_body_malformed (ru : string) (res : Response) (body : string) :
    resolveURL P "/robots.txt" (protocol target +:+ "//" +:+ host target) = Some ru ->
    fetch P (robots_request ru) = Some res ->
    ok res = true ->
    text res = Some body ->
    no_directive body = true ->
    robots_failure P target.

(** Specification: the whitespace-delimited tokens of a text, the
    non-empty pieces between runs of white space. *)
Definition whitespace_tokens (s : string) : list string :=
  List.filter JS.truthy (Re.split_ws s).

(** *** A small concrete platform *)

Module Demo.

Definition site (h path : string) : URL :=
  {| protocol := "http:"; hostname := h; host := h; pathname := path;
     href := "http://" +:+ h +:+ path |}.

(** A document with no metadata, headings or links, whose body text is
    the page source. *)
Definition page (body : string) : Document :=
  {| meta_name := fun _ => None;
     meta_property := fun _ => None;
     title_text := Some "demo";
     body_text := Some body;
     query_headings := [];
     query_anchors := [] |}.

(** A platform that knows one URL and reaches the network [net]. *)
Definition platform (u : URL) (net : Request -> option Response) (now : Z)
  : Platform :=
  {| isIPv6 := fun _ => false;
     newURL := fun s => if String.eqb s (href u) then Some u else None;
     resolveURL := fun rel base => Some (base +:+ rel);
     fetch := net;
     dateNow := now;
     parseHTML := fun html => Some (page html);
     readability := fun d => Some (None, d) |}.

Definition response (cl : option string) (body : string) : Response :=
  {| ok := true; status := 200; statusText := "OK"; res_url := "";
     content_length := cl; text := Some body |}.

(** The answer of a site without robots.txt. *)
Definition not_found : Response :=
  {| ok := false; status := 404; statusText := "Not Found"; res_url := "";
     content_length := None; text := Some "" |}.

Definition offline : Request -> option Response := fun _ => None.

(** A network that answers every request with the same response. *)
Definition always (r : Response) : Request -> option Response := fun _ => Some r.

(** A network with a robots.txt and one page. *)
Definition serving (robots page : Response) : Request -> option Response :=
  fun r => if JS.endsWith (req_url r) "/robots.txt" then Some robots else Some page.

Definition start : State := {| pageCache := ∅; trace := [] |}.

Definition analysis (body : string) : PageAnalysis :=
  {| pa_url := "http://example.com/a"; finalUrl := "http://example.com/a";
     title := Some "demo"; description := None; publishedAt := None;
     author := None; wordCount := Ranker.wordCount body; headings := [];
     links := []; excerpt := JS.slice0 body 1000; mainText := body;
     relevantPassages := [] |}.

End Demo.

(** The robots.txt of the example: one group for every agent, with
    [Disallow: /private] and [Allow: /private/public]. *)
Definition example_robots : string :=
  "User-agent: *" +:+ String JS.LF
    ("Disallow: /private" +:+ String JS.LF "Allow: /private/public").

(** The text of the example: two paragraphs of 23 characters. *)
Definition example_text : string :=
  "Para one about caching." +:+
  String JS.LF (String JS.LF "Para two about routers.").

Definition long_para_one : string :=
  "Para one about caching, written out at a length that the ranker keeps.".

Definition long_para_two : string :=
  "Para two about routers, written out at a length that the ranker keeps.".

Definition long_example_text : string :=
  long_para_one +:+ String JS.LF (String JS.LF long_para_two).

(** The [href] that [link_of] reads from an anchor. *)
Definition anchor_href (a : Element) : string :=
  JS.trim (or_empty (getAttribute a "href")).

(** A text does not start with white space. *)
Definition starts_without_space (s : string) : Prop :=
  match s with
  | EmptyString => True
  | String c _ => JS.is_space c = false
  end.

(** A character that is not white space, or is the space itself. *)
Definition space_or_visible (c : ascii) : bool :=
  negb (JS.is_space c) || Ascii.eqb c " ".

(** What [link_of] guarantees of a link it builds. *)
Definition tidy_link (l : Link) : Prop :=
  JS.strlen (l_text l) <= 200
  /\ JS.all_chars space_or_visible (l_text l) = true
  /\ JS.toLowerCase (l_rel l) = l_rel l
  /\ l_nofollow l = includes (l_rel l) "nofollow".

(** A field that is a string or null is never the empty string. *)
Definition null_or_nonempty (o : option string) : Prop := o <> Some EmptyString.

(** A platform like [Demo.platform] whose URL parser rejects a reference
    that starts with [http://[] and whose HTML parser answers [doc]. *)
Definition picky_platform (u : URL) (net : Request -> option Response)
    (doc : Document) : Platform :=
  {| isIPv6 := fun _ => false;
     newURL := fun s => if String.eqb s (href u) then Some u else None;
     resolveURL := fun rel base =>
       if String.prefix "http://[" rel then None else Some (base +:+ rel);
     fetch := net;
     dateNow := 0;
     parseHTML := fun _ => Some doc;
     readability := fun d => Some (None, d) |}.

Definition anchor (href_value : string) : Element :=
  {| tagName := "A"; textContent := Some "a  link";
     getAttribute := fun n => if String.eqb n "href" then Some href_value else None |}.

Definition page_with_anchors (l : list Element) : Document :=
  {| meta_name := fun _ => None;
     meta_property := fun _ => None;
     title_text := Some "demo";
     body_text := Some "text";
     query_headings := [];
     query_anchors := l |}.

(** The paragraphs that the ranker scores above zero, with their scores,
    in the order of the text: the list that [relevantPassages] sorts. *)
Definition scored_paragraphs (text question : string) : list (string * Z) :=
  let qTokens : gset string := list_to_set (Ranker.tokenize question) in
  List.filter (fun ps => 0 <? snd ps)
    (map (fun p =>
            (p,
             fold_left
               (fun acc w => acc + (if bool_decide (w ∈ qTokens) then 1 else 0))
               (Ranker.tokenize p) 0))
         (List.filter (fun p => 60 <? JS.strlen p)
            (map JS.trim (Re.split_paras text)))).

(** A lower-case letter or a digit. *)
Definition is_word_char (c : ascii) : bool := JS.is_lower_az c || JS.is_digit c.

(** A line that opens a group: its key reads user-agent. *)
Definition is_user_agent_line (line : string) : bool :=
  match JS.split_char ":" line with
  | [] => false
  | rawKey :: rest =>
      JS.truthy rawKey && negb (length rest =? 0)%nat
      && String.eqb (JS.trim (JS.toLowerCase rawKey)) "user-agent"
  end.

(** A robots.txt in which two user-agent lines precede one rule. *)
Definition shared_group_robots : string :=
  "User-agent: content-agent" +:+ String JS.LF
    ("User-agent: googlebot" +:+ String JS.LF "Disallow: /").

(** Scored entries in non-increasing order of score. *)
Definition by_score_desc (a b : string * Z) : Prop := snd b <= snd a.


(** Exactly four, and exactly two, decimal digits. *)
Definition four_digits (s : string) : bool :=
  match s with
  | String a (String b (String c (String d EmptyString))) =>
      JS.is_digit a && JS.is_digit b && JS.is_digit c && JS.is_digit d
  | _ => false
  end.

Definition two_digits (s : string) : bool :=
  match s with
  | String a (String b EmptyString) => JS.is_digit a && JS.is_digit b
  | _ => false
  end.

(** The date as the analytics service writes it: [YYYYMMDD]. *)
Definition compact_date (date : UTCDate) : string :=
  Str.of_int (utcFullYear date)
  +:+ Str.padStart (Str.of_int (utcMonth date + 1)) 2 "0"
  +:+ Str.padStart (Str.of_int (utcDate date)) 2 "0".

(** The environment with another [SITE_ORIGIN]. *)
Definition with_origin (env : Env) (origin : string) : Env :=
  {| SITE_ORIGIN := Some origin;
     BLOG_PATH_PREFIX := BLOG_PATH_PREFIX env;
     DATOCMS_API_TOKEN := DATOCMS_API_TOKEN env;
     GITHUB_TOKEN := GITHUB_TOKEN env;
     GA4_PROPERTY_ID := GA4_PROPERTY_ID env |}.

Definition bare_env : Env :=
  {| SITE_ORIGIN := None; BLOG_PATH_PREFIX := None; DATOCMS_API_TOKEN := None;
     GITHUB_TOKEN := None; GA4_PROPERTY_ID := None |}.

(** The input of [get_ga_metrics] with other explicit dates. *)
Definition with_dates (input : GA.Input) (s e : option string) : GA.Input :=
  {| GA.page := GA.page input;
     GA.lastNDays := GA.lastNDays input;
     GA.startDate := s;
     GA.endDate := e;
     GA.in_metrics := GA.in_metrics input |}.

(** The metrics asked of [get_ga_metrics]. *)
Definition asked_metrics (input : GA.Input) : list string :=
  match GA.in_metrics input with
  | Some ms => ms
  | None => GA.DEFAULT_GA_METRICS
  end.

Definition one_day_ms : Z := 86400000.

(** The request that [datoQuery] sends for a query. *)
Definition dato_request (env : Env) (q : Dato.Query) : Dato.DatoRequest :=
  {| Dato.authorization := "Bearer " +:+ or_empty (DATOCMS_API_TOKEN env);
     Dato.includeDrafts := "true";
     Dato.body := q |}.

(** An environment with the two access tokens only. *)
Definition token_env (dato github : option string) : Env :=
  {| SITE_ORIGIN := None; BLOG_PATH_PREFIX := None; DATOCMS_API_TOKEN := dato;
     GITHUB_TOKEN := github; GA4_PROPERTY_ID := None |}.

(** What a release that the tool returns may be, given the flags of the
    call. *)
Definition release_permitted (includePrereleases includeDrafts includeBody : bool)
    (r : GitHub.Release) : Prop :=
  (GitHub.r_prerelease r = true -> includePrereleases = true)
  /\ (GitHub.r_draft r = true -> includeDrafts = true)
  /\ (GitHub.r_body r = None <-> includeBody = false).

(** [m.get(w) || 0] *)
Definition count_in (m : list (string * Z)) (w : string) : Z :=
  match find (fun kn => String.eqb (fst kn) w) m with
  | Some kn => snd kn
  | None => 0
  end.

(** A word made of at least three lower-case letters and digits. *)
Definition is_word (w : string) : Prop :=
  3 <= JS.strlen w /\ JS.all_chars is_word_char w = true.

(** All the keywords of a list of releases, in order. *)
Definition all_keywords (releaseData : list Topics.ReleaseData) : list string :=
  concat (map Topics.keywords releaseData).

(** An answer of the content service with a success status and the given
    body. *)
Definition dato_answer (js : Dato.Json) : Dato.DatoResponse :=
  {| Dato.ok := true; Dato.statusText := "OK"; Dato.json := Some js |}.



(* ================================================================== *)
(** * Properties                                                       *)
(* ================================================================== *)

(** ** Characters and strings *)

Section StringFacts.
Import JS.

Ltac by_cases_on_char c :=
  destruct c as [[] [] [] [] [] [] [] []]; vm_compute; congruence.

Lemma lower_char_idem (c : ascii) : lower_char (lower_char c) = lower_char c.
Proof. by_cases_on_char c. Qed.

Lemma toLowerCase_idem (s : string) : toLowerCase (toLowerCase s) = toLowerCase s.
Proof.
  unfold toLowerCase.
  induction s as [|c s IH]; simpl; [reflexivity|].
  now rewrite lower_char_idem, IH.
Qed.

Lemma lower_digit_or_dot (c : ascii) : digit_or_dot c = true -> lower_char c = c.
Proof. by_cases_on_char c. Qed.

Lemma toLowerCase_digits (s : string) :
  all_chars digit_or_dot s = true -> toLowerCase s = s.
Proof.
  unfold toLowerCase.
  induction s as [|c s IH]; simpl; [reflexivity|].
  intros [Hc Hs]%andb_prop.
  now rewrite lower_digit_or_dot, IH.
Qed.

Lemma split_char_nonempty (sep : ascii) (s : string) : split_char sep s <> [].
Proof.
  induction s as [|c s IH]; simpl; [discriminate|].
  destruct (Ascii.eqb c sep); [discriminate|].
  destruct (split_char sep s); [contradiction|discriminate].
Qed.

(** When every piece of a split satisfies [q], and so does the separator,
    the whole string does. *)
Lemma all_chars_split (q : ascii -> bool) (sep : ascii) (s : string) :
  q sep = true ->
  forallb (all_chars q) (split_char sep s) = true ->
  all_chars q s = true.
Proof.
  intros Hsep. induction s as [|c s IH]; simpl; [reflexivity|].
  destruct (Ascii.eqb_spec c sep) as [->|Hne].
  - simpl. intros H. now rewrite Hsep, IH.
  - destruct (split_char sep s) as [|p ps] eqn:E.
    + now destruct (split_char_nonempty sep s).
    + simpl. intros [[Hc Hp]%andb_prop Hps]%andb_prop.
      rewrite Hc. simpl. apply IH. simpl. now rewrite Hp, Hps.
Qed.

Lemma v4seg_digits (s : string) : Net.v4seg s = true -> all_chars digit_or_dot s = true.
Proof.
  unfold digit_or_dot.
  destruct s as [|a [|b [|c [|d s]]]]; simpl; try discriminate.
  - intros ->. reflexivity.
  - intros [Ha ->]%andb_prop.
    assert (is_digit a = true) as -> by (revert Ha; by_cases_on_char a).
    reflexivity.
  - intros H.
    assert (is_digit a = true /\ is_digit b = true /\ is_digit c = true)
      as (-> & -> & ->); [|reflexivity].
    repeat match type of H with
           | _ || _ = true => apply orb_prop in H; destruct H as [H|H]
           | _ && _ = true => apply andb_prop in H; destruct H as [H ?]
           end;
      repeat match goal with
             | E : Ascii.eqb _ _ = true |- _ => apply Ascii.eqb_eq in E; subst
             end;
      repeat split; try reflexivity; try assumption;
      match goal with
      | E : in_range _ _ ?x = true |- is_digit ?x = true =>
          revert E; clear; by_cases_on_char x
      end.
Qed.

Lemma isIPv4_digits (s : string) : Net.isIPv4 s = true -> all_chars digit_or_dot s = true.
Proof.
  unfold Net.isIPv4. intros H.
  apply (all_chars_split digit_or_dot "."); [reflexivity|].
  destruct (split_char "." s) as [|a [|b [|c [|d [|e l]]]]]; try discriminate.
  apply andb_prop in H as [[[Ha Hb]%andb_prop Hc]%andb_prop Hd].
  simpl. now rewrite !v4seg_digits.
Qed.

(** A dotted-decimal literal never ends in [.local]. *)
Lemma endsWith_digits (s : string) :
  all_chars digit_or_dot s = true -> endsWith s ".local" = false.
Proof.
  induction s as [|c s IH]; [reflexivity|].
  intros H. change (endsWith (String c s) ".local")
    with (String.eqb (String c s) ".local" || endsWith s ".local").
  destruct (String.eqb_spec (String c s) ".local") as [E|_].
  - rewrite E in H. discriminate H.
  - simpl in H. apply andb_prop in H as [_ H]. now rewrite IH.
Qed.

Lemma prefix_split (p s : string) :
  String.prefix p s = true -> exists t, s = (p +:+ t).
Proof.
  revert s. induction p as [|c p IH]; intros s H.
  - exists s. reflexivity.
  - destruct s as [|d s]; simpl in H; [discriminate|].
    destruct (ascii_dec c d) as [->|]; [|discriminate].
    destruct (IH _ H) as [t ->]. now exists t.
Qed.

End StringFacts.

(** ** The address guard *)

Section GuardFacts.
Import JS.

Variable isIPv6 : string -> bool.

(** The first piece of a split is known as soon as the string starts with
    it and a separator. *)
Lemma split_char_head (sep : ascii) (p t : string) :
  all_chars (fun c => negb (Ascii.eqb c sep)) p = true ->
  split_char sep (p +:+ String sep t) = p :: split_char sep t.
Proof.
  induction p as [|c p IH]; simpl.
  - intros _. now rewrite Ascii.eqb_refl.
  - intros [Hc Hp]%andb_prop. apply negb_true_iff in Hc. rewrite Hc.
    now rewrite IH.
Qed.

(** On a dotted-decimal literal the guard is decided by the literal
    itself: the two literal names, the three prefixes and the 172 test. *)
Lemma guard_on_ipv4 (h : string) :
  Net.isIPv4 h = true ->
  isPrivateHostname isIPv6 h =
    String.eqb h "127.0.0.1" || String.eqb h "0.0.0.0"
    || startsWith h "10." || startsWith h "127." || startsWith h "192.168."
    || ((Z.of_nat (length (octets_of h)) =? 4)
        && num_eq (octet (octets_of h) 0) 172
        && num_ge (octet (octets_of h) 1) 16
        && num_le (octet (octets_of h) 1) 31).
Proof.
  intros Hip. pose proof (isIPv4_digits h Hip) as Hd.
  unfold isPrivateHostname. rewrite (toLowerCase_digits h Hd).
  rewrite (endsWith_digits h Hd).
  unfold Net.isIP. rewrite Hip. simpl negb.
  destruct (String.eqb_spec h "localhost") as [->|_]; [discriminate Hd|].
  destruct (String.eqb_spec h "::1") as [->|_]; [discriminate Hd|].
  destruct (String.eqb h "127.0.0.1"); [reflexivity|].
  destruct (String.eqb h "0.0.0.0"); [reflexivity|].
  cbn [orb].
  destruct (startsWith h "10."); [reflexivity|].
  destruct (startsWith h "127."); [reflexivity|].
  destruct (startsWith h "192.168."); [reflexivity|].
  cbn [orb].
  now destruct (_ && _).
Qed.

(** Link-local literals pass the guard. *)
Lemma guard_link_local (h : string) :
  Net.isIPv4 h = true ->
  startsWith h "169.254." = true ->
  isPrivateHostname isIPv6 h = false.
Proof.
  intros Hip Hpre. rewrite (guard_on_ipv4 h Hip).
  destruct (prefix_split _ _ Hpre) as [t ->].
  pose proof (split_char_head "." "169" ("254." +:+ t) eq_refl) as E.
  change ("169" +:+ String "."%char ("254." +:+ t)) with ("169.254." +:+ t) in E.
  unfold octets_of. rewrite E.
  cbn. now rewrite andb_false_r.
Qed.

Lemma isIPv4_four_pieces (h : string) :
  Net.isIPv4 h = true -> length (split_char "." h) = 4%nat.
Proof.
  unfold Net.isIPv4.
  now destruct (split_char "." h) as [|a [|b [|c [|d [|e l]]]]].
Qed.

(** In the 172 block the guard is the test of the second octet. *)
Lemma guard_172 (h : string) :
  Net.isIPv4 h = true ->
  startsWith h "172." = true ->
  isPrivateHostname isIPv6 h =
    num_ge (octet (octets_of h) 1) 16 && num_le (octet (octets_of h) 1) 31.
Proof.
  intros Hip Hpre. rewrite (guard_on_ipv4 h Hip).
  assert ((Z.of_nat (length (octets_of h)) =? 4) = true) as ->.
  { unfold octets_of. rewrite length_map, (isIPv4_four_pieces h Hip). reflexivity. }
  destruct (prefix_split _ _ Hpre) as [t ->].
  pose proof (split_char_head "." "172" t eq_refl) as E.
  change ("172" +:+ String "."%char t) with ("172." +:+ t) in E.
  unfold octets_of. rewrite E. reflexivity.
Qed.

End GuardFacts.

(** C2.  The hosts localhost, 127.0.0.1, 0.0.0.0, ::1, foo.local, 10.1.2.3,
    172.20.5.5 and 192.168.1.1 are classified private by
    [isPrivateHostname]; 8.8.8.8 and example.com are not.  For a
    dotted-decimal literal that starts with [172.] the answer is exactly
    the test that the second of its four octets lies in 16..31. *)
Theorem guard_listed_hosts (isIPv6 : string -> bool) :
  forallb (isPrivateHostname isIPv6)
    ["localhost"; "127.0.0.1"; "0.0.0.0"; "::1"; "foo.local";
     "10.1.2.3"; "172.20.5.5"; "192.168.1.1"] = true
  /\ isPrivateHostname isIPv6 "8.8.8.8" = false
  /\ isPrivateHostname isIPv6 "example.com" = false
  /\ (forall h : string,
        Net.isIPv4 h = true ->
        JS.startsWith h "172." = true ->
        length (octets_of h) = 4%nat
        /\ octet (octets_of h) 0 = Some 172
        /\ isPrivateHostname isIPv6 h =
             JS.num_ge (octet (octets_of h) 1) 16
             && JS.num_le (octet (octets_of h) 1) 31).
Proof.
  split; [reflexivity|]. split; [reflexivity|]. split.
  - unfold isPrivateHostname, Net.isIP. vm_compute.
    now destruct (isIPv6 _).
  - intros h Hip Hpre. split; [|split].
    + unfold octets_of. rewrite length_map. now apply isIPv4_four_pieces.
    + destruct (prefix_split _ _ Hpre) as [t ->].
      pose proof (split_char_head "." "172" t eq_refl) as E.
      change ("172" +:+ String "."%char t) with ("172." +:+ t) in E.
      unfold octets_of. rewrite E. reflexivity.
    + now apply guard_172.
Qed.

Lemma guard_listed_hosts_witness :
  isPrivateHostname (fun _ => false) "172.31.255.1" = true
  /\ isPrivateHostname (fun _ => false) "172.32.0.1" = false.
Proof.
  destruct (guard_listed_hosts (fun _ => false)) as (_ & _ & _ & H).
  split.
  - rewrite (proj2 (proj2 (H "172.31.255.1" eq_refl eq_refl))). reflexivity.
  - rewrite (proj2 (proj2 (H "172.32.0.1" eq_refl eq_refl))). reflexivity.
Defined.

(** C9.  The guard is case-insensitive: a host name and its lower-cased
    form get the same answer; LOCALHOST, 127.0.0.1 and Foo.LOCAL are
    classified private. *)
Theorem guard_case_insensitive (isIPv6 : string -> bool) :
  (forall h : string,
     isPrivateHostname isIPv6 h = isPrivateHostname isIPv6 (JS.toLowerCase h))
  /\ isPrivateHostname isIPv6 "LOCALHOST" = true
  /\ isPrivateHostname isIPv6 "127.0.0.1" = true
  /\ isPrivateHostname isIPv6 "Foo.LOCAL" = true.
Proof.
  split; [|repeat split].
  intros h. unfold isPrivateHostname. now rewrite toLowerCase_idem.
Qed.

(** ** The pipeline: what a run does to the cache and to the trace *)

Section PipelineFacts.

Variable P : Platform.

Lemma fetches_app (t1 t2 : list Event) :
  fetches (t1 ++ t2) = (fetches t1 + fetches t2)%nat.
Proof. unfold fetches. now rewrite List.filter_app, length_app. Qed.

Lemma mapM_links_pure (u : URL) (l : list Element) :
  exists r, (forall st, mapM (link_of P u) l st = (r, st))
            /\ (forall e, r = inl e -> e = BadLink).
Proof.
  induction l as [|a l (r & IH & Herr)]; simpl.
  - eexists. split; [reflexivity|discriminate].
  - unfold bind at 1. unfold link_of at 1. unfold bind at 1, lift.
    destruct (resolveURL P _ _); unfold ret, throw.
    + unfold bind. destruct r as [e|ys].
      * exists (inl e). split; [intros st; now rewrite IH|exact Herr].
      * eexists. split; [intros st; now rewrite IH|discriminate].
    + eexists. split; [reflexivity|congruence].
Qed.

Lemma collect_links_run (u : URL) (doc : Document) (st : State) :
  collect_links P u doc st = (links_result P u doc, st).
Proof.
  unfold links_result, collect_links.
  destruct (mapM_links_pure u (firstn 500 (query_anchors doc))) as (r & Hr & _).
  now rewrite !Hr.
Qed.

Lemma links_result_error (u : URL) (doc : Document) (e : Error) :
  links_result P u doc = inl e -> e = BadLink.
Proof.
  unfold links_result, collect_links.
  destruct (mapM_links_pure u (firstn 500 (query_anchors doc))) as (r & Hr & He).
  rewrite Hr. exact (He e).
Qed.

Ltac unfold_run :=
  unfold execute_on_miss, fetchRobotsAllowed, robots_try, try_catch,
    do_fetch, read_text, Exec.bind, Exec.lift, Exec.emit, Exec.ret,
    Exec.throw, Exec.cache_set;
  cbn [fst snd pageCache trace].

Ltac run_cases :=
  repeat first
    [ rewrite collect_links_run
    | case_match; simplify_eq/= ].

(** A run after a cache miss never fails with the guard's error and
    always calls [fetch] at least once. *)
Lemma execute_on_miss_effects (u : URL) (q : option string) (cache : bool)
    (key : string) (now : Z) (st : State) :
  let run := execute_on_miss P u q cache key now st in
  fst run <> inl BlockedAddress
  /\ (fetches (trace st) < fetches (trace (snd run)) <= fetches (trace st) + 2)%nat.
Proof.
  destruct st as [c tr]. unfold_run.
  run_cases;
    repeat match goal with
           | H : links_result _ _ _ = inl _ |- _ =>
               apply links_result_error in H; subst
           end;
    (split; [cbn; congruence|]);
    cbn [fst snd trace]; rewrite ?fetches_app; cbn; lia.
Qed.

(** *** Computations that leave the cache alone *)

Lemma cache_free_ret {A} (a : A) : cache_free (ret a).
Proof. intros tr. now exists (inr a), tr. Qed.

Lemma cache_free_throw {A} (e : Error) : cache_free (@throw A e).
Proof. intros tr. now exists (inl e), tr. Qed.

Lemma cache_free_lift {A} (o : option A) (e : Error) : cache_free (lift o e).
Proof. destruct o; [apply cache_free_ret|apply cache_free_throw]. Qed.

Lemma cache_free_emit (ev : Event) : cache_free (emit ev).
Proof. intros tr. now exists (inr tt), (tr ++ [ev]). Qed.

Lemma cache_free_bind {A B} (m : M A) (k : A -> M B) :
  cache_free m -> (forall a, cache_free (k a)) -> cache_free (bind m k).
Proof.
  intros Hm Hk tr. destruct (Hm tr) as ([e|a] & tr1 & H1).
  - exists (inl e), tr1. intros c. unfold bind. now rewrite H1.
  - destruct (Hk a tr1) as (res & tr2 & H2).
    exists res, tr2. intros c. unfold bind. now rewrite H1, H2.
Qed.

Lemma cache_free_try_catch {A} (m : M A) (h : Error -> M A) :
  cache_free m -> (forall e, cache_free (h e)) -> cache_free (try_catch m h).
Proof.
  intros Hm Hh tr. destruct (Hm tr) as ([e|a] & tr1 & H1).
  - destruct (Hh e tr1) as (res & tr2 & H2).
    exists res, tr2. intros c. unfold try_catch. now rewrite H1, H2.
  - exists (inr a), tr1. intros c. unfold try_catch. now rewrite H1.
Qed.

Lemma cache_free_collect_links (u : URL) (doc : Document) :
  cache_free (collect_links P u doc).
Proof.
  intros tr. exists (links_result P u doc), tr. intros c.
  apply collect_links_run.
Qed.

Create HintDb frame.

Hint Resolve cache_free_ret cache_free_throw cache_free_lift cache_free_emit
  cache_free_collect_links : frame.

Ltac frame_step :=
  first [ apply cache_free_bind; [|intros ?]
        | apply cache_free_try_catch; [|intros ?]
        | solve [auto with frame]
        | match goal with
          | |- cache_free (if ?b then _ else _) => destruct b
          end ].

Lemma cache_free_do_fetch (r : Request) : cache_free (do_fetch P r).
Proof. unfold do_fetch. repeat frame_step. Qed.

Lemma cache_free_read_text (r : Request) (res : Response) :
  cache_free (read_text r res).
Proof. unfold read_text. repeat frame_step. Qed.

Hint Resolve cache_free_do_fetch cache_free_read_text : frame.

Lemma cache_free_fetchRobotsAllowed (target : URL) (ua : string) :
  cache_free (fetchRobotsAllowed P target ua).
Proof. unfold fetchRobotsAllowed, robots_try. repeat frame_step. Qed.

Hint Resolve cache_free_fetchRobotsAllowed : frame.

Lemma stores_throw (cache : bool) (key : string) (now : Z) (e : Error) :
  stores cache key now (throw e).
Proof. intros tr. now exists (inl e), tr. Qed.

Lemma stores_bind {A} (cache : bool) (key : string) (now : Z)
    (m : M A) (k : A -> M PageAnalysis) :
  cache_free m -> (forall a, stores cache key now (k a)) ->
  stores cache key now (bind m k).
Proof.
  intros Hm Hk tr. destruct (Hm tr) as ([e|a] & tr1 & H1).
  - exists (inl e), tr1. intros c. unfold bind. now rewrite H1.
  - destruct (Hk a tr1) as (res & tr2 & H2).
    exists res, tr2. intros c. unfold bind. now rewrite H1, H2.
Qed.

(** The last two statements of [execute]. *)
Lemma stores_commit (cache : bool) (key : string) (now : Z) (r : PageAnalysis) :
  stores cache key now
    ((if cache then cache_set key {| entry_at := now; entry_data := r |}
      else ret tt) ;;; ret r).
Proof. intros tr. exists (inr r), tr. intros c. now destruct cache. Qed.

(** After a cache miss the cache is written only by the final store. *)
Lemma stores_execute_on_miss (u : URL) (q : option string) (cache : bool)
    (key : string) (now : Z) :
  stores cache key now (execute_on_miss P u q cache key now).
Proof.
  unfold execute_on_miss.
  apply stores_bind; [auto with frame|intros allowed].
  destruct (negb allowed); [apply stores_throw|].
  apply stores_bind; [auto with frame|intros res].
  destruct (negb (ok res)); [apply stores_throw|].
  destruct (declared_too_large _); [apply stores_throw|].
  apply stores_bind; [auto with frame|intros html].
  destruct (SIZE_LIMIT <? _); [apply stores_throw|].
  apply stores_bind; [auto with frame|intros doc].
  apply stores_bind; [auto with frame|intros [articleText doc']].
  apply stores_bind; [auto with frame|intros links].
  apply stores_commit.
Qed.

(** *** [browse_url] before the fetch *)

Lemma scheme_test (u : URL) :
  protocol u = "http:" \/ protocol u = "https:" ->
  negb (String.eqb (protocol u) "http:") && negb (String.eqb (protocol u) "https:")
  = false.
Proof. now intros [-> | ->]. Qed.

Lemma browse_url_hit (url : string) (u : URL) (q : option string) (st : State)
    (e : CacheEntry) :
  guard_passes P url u ->
  pageCache st !! href u = Some e ->
  dateNow P - entry_at e < CACHE_TTL_MS ->
  browse_url P url q true st = (inr (entry_data e), st).
Proof.
  intros (Hu & Hs & Hg) He Hage.
  unfold browse_url, bind, lift. rewrite Hu. cbn.
  rewrite (scheme_test u Hs), Hg. unfold cache_get. rewrite He.
  now apply Z.ltb_lt in Hage as ->.
Qed.

Lemma browse_url_miss (url : string) (u : URL) (q : option string)
    (cache : bool) (st : State) :
  guard_passes P url u ->
  cache_miss P u cache (pageCache st) ->
  browse_url P url q cache st
  = execute_on_miss P u q cache (href u) (dateNow P) st.
Proof.
  intros (Hu & Hs & Hg) Hmiss.
  unfold browse_url, bind, lift. rewrite Hu. cbn.
  rewrite (scheme_test u Hs), Hg.
  destruct Hmiss as [-> | Hmiss]; [reflexivity|].
  destruct cache; [|reflexivity]. unfold cache_get.
  destruct (pageCache st !! href u) as [e|]; [|reflexivity].
  now apply Z.ltb_ge in Hmiss as ->.
Qed.

(** Every run of [browse_url] is a failure with the state untouched, a
    cache hit, or the run of [execute_on_miss]. *)
Lemma browse_url_cases (url : string) (q : option string) (cache : bool) (st : State) :
  (exists e, browse_url P url q cache st = (inl e, st))
  \/ (exists en, browse_url P url q cache st = (inr (entry_data en), st))
  \/ (exists u, newURL P url = Some u
        /\ browse_url P url q cache st
           = execute_on_miss P u q cache (href u) (dateNow P) st).
Proof.
  unfold browse_url, bind, lift.
  destruct (newURL P url) as [u|]; cbn; [|left; now eexists].
  destruct (_ && _); [left; now eexists|].
  destruct (isPrivateHostname _ _); [left; now eexists|].
  destruct cache; cbn; [|right; right; now eexists].
  destruct (pageCache st !! href u) as [e|]; [|right; right; now eexists].
  destruct (_ <? _); [right; left; now eexists|right; right; now eexists].
Qed.

End PipelineFacts.

(** C10.  A run of [browse_url] that fails leaves the page cache as it
    was; a run that returns a result either leaves it as it was or, with
    caching requested, has stored exactly the returned result under the
    URL's key with the time of the call; without caching the cache is
    never changed. *)
Theorem cache_written_only_on_success (P : Platform) (url : string)
    (q : option string) (cache : bool) (st : State) :
  let run := browse_url P url q cache st in
  match fst run with
  | inl _ => pageCache (snd run) = pageCache st
  | inr pa =>
      pageCache (snd run) = pageCache st
      \/ (cache = true
          /\ exists u, newURL P url = Some u
               /\ pageCache (snd run)
                  = <[href u := {| entry_at := dateNow P; entry_data := pa |}]>
                      (pageCache st))
  end
  /\ pageCache (snd (browse_url P url q false st)) = pageCache st.
Proof.
  assert (Hgen : forall cache,
    let run := browse_url P url q cache st in
    match fst run with
    | inl _ => pageCache (snd run) = pageCache st
    | inr pa =>
        pageCache (snd run) = pageCache st
        \/ (cache = true
            /\ exists u, newURL P url = Some u
                 /\ pageCache (snd run)
                    = <[href u := {| entry_at := dateNow P; entry_data := pa |}]>
                        (pageCache st))
    end).
  { clear cache. intros cache.
    destruct (browse_url_cases P url q cache st)
      as [[e ->] | [[en ->] | (u & Hu & ->)]]; cbn; auto.
    destruct st as [c tr].
    destruct (stores_execute_on_miss P u q cache (href u) (dateNow P) tr)
      as (res & tr' & ->).
    cbn. destruct res as [e|pa]; cbn; [reflexivity|].
    destruct cache; [right|left; reflexivity].
    split; [reflexivity|]. now exists u. }
  split; [apply Hgen|].
  specialize (Hgen false). cbn in Hgen.
  destruct (fst (browse_url P url q false st)); [exact Hgen|].
  now destruct Hgen as [H | [? _]].
Qed.




(** C1 (as the code has it).  A dotted-decimal literal in 169.254.0.0/16
    is not classified private by [isPrivateHostname]; [browse_url] does
    not fail with the blocked-address error for such a host, and without
    caching it goes on to call [fetch]. *)
Theorem link_local_not_blocked (P : Platform) (url : string) (u : URL)
    (q : option string) (cache : bool) (st : State) :
  newURL P url = Some u ->
  protocol u = "http:" \/ protocol u = "https:" ->
  Net.isIPv4 (hostname u) = true ->
  JS.startsWith (hostname u) "169.254." = true ->
  isPrivateHostname (isIPv6 P) (hostname u) = false
  /\ fst (browse_url P url q cache st) <> inl BlockedAddress
  /\ (fetches (trace st) < fetches (trace (snd (browse_url P url q false st))))%nat.
Proof.
  intros Hu Hs Hip Hpre.
  pose proof (guard_link_local (isIPv6 P) _ Hip Hpre) as Hg.
  assert (guard_passes P url u) as Hpass by (repeat split; assumption).
  split; [exact Hg|]. split.
  - unfold browse_url, bind, lift. rewrite Hu. cbn.
    rewrite (scheme_test u Hs), Hg.
    destruct cache; cbn; [unfold cache_get; cbn|].
    + destruct (pageCache st !! href u) as [en|]; [destruct (_ <? _)|];
        try (cbn; discriminate); apply execute_on_miss_effects.
    + apply execute_on_miss_effects.
  - rewrite (browse_url_miss P url u q false st Hpass) by now left.
    apply execute_on_miss_effects.
Qed.

Lemma link_local_not_blocked_witness :
  let u := Demo.site "169.254.169.254" "/latest/meta-data/" in
  isPrivateHostname (fun _ => false) "169.254.169.254" = false
  /\ fst (browse_url (Demo.platform u Demo.offline 0) (href u) None true Demo.start)
     <> inl BlockedAddress.
Proof.
  intros u.
  destruct (link_local_not_blocked (Demo.platform u Demo.offline 0) (href u) u
              None true Demo.start eq_refl (or_introl eq_refl) eq_refl eq_refl)
    as (H1 & H2 & _).
  split; [exact H1|exact H2].
Defined.

(** C1, the claim as stated fails: 169.254.1.1 is a dotted-decimal
    literal of the link-local block, the guard answers false for it, and
    [browse_url] calls [fetch] twice (robots.txt, then the page) instead
    of stopping with the blocked-address error. *)
Lemma link_local_reaches_network :
  let u := Demo.site "169.254.1.1" "/" in
  Net.isIPv4 "169.254.1.1" = true
  /\ isPrivateHostname (fun _ => false) "169.254.1.1" = false
  /\ browse_url (Demo.platform u Demo.offline 0) "http://169.254.1.1/" None false
       Demo.start
     = (inl FetchFailed,
        {| pageCache := ∅;
           trace := [EvFetch (robots_request "http://169.254.1.1/robots.txt");
                     EvFetch (page_request u)] |}).
Proof. repeat split. Qed.

(** ** The size limit *)

Lemma strlen_String (c : ascii) (s : string) :
  JS.strlen (String c s) = JS.strlen s + 1.
Proof. unfold JS.strlen. cbn [String.length]. lia. Qed.




Lemma within_limit_not_declared (cl : option string) :
  within_declared_limit cl -> declared_too_large cl = false.
Proof.
  intros [-> | (s & n & -> & Hn & Hle)]; [reflexivity|].
  unfold declared_too_large. rewrite Hn. cbn.
  apply Z.ltb_ge in Hle as ->. apply andb_false_r.
Qed.






(** ** robots.txt *)

Section RobotsFacts.
Import JS Robots.








Lemma parse_line_skip (st : list Group * option Group) (line : string) :
  is_directive line = false -> parse_line st line = st.
Proof.
  unfold is_directive, parse_line. destruct st as [groups current].
  destruct (split_char ":" line) as [|rawKey rest]; [reflexivity|].
  destruct (truthy rawKey); cbn; [|reflexivity].
  destruct (length rest =? 0)%nat; cbn; [reflexivity|].
  destruct (String.eqb _ "user-agent"); cbn; [discriminate|].
  destruct (String.eqb _ "allow"); cbn; [discriminate|].
  destruct (String.eqb _ "disallow"); cbn; [discriminate|reflexivity].
Qed.

Lemma robots_decide_no_directive (body ua p : string) :
  no_directive body = true -> robots_decide body ua p = true.
Proof.
  unfold no_directive, robots_decide, parse_robots. intros H.
  assert (forall st, fold_left parse_line (robots_lines body) st = st) as ->.
  { induction (robots_lines body) as [|l ls IH]; intros st; [reflexivity|].
    cbn in H. apply andb_prop in H as [Hl Hls]. apply negb_true_iff in Hl.
    cbn [fold_left]. rewrite (parse_line_skip st l Hl). now apply IH. }
  reflexivity.
Qed.

End RobotsFacts.

(** C4.  [fetchRobotsAllowed] never throws: from every state, for every
    target and user agent, it returns a boolean (and leaves the cache
    alone); when resolving the policy fails (the robots URL cannot be
    built, the fetch rejects on a network error or timeout, the status is
    not a success, the body cannot be read or holds no directive) the
    boolean is true. *)
Theorem robots_fail_open (P : Platform) (target : URL) (ua : string) (st : State) :
  (exists b st', fetchRobotsAllowed P target ua st = (inr b, st')
                 /\ pageCache st' = pageCache st)
  /\ (robots_failure P target ->
      fst (fetchRobotsAllowed P target ua st) = inr true).
Proof.
  unfold fetchRobotsAllowed, robots_try, try_catch, do_fetch, read_text,
    bind, lift, emit, ret, throw.
  split.
  - destruct (resolveURL P _ _) as [ru|]; cbn; [|now eexists _, _].
    destruct (fetch P _) as [res|]; cbn; [|now eexists _, _].
    destruct (ok res); cbn; [|now eexists _, _].
    destruct (text res); cbn; now eexists _, _.
  - intros [H | ru H1 H2 | ru res H1 H2 H3 | ru res H1 H2 H3 H4
            | ru res body H1 H2 H3 H4 H5]; rewrite ?H, ?H1; cbn;
      rewrite ?H2; cbn; rewrite ?H3; cbn; rewrite ?H4; cbn;
      try reflexivity.
    now rewrite robots_decide_no_directive.
Qed.

Lemma robots_fail_open_witness :
  let u := Demo.site "example.com" "/private/secret" in
  fst (fetchRobotsAllowed (Demo.platform u Demo.offline 0) u "content-agent"
         Demo.start) = inr true
  /\ fst (fetchRobotsAllowed
            (Demo.platform u (Demo.always (Demo.response None "<html>:-(</html>")) 0)
            u "content-agent" Demo.start) = inr true.
Proof.
  intros u. split.
  - apply (proj2 (robots_fail_open (Demo.platform u Demo.offline 0) u
                    "content-agent" Demo.start)).
    now apply (robots_unreachable _ _ "http://example.com/robots.txt").
  - apply (proj2 (robots_fail_open
                    (Demo.platform u (Demo.always (Demo.response None "<html>:-(</html>")) 0)
                    u "content-agent" Demo.start)).
    now apply (robots_body_malformed _ _ "http://example.com/robots.txt"
                 (Demo.response None "<html>:-(</html>") "<html>:-(</html>").
Defined.




(** ** The ranker and the word count *)

Section RankerFacts.
Import JS Re Ranker.

Lemma In_insert_desc (x y : string * Z) (l : list (string * Z)) :
  In x (insert_desc y l) -> x = y \/ In x l.
Proof.
  induction l as [|z l IH]; cbn.
  - intros [<- | []]. now left.
  - destruct (snd z <=? snd y); cbn.
    + intros [<- | H]; [now left|now right].
    + intros [<- | H]; [right; now left|].
      destruct (IH H) as [-> | H']; [now left|right; now right].
Qed.

Lemma In_sort_desc (x : string * Z) (l : list (string * Z)) :
  In x (sort_desc l) -> In x l.
Proof.
  induction l as [|y l IH]; cbn; [easy|].
  intros H. apply In_insert_desc in H as [-> | H]; [now left|right; now apply IH].
Qed.

Lemma In_firstn {A} (x : A) (n : nat) (l : list A) : In x (firstn n l) -> In x l.
Proof.
  revert l. induction n as [|n IH]; intros [|y l]; cbn; try easy.
  intros [<- | H]; [now left|right; now apply IH].
Qed.

Lemma In_slice0_list {A} (x : A) (l : list A) (n : Z) :
  In x (slice0_list l n) -> In x l.
Proof. unfold slice0_list. destruct (n <? 0); apply In_firstn. Qed.

(** Every passage is cut from a paragraph of more than 60 characters and
    has a score of at least 1. *)
Lemma passages_from_long_paragraphs (txt q : string) (max : Z) (p : Passage) :
  In p (relevantPassages txt q max) ->
  exists para,
    In para (map trim (split_paras txt))
    /\ 60 < strlen para
    /\ snippet p = slice0 para 600
    /\ 1 <= score p.
Proof.
  unfold relevantPassages. intros H.
  apply in_map_iff in H as ([para sc] & <- & H).
  apply In_slice0_list, In_sort_desc, List.filter_In in H as [H Hsc].
  apply in_map_iff in H as (para' & Heq & H).
  apply List.filter_In in H as [H Hlen].
  injection Heq as -> <-. cbn [fst snd] in *.
  exists para. repeat split; [assumption|now apply Z.ltb_lt| ].
  apply Z.ltb_lt in Hsc. cbn. lia.
Qed.

End RankerFacts.

(** C3, the claim as stated fails: the ranker does not return the first
    paragraph of the example with score 1. *)
Lemma rank_example_is_not_one_passage :
  Ranker.relevantPassages example_text "caching" 10
  <> [ {| Ranker.snippet := "Para one about caching."; Ranker.score := 1 |} ].
Proof. vm_compute. discriminate. Qed.

(** C3 (as the code has it).  On the example text with query "caching"
    and at most 10 results the ranker returns no passage: every passage
    it returns is cut from a paragraph of more than 60 characters (and
    has score at least 1), and the two paragraphs have 23.  With both
    paragraphs longer than 60 characters the result is exactly one
    passage, the first paragraph, with score 1. *)
Theorem rank_example_short_paragraphs :
  Ranker.relevantPassages example_text "caching" 10 = []
  /\ map JS.strlen (map JS.trim (Re.split_paras example_text)) = [23; 23]
  /\ (forall (txt q : string) (max : Z) (p : Ranker.Passage),
        In p (Ranker.relevantPassages txt q max) ->
        exists para,
          In para (map JS.trim (Re.split_paras txt))
          /\ 60 < JS.strlen para
          /\ Ranker.snippet p = JS.slice0 para 600
          /\ 1 <= Ranker.score p)
  /\ Ranker.relevantPassages long_example_text "caching" 10
     = [ {| Ranker.snippet := long_para_one; Ranker.score := 1 |} ].
Proof.
  split; [vm_compute; reflexivity|].
  split; [vm_compute; reflexivity|].
  split; [exact passages_from_long_paragraphs|].
  vm_compute. reflexivity.
Qed.

Lemma rank_example_short_paragraphs_witness :
  exists para,
    In para (map JS.trim (Re.split_paras long_example_text))
    /\ 60 < JS.strlen para
    /\ long_para_one = JS.slice0 para 600
    /\ 1 <= 1.
Proof.
  apply (proj1 (proj2 (proj2 rank_example_short_paragraphs))
           long_example_text "caching" 10
           {| Ranker.snippet := long_para_one; Ranker.score := 1 |}).
  vm_compute. left. reflexivity.
Defined.

(** White space in front of a text adds one to the word count and no
    token. *)
Lemma wordCount_leading_space (c d : ascii) (s : string) :
  JS.is_space c = true ->
  JS.is_space d = false ->
  Ranker.wordCount (String c (String d s)) = Ranker.wordCount (String d s) + 1
  /\ whitespace_tokens (String c (String d s)) = whitespace_tokens (String d s).
Proof.
  intros Hc Hd. unfold Ranker.wordCount, whitespace_tokens.
  cbn [JS.truthy String.eqb negb].
  change (Re.split_ws (String c (String d s)))
    with (if JS.is_space c
          then if JS.is_space d then Re.split_ws (String d s)
               else EmptyString :: Re.split_ws (String d s)
          else Re.cons_head c (Re.split_ws (String d s))).
  rewrite Hc, Hd. split; [cbn [length]; lia|reflexivity].
Qed.

(** C8: the word count on a text with white space around it.  The field
    of the returned analysis is [Ranker.wordCount] of the main text; for
    " hello world " it is 4, while the text has 2 tokens; for a single
    space it is 2, while the text has none. *)
Theorem wordCount_counts_empty_pieces :
  let u := Demo.site "example.com" "/a" in
  Ranker.wordCount " hello world " = 4
  /\ length (whitespace_tokens " hello world ") = 2%nat
  /\ Ranker.wordCount " " = 2
  /\ whitespace_tokens " " = []
  /\ Ranker.wordCount "hello world" = 2
  /\ Ranker.wordCount "" = 0
  /\ match fst (browse_url
                 (Demo.platform u
                    (Demo.serving Demo.not_found (Demo.response None " hello world ")) 0)
                 (href u) None false Demo.start) with
     | inr pa => mainText pa = " hello world " /\ wordCount pa = 4
     | inl _ => False
     end.
Proof. vm_compute. repeat split. Qed.

(** ** Further properties of the module *)

Lemma strlen_take (n : nat) (s : string) : JS.strlen (JS.take n s) <= Z.of_nat n.
Proof.
  revert s. induction n as [|n IH]; intros [|c s]; cbn [JS.take];
    try (unfold JS.strlen; cbn; lia).
  rewrite strlen_String. specialize (IH s). lia.
Qed.

(** A passage returned by [relevantPassages] has a score of at least 1
    and a snippet of at most 600 characters, cut from the front of a
    trimmed paragraph of more than 60 characters; with a non-negative
    limit, at most that many passages are returned. *)
Theorem passage_invariants (txt q : string) (max : Z) :
  (forall p : Ranker.Passage,
     In p (Ranker.relevantPassages txt q max) ->
     1 <= Ranker.score p
     /\ JS.strlen (Ranker.snippet p) <= 600
     /\ exists para,
          In para (map JS.trim (Re.split_paras txt))
          /\ 60 < JS.strlen para
          /\ Ranker.snippet p = JS.slice0 para 600)
  /\ (0 <= max ->
      Z.of_nat (length (Ranker.relevantPassages txt q max)) <= max).
Proof.
  split.
  - intros p Hp.
    destruct (passages_from_long_paragraphs txt q max p Hp)
      as (para & Hin & Hlen & Hsn & Hsc).
    split; [exact Hsc|]. split; [|now exists para].
    rewrite Hsn. unfold JS.slice0. cbn [Z.ltb Z.compare].
    apply (strlen_take (Z.to_nat 600) para).
  - intros Hmax. unfold Ranker.relevantPassages, Ranker.slice0_list.
    rewrite length_map. apply Z.ltb_ge in Hmax as Hmax'. rewrite Hmax'.
    rewrite length_firstn. lia.
Qed.

Lemma passage_invariants_witness :
  1 <= 1
  /\ JS.strlen long_para_one <= 600
  /\ exists para,
       In para (map JS.trim (Re.split_paras long_example_text))
       /\ 60 < JS.strlen para
       /\ long_para_one = JS.slice0 para 600.
Proof.
  apply (proj1 (passage_invariants long_example_text "caching" 10)
           {| Ranker.snippet := long_para_one; Ranker.score := 1 |}).
  vm_compute. left. reflexivity.
Defined.

(** A URL whose scheme is neither http nor https, and a URL whose host
    the guard classifies private, are rejected with the state untouched:
    no cache access and no network event. *)
Theorem rejected_before_io (P : Platform) (url : string) (u : URL)
    (q : option string) (cache : bool) (st : State) :
  newURL P url = Some u ->
  (protocol u <> "http:" /\ protocol u <> "https:" ->
   browse_url P url q cache st = (inl UnsupportedScheme, st))
  /\ (protocol u = "http:" \/ protocol u = "https:" ->
      isPrivateHostname (isIPv6 P) (hostname u) = true ->
      browse_url P url q cache st = (inl BlockedAddress, st)).
Proof.
  intros Hu. unfold browse_url, bind, lift. rewrite Hu. cbn. split.
  - intros [H1 H2].
    apply String.eqb_neq in H1 as ->. now apply String.eqb_neq in H2 as ->.
  - intros Hs Hg. now rewrite (scheme_test u Hs), Hg.
Qed.

Lemma rejected_before_io_witness :
  browse_url (Demo.platform (Demo.site "localhost" "/") Demo.offline 0)
    "http://localhost/" None true Demo.start
  = (inl BlockedAddress, Demo.start).
Proof.
  apply (proj2 (rejected_before_io
                  (Demo.platform (Demo.site "localhost" "/") Demo.offline 0)
                  "http://localhost/" (Demo.site "localhost" "/") None true
                  Demo.start eq_refl)).
  - now left.
  - reflexivity.
Defined.

(** One call of [browse_url] calls [fetch] at most twice. *)
Theorem at_most_two_fetches (P : Platform) (url : string) (q : option string)
    (cache : bool) (st : State) :
  (fetches (trace (snd (browse_url P url q cache st))) <= fetches (trace st) + 2)%nat.
Proof.
  destruct (browse_url_cases P url q cache st)
    as [[e ->] | [[en ->] | (u & Hu & ->)]]; cbn [snd]; try lia.
  apply execute_on_miss_effects.
Qed.

(* ================================================================== *)
(** * More properties of the page tool                                 *)
(* ================================================================== *)

(** ** The guard on dotted-decimal literals *)

(** On a dotted-decimal IPv4 literal [isPrivateHostname] answers true
    exactly for 0.0.0.0, for the literals that start with [10.], [127.]
    or [192.168.], and for those whose first octet is 172 and whose
    second octet lies in 16..31; every other literal passes. *)
Theorem guard_on_ipv4_literals (isIPv6 : string -> bool) (h : string) :
  Net.isIPv4 h = true ->
  isPrivateHostname isIPv6 h =
    String.eqb h "0.0.0.0" || JS.startsWith h "10." || JS.startsWith h "127."
    || JS.startsWith h "192.168."
    || (JS.num_eq (octet (octets_of h) 0) 172
        && JS.num_ge (octet (octets_of h) 1) 16
        && JS.num_le (octet (octets_of h) 1) 31).
Proof.
  intros Hip. rewrite (guard_on_ipv4 isIPv6 h Hip).
  assert ((Z.of_nat (length (octets_of h)) =? 4) = true) as ->.
  { unfold octets_of. rewrite length_map, (isIPv4_four_pieces h Hip). reflexivity. }
  destruct (String.eqb_spec h "127.0.0.1") as [-> | _]; [reflexivity|].
  reflexivity.
Qed.

Lemma guard_on_ipv4_literals_witness :
  isPrivateHostname (fun _ => false) "11.22.33.44" = false
  /\ isPrivateHostname (fun _ => false) "127.9.9.9" = true.
Proof.
  split.
  - rewrite (guard_on_ipv4_literals (fun _ => false) "11.22.33.44" eq_refl).
    reflexivity.
  - rewrite (guard_on_ipv4_literals (fun _ => false) "127.9.9.9" eq_refl).
    reflexivity.
Defined.

(** ** Failures on the way to the page *)

Section Failures.

Variable P : Platform.

(** When robots.txt is served and its rules deny the path for the agent
    [content-agent], [browse_url] fails with the robots error after the
    robots fetch and the reading of its body: the page is not requested
    and the cache is not written. *)
Theorem robots_denial_stops_before_page (url : string) (u : URL)
    (q : option string) (cache : bool) (st : State) (ru body : string)
    (res : Response) :
  guard_passes P url u ->
  cache_miss P u cache (pageCache st) ->
  resolveURL P "/robots.txt" (protocol u +:+ "//" +:+ host u) = Some ru ->
  fetch P (robots_request ru) = Some res ->
  ok res = true ->
  text res = Some body ->
  Robots.robots_decide body "content-agent" (pathname u) = false ->
  browse_url P url q cache st
  = (inl RobotsDisallowed,
     {| pageCache := pageCache st;
        trace := trace st ++ [EvFetch (robots_request ru); EvText ru] |}).
Proof.
  intros Hg Hmiss Hru Hfetch Hok Htext Hdeny.
  rewrite (browse_url_miss P url u q cache st Hg Hmiss).
  unfold execute_on_miss, fetchRobotsAllowed, robots_try, try_catch,
    do_fetch, read_text, bind, lift, emit, ret, throw.
  rewrite Hru. cbn. rewrite Hfetch. cbn. rewrite Hok. cbn.
  rewrite Htext. cbn. rewrite Hdeny. cbn. now rewrite <- app_assoc.
Qed.

(** Once the robots check has allowed the page: a rejected page fetch
    (network error or timeout) fails the call with the fetch error; a
    response without a success status fails it with the HTTP error that
    carries the status and its text, the body not being read; a body that
    cannot be read fails it after the attempt to read.  The cache is as
    the robots check left it. *)
Theorem page_fetch_failures (url : string) (u : URL) (q : option string)
    (cache : bool) (st st1 : State) :
  guard_passes P url u ->
  cache_miss P u cache (pageCache st) ->
  fetchRobotsAllowed P u "content-agent" st = (inr true, st1) ->
  (fetch P (page_request u) = None ->
   browse_url P url q cache st
   = (inl FetchFailed,
      {| pageCache := pageCache st1;
         trace := trace st1 ++ [EvFetch (page_request u)] |}))
  /\ (forall res : Response,
        fetch P (page_request u) = Some res ->
        ok res = false ->
        browse_url P url q cache st
        = (inl (HTTPStatus (status res) (statusText res)),
           {| pageCache := pageCache st1;
              trace := trace st1 ++ [EvFetch (page_request u)] |}))
  /\ (forall res : Response,
        fetch P (page_request u) = Some res ->
        ok res = true ->
        within_declared_limit (content_length res) ->
        text res = None ->
        browse_url P url q cache st
        = (inl BodyFailed,
           {| pageCache := pageCache st1;
              trace := trace st1 ++ [EvFetch (page_request u); EvText (href u)] |})).
Proof.
  intros Hg Hmiss Hrobots.
  split; [|split]; intros;
    rewrite (browse_url_miss P url u q cache st Hg Hmiss);
    unfold execute_on_miss; unfold bind at 1; rewrite Hrobots; cbn [negb];
    unfold do_fetch, read_text, bind, emit, lift, throw, ret; cbn;
    repeat match goal with
           | H : fetch P _ = _ |- _ => rewrite H; clear H; cbn
           | H : ok _ = _ |- _ => rewrite H; clear H; cbn
           | H : within_declared_limit _ |- _ =>
               rewrite (within_limit_not_declared _ H); clear H; cbn
           | H : text _ = _ |- _ => rewrite H; clear H; cbn
           end;
    rewrite <- ?app_assoc; reflexivity.
Qed.

(** The cache is keyed by the URL alone: after a call with caching that
    went to the network and returned an analysis, a later call for the
    same URL with caching, made less than 600000 ms later, returns that
    same analysis whatever its question is, with no network event and no
    change of the cache. *)
Theorem cached_result_is_served_again (P2 : Platform) (url : string) (u : URL)
    (q1 q2 : option string) (st st1 : State) (pa : PageAnalysis) :
  guard_passes P url u ->
  guard_passes P2 url u ->
  cache_miss P u true (pageCache st) ->
  browse_url P url q1 true st = (inr pa, st1) ->
  dateNow P2 - dateNow P < 600000 ->
  browse_url P2 url q2 true st1 = (inr pa, st1).
Proof.
  intros Hg Hg2 Hmiss Hrun Hage.
  rewrite (browse_url_miss P url u q1 true st Hg Hmiss) in Hrun.
  destruct st as [c tr].
  destruct (stores_execute_on_miss P u q1 true (href u) (dateNow P) tr)
    as (res & tr' & Hst).
  rewrite Hst in Hrun. injection Hrun as -> <-. cbn [stored].
  apply (browse_url_hit P2 url u q2 _
           {| entry_at := dateNow P; entry_data := pa |} Hg2).
  - cbn. apply lookup_insert_eq.
  - exact Hage.
Qed.

End Failures.

(** Without caching the cache is not read: over any cache the call gives
    the result and the trace of the call over the empty cache, and hands
    the cache back unchanged, even when it holds a fresh entry for the
    URL. *)
Theorem uncached_call_ignores_cache (P : Platform) (url : string)
    (q : option string) (c : gmap string CacheEntry) (tr : list Event) :
  browse_url P url q false {| pageCache := c; trace := tr |}
  = (fst (browse_url P url q false {| pageCache := ∅; trace := tr |}),
     {| pageCache := c;
        trace := trace (snd (browse_url P url q false
                               {| pageCache := ∅; trace := tr |})) |}).
Proof.
  unfold browse_url, bind, lift.
  destruct (newURL P url) as [u|]; cbn; [|reflexivity].
  destruct (_ && _); [reflexivity|].
  destruct (isPrivateHostname _ _); [reflexivity|].
  destruct (stores_execute_on_miss P u q false (href u) (dateNow P) tr)
    as (res & tr' & Hst).
  rewrite !Hst. cbn. now destruct res.
Qed.

Lemma robots_denial_stops_before_page_witness :
  let u := Demo.site "example.com" "/private/secret" in
  browse_url
    (Demo.platform u (Demo.always (Demo.response None example_robots)) 0)
    (href u) None true Demo.start
  = (inl RobotsDisallowed,
     {| pageCache := ∅;
        trace := [EvFetch (robots_request "http://example.com/robots.txt");
                  EvText "http://example.com/robots.txt"] |}).
Proof.
  intros u.
  apply (robots_denial_stops_before_page
           (Demo.platform u (Demo.always (Demo.response None example_robots)) 0)
           (href u) u None true Demo.start "http://example.com/robots.txt"
           example_robots (Demo.response None example_robots)
           (conj eq_refl (conj (or_introl eq_refl) eq_refl))
           (or_intror I) eq_refl eq_refl eq_refl eq_refl eq_refl).
Defined.

Lemma page_fetch_failures_witness :
  let u := Demo.site "example.com" "/a" in
  browse_url (Demo.platform u (Demo.always Demo.not_found) 0) (href u) None true
    Demo.start
  = (inl (HTTPStatus 404 "Not Found"),
     {| pageCache := ∅;
        trace := [EvFetch (robots_request "http://example.com/robots.txt");
                  EvFetch (page_request u)] |}).
Proof.
  intros u.
  apply (proj1 (proj2 (page_fetch_failures
           (Demo.platform u (Demo.always Demo.not_found) 0)
           (href u) u None true Demo.start
           {| pageCache := ∅;
              trace := [EvFetch (robots_request "http://example.com/robots.txt")] |}
           (conj eq_refl (conj (or_introl eq_refl) eq_refl))
           (or_intror I) eq_refl))
         Demo.not_found eq_refl eq_refl).
Defined.

Lemma cached_result_is_served_again_witness :
  let u := Demo.site "example.com" "/a" in
  let P1 := Demo.platform u (Demo.serving Demo.not_found (Demo.response None "hello")) 0 in
  let P2 := Demo.platform u Demo.offline 599999 in
  let st1 := snd (browse_url P1 (href u) None true Demo.start) in
  browse_url P2 (href u) (Some "another question") true st1
  = (inr (Demo.analysis "hello"), st1).
Proof.
  intros u P1 P2 st1.
  apply (cached_result_is_served_again P1 P2 (href u) u None
           (Some "another question") Demo.start st1 (Demo.analysis "hello")
           (conj eq_refl (conj (or_introl eq_refl) eq_refl))
           (conj eq_refl (conj (or_introl eq_refl) eq_refl))
           (or_intror I)).
  - reflexivity.
  - reflexivity.
Defined.

(** ** Pieces of a split and trimmed texts *)

Section TextFacts.
Import JS Re.

Lemma all_chars_impl (p q : ascii -> bool) (s : string) :
  (forall c, p c = true -> q c = true) ->
  all_chars p s = true -> all_chars q s = true.
Proof.
  intros Hpq. induction s as [|c s IH]; cbn; [reflexivity|].
  intros [Hc Hs]%andb_prop. now rewrite (Hpq c Hc), IH.
Qed.

Lemma all_chars_append (p : ascii -> bool) (s t : string) :
  all_chars p (s +:+ t) = all_chars p s && all_chars p t.
Proof.
  induction s as [|c s IH]; [reflexivity|].
  change (String c s +:+ t) with (String c (s +:+ t)). cbn [all_chars].
  now rewrite IH, andb_assoc.
Qed.

Lemma all_chars_take (p : ascii -> bool) (n : nat) (s : string) :
  all_chars p s = true -> all_chars p (take n s) = true.
Proof.
  revert s. induction n as [|n IH]; intros [|c s]; cbn; try reflexivity.
  intros [Hc Hs]%andb_prop. now rewrite Hc, IH.
Qed.

Lemma all_chars_slice0 (p : ascii -> bool) (s : string) (n : Z) :
  all_chars p s = true -> all_chars p (slice0 s n) = true.
Proof. intros H. unfold slice0. destruct (n <? 0); now apply all_chars_take. Qed.

Lemma strlen_slice0 (s : string) (n : Z) : 0 <= n -> strlen (slice0 s n) <= n.
Proof.
  intros Hn. unfold slice0. apply Z.ltb_ge in Hn as Hn'. rewrite Hn'.
  pose proof (strlen_take (Z.to_nat n) s). lia.
Qed.

Lemma prefix_take (n : nat) (s : string) : String.prefix (take n s) s = true.
Proof.
  revert s. induction n as [|n IH]; intros [|c s]; cbn; try reflexivity.
  destruct (ascii_dec c c); [apply IH|contradiction].
Qed.

(** The pieces of [split(/\s+/)] hold no white space, and keep what holds
    of every character of the text. *)
Lemma split_ws_pieces (p : ascii -> bool) (s : string) :
  all_chars p s = true ->
  Forall (fun w => all_chars (fun c => p c && negb (is_space c)) w = true)
         (split_ws s).
Proof.
  induction s as [|c s IH]; intros H.
  - repeat constructor.
  - cbn [all_chars] in H. apply andb_prop in H as [Hc Hs].
    specialize (IH Hs). cbn [split_ws].
    destruct (is_space c) eqn:Hsp.
    + destruct s as [|d s']; [repeat constructor|].
      destruct (is_space d); [exact IH|now constructor].
    + unfold cons_head. destruct (split_ws s) as [|w ws].
      * constructor; [|constructor]. cbn. now rewrite Hc, Hsp.
      * inversion IH as [|? ? Hw Hws]; subst. constructor; [|exact Hws].
        cbn. now rewrite Hc, Hsp, Hw.
Qed.

Lemma all_chars_concat (p : ascii -> bool) (sep : string) (l : list string) :
  all_chars p sep = true ->
  Forall (fun w => all_chars p w = true) l ->
  all_chars p (String.concat sep l) = true.
Proof.
  intros Hsep. induction l as [|w l IH]; intros H; [reflexivity|].
  inversion H as [|? ? Hw Hl]; subst.
  destruct l as [|w' l']; [exact Hw|].
  change (String.concat sep (w :: w' :: l'))
    with (w +:+ sep +:+ String.concat sep (w' :: l')).
  rewrite !all_chars_append, Hw, Hsep. cbn. apply IH, Hl.
Qed.

(** After [replace(/\s+/g, " ")] the only white space left is the space. *)
Lemma collapse_ws_spaces (s : string) :
  all_chars space_or_visible (collapse_ws s) = true.
Proof.
  unfold collapse_ws. apply all_chars_concat; [reflexivity|].
  assert (all_chars (fun _ => true) s = true) as H
    by (induction s; cbn; auto).
  apply split_ws_pieces in H. apply (Forall_impl _ _ _ H).
  intros w. apply all_chars_impl. intros c Hc. unfold space_or_visible.
  cbn in Hc. now rewrite Hc.
Qed.

Lemma trimStart_head (s : string) : starts_without_space (trimStart s).
Proof.
  induction s as [|c s IH]; cbn; [exact I|].
  destruct (is_space c) eqn:Hc; [exact IH|exact Hc].
Qed.

Lemma trimEnd_head (s : string) :
  starts_without_space s -> starts_without_space (trimEnd s).
Proof.
  destruct s as [|c s]; cbn; [trivial|]. intros Hc.
  destruct (trimEnd s); [now rewrite Hc|exact Hc].
Qed.

Lemma trim_head (s : string) : starts_without_space (trim s).
Proof. apply trimEnd_head, trimStart_head. Qed.

Lemma take_head (n : nat) (s : string) :
  starts_without_space s -> starts_without_space (take n s).
Proof. destruct n, s; cbn; trivial. Qed.

End TextFacts.

(** ** Headings, links and metadata *)

(** A heading keeps the tag name of its element; its text is the trimmed
    text of the element cut to 300 characters, so it has at most 300
    characters and does not start with white space. *)
Theorem heading_text_bounded (h : Element) :
  h_tag (heading_of h) = tagName h
  /\ JS.strlen (h_text (heading_of h)) <= 300
  /\ starts_without_space (h_text (heading_of h))
  /\ String.prefix (h_text (heading_of h)) (JS.trim (or_empty (textContent h)))
     = true.
Proof.
  unfold heading_of. cbn [h_tag h_text].
  split; [reflexivity|]. split; [now apply strlen_slice0|]. split.
  - unfold JS.slice0. cbn [Z.ltb Z.compare]. apply take_head, trim_head.
  - unfold JS.slice0. cbn [Z.ltb Z.compare]. apply prefix_take.
Qed.

Section LinkFacts.

Variable P : Platform.

Lemma link_of_ok (u : URL) (a : Element) (abs : string) (st : State) :
  resolveURL P (anchor_href a) (href u) = Some abs ->
  exists l, link_of P u a st = (inr l, st) /\ l_href l = abs /\ tidy_link l.
Proof.
  intros H. unfold link_of, bind, lift, ret. unfold anchor_href in H.
  rewrite H. eexists. split; [reflexivity|]. split; [reflexivity|].
  unfold tidy_link. cbn [l_text l_rel l_nofollow].
  split; [now apply strlen_slice0|].
  split; [apply all_chars_slice0, collapse_ws_spaces|].
  split; [apply toLowerCase_idem|reflexivity].
Qed.

Lemma mapM_links_bad (u : URL) (l : list Element) (a : Element) (st : State) :
  In a l ->
  resolveURL P (anchor_href a) (href u) = None ->
  mapM (link_of P u) l st = (inl BadLink, st).
Proof.
  intros Hin Hbad. induction l as [|b l IH]; [destruct Hin|].
  cbn [mapM]. unfold bind at 1.
  destruct (resolveURL P (anchor_href b) (href u)) as [abs|] eqn:Hb.
  - destruct (link_of_ok u b abs st Hb) as (lk & -> & _).
    destruct Hin as [-> | Hin]; [congruence|].
    unfold bind. now rewrite (IH Hin).
  - unfold link_of, bind, lift, throw. unfold anchor_href in Hb. now rewrite Hb.
Qed.

Lemma mapM_links_ok (u : URL) (l : list Element) (st : State) :
  (forall a, In a l -> resolveURL P (anchor_href a) (href u) <> None) ->
  exists links,
    mapM (link_of P u) l st = (inr links, st)
    /\ length links = length l
    /\ Forall tidy_link links.
Proof.
  induction l as [|b l IH]; intros H.
  - exists []. repeat split. constructor.
  - destruct (resolveURL P (anchor_href b) (href u)) as [abs|] eqn:Hb;
      [|now destruct (H b (or_introl eq_refl))].
    destruct (link_of_ok u b abs st Hb) as (lk & Hlk & _ & Htidy).
    destruct IH as (links & Hl & Hlen & Hall);
      [intros a Ha; apply H; now right|].
    exists (lk :: links). cbn [mapM]. unfold bind at 1. rewrite Hlk.
    unfold bind, ret. rewrite Hl. cbn. repeat split; [lia|now constructor].
Qed.

(** The links of a page are all or nothing.  If the [href] of one of the
    first 500 anchors cannot be resolved against the page URL the whole
    collection fails; if all of them resolve, the result has one link per
    anchor up to 500, each with a text of at most 200 characters whose
    only white space is the space, a lower-case [rel], and [nofollow]
    set exactly when [rel] contains the letters nofollow. *)
Theorem links_all_or_nothing (u : URL) (doc : Document) :
  (forall a,
     In a (firstn 500 (query_anchors doc)) ->
     resolveURL P (anchor_href a) (href u) = None ->
     links_result P u doc = inl BadLink)
  /\ ((forall a,
         In a (firstn 500 (query_anchors doc)) ->
         resolveURL P (anchor_href a) (href u) <> None) ->
      exists links,
        links_result P u doc = inr links
        /\ length links = Nat.min 500 (length (query_anchors doc))
        /\ Forall tidy_link links).
Proof.
  unfold links_result, collect_links. split.
  - intros a Hin Hbad. now rewrite (mapM_links_bad u _ a _ Hin Hbad).
  - intros Hall.
    destruct (mapM_links_ok u (firstn 500 (query_anchors doc))
                {| pageCache := ∅; trace := [] |} Hall)
      as (links & -> & Hlen & Htidy).
    exists links. repeat split; [|exact Htidy].
    now rewrite Hlen, length_firstn.
Qed.

End LinkFacts.

Lemma links_all_or_nothing_witness :
  let u := Demo.site "example.com" "/a" in
  links_result (picky_platform u Demo.offline (Demo.page "")) u
    (page_with_anchors [anchor "/x"; anchor " http://[bad "; anchor "/y"])
  = inl BadLink
  /\ exists links,
       links_result (picky_platform u Demo.offline (Demo.page "")) u
         (page_with_anchors [anchor "/x"; anchor "/y"]) = inr links
       /\ length links = Nat.min 500 2
       /\ Forall tidy_link links.
Proof.
  intros u. split.
  - apply (proj1 (links_all_or_nothing (picky_platform u Demo.offline (Demo.page "")) u
                    (page_with_anchors [anchor "/x"; anchor " http://[bad "; anchor "/y"]))
             (anchor " http://[bad ")).
    + right. left. reflexivity.
    + reflexivity.
  - apply (proj2 (links_all_or_nothing (picky_platform u Demo.offline (Demo.page "")) u
                    (page_with_anchors [anchor "/x"; anchor "/y"]))).
    intros a [<- | [<- | []]]; discriminate.
Defined.

Section MetadataFacts.

Lemma or_else_null (a : option string) : null_or_nonempty (or_else a None).
Proof.
  unfold null_or_nonempty, or_else. destruct a as [s|]; [|discriminate].
  destruct (JS.truthy s) eqn:H; [|discriminate].
  intros [= ->]. discriminate H.
Qed.

Lemma or_else_keeps (a b : option string) :
  null_or_nonempty b -> null_or_nonempty (or_else a b).
Proof.
  unfold null_or_nonempty, or_else. intros Hb. destruct a as [s|]; [|exact Hb].
  destruct (JS.truthy s) eqn:H; [|exact Hb].
  intros [= ->]. discriminate H.
Qed.

Lemma getMeta_null (doc : Document) (n : string) :
  null_or_nonempty (getMeta doc n).
Proof. unfold getMeta. apply or_else_keeps, or_else_null. Qed.

End MetadataFacts.

(** No field of the extracted metadata is the empty string: an empty
    [content] attribute or an empty title counts as missing.  A [meta]
    element found by [name] with a non-empty content wins over one found by
    [property].  A document without any [meta] content gets its title from
    the [title] element when that is not empty, and null for the
    description, the publication date and the author. *)
Theorem metadata_fields (doc : Document) :
  (null_or_nonempty (m_title (extractMetadata doc))
   /\ null_or_nonempty (m_description (extractMetadata doc))
   /\ null_or_nonempty (m_publishedAt (extractMetadata doc))
   /\ null_or_nonempty (m_author (extractMetadata doc)))
  /\ (forall n s,
        meta_name doc n = Some s -> s <> EmptyString -> getMeta doc n = Some s)
  /\ ((forall n, meta_name doc n = None) ->
      (forall n, meta_property doc n = None) ->
      extractMetadata doc
      = {| m_title := match title_text doc with
                      | Some t => if JS.truthy t then Some t else None
                      | None => None
                      end;
           m_description := None;
           m_publishedAt := None;
           m_author := None |}).
Proof.
  split; [|split].
  - unfold extractMetadata. cbn.
    repeat split;
      repeat first [apply getMeta_null | apply or_else_null | apply or_else_keeps].
  - intros n s Hn Hs. unfold getMeta, or_else. rewrite Hn.
    apply String.eqb_neq in Hs. unfold JS.truthy. now rewrite Hs.
  - intros Hname Hprop. unfold extractMetadata, getMeta.
    rewrite !Hname, !Hprop. cbn. reflexivity.
Qed.

Lemma metadata_fields_witness :
  extractMetadata (Demo.page "text")
  = {| m_title := Some "demo"; m_description := None;
       m_publishedAt := None; m_author := None |}.
Proof.
  apply (proj2 (proj2 (metadata_fields (Demo.page "text")))); reflexivity.
Defined.

(** ** The analysis a call builds *)




Section ResultFacts.

Variable P : Platform.

Lemma links_result_bad (u : URL) (doc : Document) (a : Element) :
  In a (firstn 500 (query_anchors doc)) ->
  resolveURL P (anchor_href a) (href u) = None ->
  links_result P u doc = inl BadLink.
Proof.
  intros Hin Hbad. unfold links_result, collect_links.
  now rewrite (mapM_links_bad P u _ a _ Hin Hbad).
Qed.






(** One link that cannot be resolved loses the whole page: when the page
    has passed every check and one of the first 500 anchors of the parsed
    document has an [href] that cannot be resolved, [browse_url] fails
    with the link error and the cache is not written. *)
Theorem unresolvable_link_fails_call (url : string) (u : URL)
    (q : option string) (cache : bool) (st st1 : State) (res : Response)
    (html : string) (doc doc' : Document) (art : option string) (a : Element) :
  guard_passes P url u ->
  cache_miss P u cache (pageCache st) ->
  fetchRobotsAllowed P u "content-agent" st = (inr true, st1) ->
  fetch P (page_request u) = Some res ->
  ok res = true ->
  within_declared_limit (content_length res) ->
  text res = Some html ->
  JS.strlen html <= SIZE_LIMIT ->
  parseHTML P html = Some doc ->
  readability P doc = Some (art, doc') ->
  In a (firstn 500 (query_anchors doc')) ->
  resolveURL P (anchor_href a) (href u) = None ->
  browse_url P url q cache st
  = (inl BadLink,
     {| pageCache := pageCache st1;
        trace := trace st1 ++ [EvFetch (page_request u); EvText (href u)] |}).
Proof.
  intros Hg Hmiss Hrobots Hfetch Hok Hcl Htext Hlen Hdoc Hread Hin Hbad.
  rewrite (browse_url_miss P url u q cache st Hg Hmiss).
  unfold execute_on_miss. unfold bind at 1. rewrite Hrobots. cbn [negb].
  unfold do_fetch, read_text, bind, emit, lift. cbn.
  rewrite Hfetch. cbn. rewrite Hok, (within_limit_not_declared _ Hcl). cbn.
  rewrite Htext. cbn.
  apply Z.ltb_ge in Hlen. rewrite Hlen, Hdoc. cbn. rewrite Hread. cbn.
  rewrite collect_links_run.
  rewrite (links_result_bad u doc' a Hin Hbad).
  now rewrite <- app_assoc.
Qed.

End ResultFacts.


Lemma unresolvable_link_fails_call_witness :
  let u := Demo.site "example.com" "/a" in
  let doc := page_with_anchors [anchor "/fine"; anchor "http://[broken"] in
  browse_url
    (picky_platform u (Demo.serving Demo.not_found (Demo.response None "<a>")) doc)
    (href u) None true Demo.start
  = (inl BadLink,
     {| pageCache := ∅;
        trace := [EvFetch (robots_request "http://example.com/robots.txt");
                  EvFetch (page_request u); EvText (href u)] |}).
Proof.
  intros u doc.
  apply (unresolvable_link_fails_call
           (picky_platform u (Demo.serving Demo.not_found (Demo.response None "<a>")) doc)
           (href u) u None true Demo.start
           {| pageCache := ∅;
              trace := [EvFetch (robots_request "http://example.com/robots.txt")] |}
           (Demo.response None "<a>") "<a>" doc doc None
           (anchor "http://[broken")
           (conj eq_refl (conj (or_introl eq_refl) eq_refl))
           (or_intror I) eq_refl eq_refl eq_refl (or_introl eq_refl) eq_refl).
  - discriminate.
  - reflexivity.
  - reflexivity.
  - right. left. reflexivity.
  - reflexivity.
Defined.

(** ** More on the ranker *)

Section RankingFacts.
Import JS Re Ranker.

Lemma insert_desc_sorted (x : string * Z) (l : list (string * Z)) :
  StronglySorted by_score_desc l -> StronglySorted by_score_desc (insert_desc x l).
Proof.
  induction l as [|y l IH]; intros Hs; cbn.
  - repeat constructor.
  - apply StronglySorted_inv in Hs as [Hl Hy].
    destruct (snd y <=? snd x) eqn:Hle.
    + apply Z.leb_le in Hle. constructor; [now constructor|].
      constructor; [exact Hle|].
      apply (List.Forall_impl (P := by_score_desc y)); [|exact Hy].
      unfold by_score_desc. intros; lia.
    + apply Z.leb_gt in Hle. constructor; [now apply IH|].
      apply List.Forall_forall. intros z Hz.
      apply In_insert_desc in Hz as [-> | Hz]; [unfold by_score_desc; lia|].
      now apply (proj1 (List.Forall_forall _ _) Hy).
Qed.

Lemma sort_desc_sorted (l : list (string * Z)) :
  StronglySorted by_score_desc (sort_desc l).
Proof.
  induction l as [|x l IH]; cbn; [constructor|now apply insert_desc_sorted].
Qed.

Lemma firstn_sorted {A} (R : A -> A -> Prop) (n : nat) (l : list A) :
  StronglySorted R l -> StronglySorted R (firstn n l).
Proof.
  revert l. induction n as [|n IH]; intros [|x l] Hs; cbn; try constructor.
  - apply StronglySorted_inv in Hs as [Hl _]. now apply IH.
  - apply StronglySorted_inv in Hs as [_ Hx].
    apply List.Forall_forall. intros y Hy. apply In_firstn in Hy.
    now apply (proj1 (List.Forall_forall _ _) Hx).
Qed.

Lemma map_sorted {A B} (R : A -> A -> Prop) (S : B -> B -> Prop) (f : A -> B)
    (l : list A) :
  (forall a b, R a b -> S (f a) (f b)) ->
  StronglySorted R l -> StronglySorted S (map f l).
Proof.
  intros HRS. induction l as [|x l IH]; intros Hs; cbn; [constructor|].
  apply StronglySorted_inv in Hs as [Hl Hx]. constructor; [now apply IH|].
  apply List.Forall_forall. intros y [a [<- Ha]]%in_map_iff.
  apply HRS. now apply (proj1 (List.Forall_forall _ _) Hx).
Qed.

(** The sort keeps the entries of one score in the order they had. *)
Lemma insert_desc_stable (v : Z) (x : string * Z) (l : list (string * Z)) :
  List.filter (fun ps => snd ps =? v) (insert_desc x l)
  = List.filter (fun ps => snd ps =? v) (x :: l).
Proof.
  induction l as [|y l IH]; [reflexivity|].
  cbn [insert_desc]. destruct (snd y <=? snd x) eqn:Hle; [reflexivity|].
  apply Z.leb_gt in Hle. cbn [List.filter] in *. rewrite IH.
  destruct (snd x =? v) eqn:Hx; [|reflexivity].
  apply Z.eqb_eq in Hx.
  assert ((snd y =? v) = false) as -> by (apply Z.eqb_neq; lia).
  reflexivity.
Qed.

Lemma sort_desc_stable (v : Z) (l : list (string * Z)) :
  List.filter (fun ps => snd ps =? v) (sort_desc l)
  = List.filter (fun ps => snd ps =? v) l.
Proof.
  induction l as [|x l IH]; [reflexivity|].
  cbn [sort_desc fold_right]. fold (sort_desc l).
  rewrite insert_desc_stable. cbn [List.filter]. now rewrite IH.
Qed.

Lemma no_query_tokens_score (t : list string) (acc : Z) :
  fold_left
    (fun acc w => acc + (if bool_decide (w ∈ (∅ : gset string)) then 1 else 0))
    t acc = acc.
Proof.
  revert acc. induction t as [|w t IH]; intros acc; [reflexivity|].
  cbn [fold_left]. rewrite bool_decide_false by apply not_elem_of_empty.
  rewrite Z.add_0_r. apply IH.
Qed.

Lemma blank_non_alnum_chars (s : string) :
  all_chars (fun c => is_lower_az c || is_digit c || is_space c)
    (blank_non_alnum s) = true.
Proof.
  unfold blank_non_alnum. induction s as [|c s IH]; [reflexivity|].
  cbn [map_chars all_chars]. rewrite IH, andb_true_r.
  destruct (is_lower_az c || is_digit c || is_space c) eqn:H; [exact H|].
  reflexivity.
Qed.

End RankingFacts.

(** The passages are ranked by a stable sort: [relevantPassages] is the
    list of scored paragraphs, sorted, cut to the limit and turned into
    passages; its scores never increase from one passage to the next; and
    before the cut the paragraphs of any one score stand in the order of
    the text. *)
Theorem passages_ranked_stably (text question : string) (max : Z) :
  Ranker.relevantPassages text question max
  = map (fun ps => {| Ranker.snippet := JS.slice0 (fst ps) 600;
                      Ranker.score := snd ps |})
        (Ranker.slice0_list
           (Ranker.sort_desc (scored_paragraphs text question)) max)
  /\ StronglySorted (fun a b => Ranker.score b <= Ranker.score a)
       (Ranker.relevantPassages text question max)
  /\ (forall v : Z,
        List.filter (fun ps => snd ps =? v)
          (Ranker.sort_desc (scored_paragraphs text question))
        = List.filter (fun ps => snd ps =? v) (scored_paragraphs text question)).
Proof.
  split; [reflexivity|]. split.
  - change (Ranker.relevantPassages text question max)
      with (map (fun ps => {| Ranker.snippet := JS.slice0 (fst ps) 600;
                              Ranker.score := snd ps |})
              (Ranker.slice0_list
                 (Ranker.sort_desc (scored_paragraphs text question)) max)).
    apply (map_sorted by_score_desc); [intros a b H; exact H|].
    unfold Ranker.slice0_list.
    destruct (max <? 0); apply firstn_sorted, sort_desc_sorted.
  - intros v. apply sort_desc_stable.
Qed.

(** A question without a word of three or more letters or digits gives no
    passage, whatever the text; and the case of the question does not
    matter. *)
Theorem question_tokens_decide (text question : string) (max : Z) :
  (Ranker.tokenize question = [] ->
   Ranker.relevantPassages text question max = [])
  /\ Ranker.relevantPassages text (JS.toLowerCase question) max
     = Ranker.relevantPassages text question max.
Proof.
  split.
  - intros Hq. unfold Ranker.relevantPassages. rewrite Hq.
    change (list_to_set [] : gset string) with (∅ : gset string).
    induction (List.filter (fun p => 60 <? JS.strlen p)
                 (map JS.trim (Re.split_paras text))) as [|p ps IH].
    + cbn. unfold Ranker.slice0_list. now destruct (max <? 0); rewrite firstn_nil.
    + cbn [map List.filter]. rewrite no_query_tokens_score. cbn. exact IH.
  - unfold Ranker.relevantPassages, Ranker.tokenize.
    now rewrite toLowerCase_idem.
Qed.

Lemma question_tokens_decide_witness :
  Ranker.relevantPassages long_example_text "is it on?" 10 = [].
Proof.
  apply (proj1 (question_tokens_decide long_example_text "is it on?" 10)).
  reflexivity.
Defined.

(** Every token has at least three characters, all of them lower-case
    letters or digits. *)
Theorem tokens_are_words (s w : string) :
  In w (Ranker.tokenize s) ->
  3 <= JS.strlen w /\ JS.all_chars is_word_char w = true.
Proof.
  unfold Ranker.tokenize. intros [Hin Hlen]%List.filter_In.
  split; [apply Z.ltb_lt in Hlen; lia|].
  pose proof (split_ws_pieces _ _ (blank_non_alnum_chars (JS.toLowerCase s))) as H.
  apply (proj1 (List.Forall_forall _ _) H) in Hin.
  revert Hin. apply all_chars_impl. intros c. unfold is_word_char.
  destruct (JS.is_lower_az c), (JS.is_digit c), (JS.is_space c); cbn; congruence.
Qed.

Lemma tokens_are_words_witness :
  3 <= JS.strlen "caching" /\ JS.all_chars is_word_char "caching" = true.
Proof.
  apply (tokens_are_words "Why CACHING, and how?" "caching").
  vm_compute. right. left. reflexivity.
Defined.

(** ** More on the robots.txt parser *)

Section ParserFacts.
Import JS Robots.




Lemma user_agent_line_twice (st : list Group * option Group) (l1 l2 : string) :
  is_user_agent_line l1 = true ->
  is_user_agent_line l2 = true ->
  parse_line (parse_line st l1) l2 = parse_line st l2.
Proof.
  unfold is_user_agent_line, parse_line. destruct st as [groups current].
  destruct (split_char ":" l1) as [|k1 r1]; [discriminate|].
  destruct (split_char ":" l2) as [|k2 r2]; [discriminate|].
  intros [[Ht1 Hn1]%andb_prop He1]%andb_prop [[Ht2 Hn2]%andb_prop He2]%andb_prop.
  rewrite Ht1, Ht2, He1, He2.
  apply negb_true_iff in Hn1, Hn2. rewrite Hn1, Hn2. cbn.
  destruct current as [c|]; [|reflexivity].
  now destruct (0 <? length (rules c))%nat.
Qed.

End ParserFacts.


(** A user-agent line that directly follows another user-agent line
    replaces it: the first of the two names no group.  So rules written
    under two user-agent lines bind the second agent only. *)
Theorem user_agent_line_replaces_previous
    (st : list Robots.Group * option Robots.Group) (l1 l2 : string) :
  is_user_agent_line l1 = true ->
  is_user_agent_line l2 = true ->
  Robots.parse_line (Robots.parse_line st l1) l2 = Robots.parse_line st l2.
Proof. apply user_agent_line_twice. Qed.

Lemma user_agent_line_replaces_previous_witness :
  Robots.parse_line
    (Robots.parse_line ([], None) "User-agent: content-agent")
    "USER-AGENT : GoogleBot"
  = ([], Some {| Robots.agents := ["googlebot"]; Robots.rules := [] |})
  /\ Robots.robots_decide shared_group_robots "content-agent" "/page" = true
  /\ Robots.robots_decide shared_group_robots "googlebot" "/page" = false.
Proof.
  split; [|split; reflexivity].
  rewrite (user_agent_line_replaces_previous ([], None)
             "User-agent: content-agent" "USER-AGENT : GoogleBot"
             eq_refl eq_refl).
  reflexivity.
Defined.

(* ================================================================== *)
(** * The analytics helpers                                            *)
(* ================================================================== *)

Section DateFacts.

Lemma eight_chars (d : string) :
  JS.strlen d = 8 ->
  exists a b c e f g h i,
    d = String a (String b (String c (String e (String f (String g
          (String h (String i EmptyString))))))).
Proof.
  unfold JS.strlen. intros H.
  do 8 (destruct d as [|? d]; [cbn in H; lia|]).
  destruct d; [|cbn in H; lia]. now eexists _, _, _, _, _, _, _, _.
Qed.

(** Checking a boolean property on every integer of a range. *)
Lemma range_check (f : Z -> bool) (lo hi : Z) :
  forallb f (map (fun i => lo + Z.of_nat i) (seq 0 (Z.to_nat (hi - lo + 1)))) = true ->
  forall z, lo <= z <= hi -> f z = true.
Proof.
  intros H z Hz. rewrite forallb_forall in H. apply H.
  apply in_map_iff. exists (Z.to_nat (z - lo)). split; [lia|].
  apply in_seq. lia.
Qed.

Lemma year_digits (y : Z) : 1000 <= y <= 9999 -> four_digits (Str.of_int y) = true.
Proof.
  apply (range_check (fun y => four_digits (Str.of_int y)) 1000 9999).
  vm_compute; reflexivity.
Qed.

Lemma month_digits (m : Z) :
  0 <= m <= 11 -> two_digits (Str.padStart (Str.of_int (m + 1)) 2 "0") = true.
Proof.
  apply (range_check
           (fun m => two_digits (Str.padStart (Str.of_int (m + 1)) 2 "0")) 0 11).
  vm_compute; reflexivity.
Qed.

Lemma day_digits (d : Z) :
  1 <= d <= 31 -> two_digits (Str.padStart (Str.of_int d) 2 "0") = true.
Proof.
  apply (range_check
           (fun d => two_digits (Str.padStart (Str.of_int d) 2 "0")) 1 31).
  vm_compute; reflexivity.
Qed.

Lemma digits_make_date (sy sm sd : string) :
  four_digits sy = true -> two_digits sm = true -> two_digits sd = true ->
  iso_date_pattern (sy +:+ "-" +:+ sm +:+ "-" +:+ sd) = true
  /\ yyyymmddToIso (sy +:+ sm +:+ sd) = (sy +:+ "-" +:+ sm +:+ "-" +:+ sd).
Proof.
  destruct sy as [|y1 [|y2 [|y3 [|y4 [|]]]]]; try discriminate.
  destruct sm as [|m1 [|m2 [|]]]; try discriminate.
  destruct sd as [|d1 [|d2 [|]]]; try discriminate.
  cbn [four_digits two_digits].
  intros [[[Hy1 Hy2]%andb_prop Hy3]%andb_prop Hy4]%andb_prop
         [Hm1 Hm2]%andb_prop [Hd1 Hd2]%andb_prop.
  split; [|reflexivity].
  cbv -[JS.is_digit]. now rewrite Hy1, Hy2, Hy3, Hy4, Hm1, Hm2, Hd1, Hd2.
Qed.

End DateFacts.

(** [yyyymmddToIso] puts a dash after the fourth and after the sixth
    character of any text of exactly eight characters, digits or not:
    the result has ten characters and gives the text back when the two
    dashes are taken out.  A text of any other length, the empty one
    included, is returned as it is; applying the function twice is the
    same as applying it once. *)
Theorem yyyymmddToIso_dashes (d : string) :
  (JS.strlen d = 8 ->
   JS.strlen (yyyymmddToIso d) = 10
   /\ String.get 4 (yyyymmddToIso d) = Some "-"%char
   /\ String.get 7 (yyyymmddToIso d) = Some "-"%char
   /\ Str.slice (yyyymmddToIso d) 0 4 +:+ Str.slice (yyyymmddToIso d) 5 7
      +:+ Str.slice (yyyymmddToIso d) 8 10 = d)
  /\ (JS.strlen d <> 8 -> yyyymmddToIso d = d)
  /\ yyyymmddToIso (yyyymmddToIso d) = yyyymmddToIso d.
Proof.
  assert (H8 : JS.strlen d = 8 ->
               JS.strlen (yyyymmddToIso d) = 10
               /\ String.get 4 (yyyymmddToIso d) = Some "-"%char
               /\ String.get 7 (yyyymmddToIso d) = Some "-"%char
               /\ Str.slice (yyyymmddToIso d) 0 4 +:+ Str.slice (yyyymmddToIso d) 5 7
                  +:+ Str.slice (yyyymmddToIso d) 8 10 = d).
  { intros H. destruct (eight_chars d H) as (a & b & c & e & f & g & h & i & ->).
    repeat split. }
  assert (Hne : JS.strlen d <> 8 -> yyyymmddToIso d = d).
  { intros H. unfold yyyymmddToIso. apply Z.eqb_neq in H as ->.
    now rewrite andb_false_r. }
  split; [exact H8|]. split; [exact Hne|].
  destruct (Z.eq_dec (JS.strlen d) 8) as [H|H].
  - destruct (H8 H) as (Hlen & _).
    unfold yyyymmddToIso at 1. rewrite Hlen. now rewrite andb_false_r.
  - now rewrite !(Hne H).
Qed.

Lemma yyyymmddToIso_dashes_witness :
  yyyymmddToIso "notadate" = "nota-da-te" /\ yyyymmddToIso "2025-1-1" = "2025--1--1"
  /\ yyyymmddToIso "202511" = "202511".
Proof.
  split; [reflexivity|]. split; [reflexivity|].
  apply (proj1 (proj2 (yyyymmddToIso_dashes "202511"))). discriminate.
Defined.

(** For a date whose year has four digits, [toYMD] writes the year, the
    month and the day with four, two and two digits and dashes between
    them: the result matches the date pattern that [get_ga_metrics]
    demands of its inputs, and it is what [yyyymmddToIso] makes of the
    compact form of the same date. *)
Theorem toYMD_is_iso_date (date : UTCDate) :
  1000 <= utcFullYear date <= 9999 ->
  0 <= utcMonth date <= 11 ->
  1 <= utcDate date <= 31 ->
  iso_date_pattern (toYMD date) = true
  /\ yyyymmddToIso (compact_date date) = toYMD date.
Proof.
  intros Hy Hm Hd. unfold toYMD, compact_date.
  apply digits_make_date;
    [now apply year_digits|now apply month_digits|now apply day_digits].
Qed.

Lemma toYMD_is_iso_date_witness :
  iso_date_pattern
    (toYMD {| utcFullYear := 2025; utcMonth := 0; utcDate := 9 |}) = true
  /\ yyyymmddToIso "20250109"
     = toYMD {| utcFullYear := 2025; utcMonth := 0; utcDate := 9 |}.
Proof.
  apply (toYMD_is_iso_date {| utcFullYear := 2025; utcMonth := 0; utcDate := 9 |});
    cbn; lia.
Defined.

(** ** [resolveAbsoluteUrl] *)

Section UrlFacts.

Lemma strip_slash_added (o : string) : Str.strip_slash (o +:+ "/") = o.
Proof.
  induction o as [|c o IH]; [reflexivity|].
  change (String c o +:+ "/") with (String c (o +:+ "/")).
  cbn [Str.strip_slash]. rewrite IH.
  destruct o; reflexivity.
Qed.

Lemma truthy_append (a b : string) :
  JS.truthy a = true -> JS.truthy (a +:+ b) = true.
Proof. now destruct a. Qed.

End UrlFacts.

(** [resolveAbsoluteUrl]: a non-empty [url] is returned as it is,
    whatever the environment; without it and without [SITE_ORIGIN] the
    function throws, even when a path is given; a path is used with or
    without its leading slash, and wins over a slug; one slash at the end
    of [SITE_ORIGIN] makes no difference; a slug is put under [/blog]
    when [BLOG_PATH_PREFIX] is not set. *)
Theorem resolveAbsoluteUrl_rules (env : Env) :
  (forall input u,
     ref_url input = Some u -> u <> EmptyString ->
     resolveAbsoluteUrl env input = inr u)
  /\ (forall input,
        Str.given (ref_url input) = false ->
        Str.given (SITE_ORIGIN env) = false ->
        resolveAbsoluteUrl env input
        = inl (Message "Missing SITE_ORIGIN environment variable. Provide full url, or set SITE_ORIGIN to construct pageLocation from path/slug."))
  /\ (forall p slug1 slug2,
        p <> EmptyString -> JS.startsWith p "/" = false ->
        resolveAbsoluteUrl env
          {| ref_url := None; ref_path := Some ("/" +:+ p); ref_slug := slug1 |}
        = resolveAbsoluteUrl env
            {| ref_url := None; ref_path := Some p; ref_slug := slug2 |})
  /\ (forall input o,
        o <> EmptyString -> Str.strip_slash o = o ->
        resolveAbsoluteUrl (with_origin env (o +:+ "/")) input
        = resolveAbsoluteUrl (with_origin env o) input)
  /\ (forall o s,
        o <> EmptyString -> s <> EmptyString ->
        Str.given (BLOG_PATH_PREFIX env) = false ->
        resolveAbsoluteUrl (with_origin env o)
          {| ref_url := None; ref_path := None; ref_slug := Some s |}
        = inr (Str.strip_slash o +:+ "/blog/"
               +:+ (if JS.startsWith s "/" then Str.tail s else s))).
Proof.
  split; [|split; [|split; [|split]]].
  - intros input u Hu Hne. unfold resolveAbsoluteUrl, Str.given. rewrite Hu.
    apply String.eqb_neq in Hne. unfold JS.truthy. now rewrite Hne.
  - intros input Hu Ho. unfold resolveAbsoluteUrl. now rewrite Hu, Ho.
  - intros p slug1 slug2 Hp Hsl. unfold resolveAbsoluteUrl. cbn [ref_url ref_path ref_slug Str.given].
    destruct (negb (Str.given (SITE_ORIGIN env))); [reflexivity|].
    apply String.eqb_neq in Hp. unfold JS.truthy at 2. rewrite Hp. cbn [negb or_empty].
    rewrite Hsl. change ("/" +:+ p) with (String "/" p).
    change (JS.truthy (String "/" p)) with true.
    replace (JS.startsWith (String "/" p) "/") with true
      by (unfold JS.startsWith; cbn; now destruct p).
    reflexivity.
  - intros input o Ho Hstrip. unfold resolveAbsoluteUrl, with_origin.
    cbn [SITE_ORIGIN BLOG_PATH_PREFIX Str.given or_empty].
    destruct (Str.given (ref_url input)); [reflexivity|].
    rewrite truthy_append
      by (apply String.eqb_neq in Ho; unfold JS.truthy; now rewrite Ho).
    apply String.eqb_neq in Ho. unfold JS.truthy at 1. rewrite Ho. cbn [negb].
    now rewrite strip_slash_added, Hstrip.
  - intros o s Ho Hs Hpre. unfold resolveAbsoluteUrl, with_origin.
    cbn [SITE_ORIGIN BLOG_PATH_PREFIX ref_url ref_path ref_slug].
    rewrite Hpre. cbn [Str.given or_empty].
    apply String.eqb_neq in Ho, Hs. unfold JS.truthy. rewrite Ho, Hs.
    reflexivity.
Qed.


Lemma resolveAbsoluteUrl_rules_witness :
  resolveAbsoluteUrl bare_env
    {| ref_url := Some "https://a.example/x"; ref_path := Some "p";
       ref_slug := None |}
  = inr "https://a.example/x"
  /\ resolveAbsoluteUrl (with_origin bare_env "https://a.example")
       {| ref_url := None; ref_path := Some "/docs"; ref_slug := Some "s" |}
     = resolveAbsoluteUrl (with_origin bare_env "https://a.example")
         {| ref_url := None; ref_path := Some "docs"; ref_slug := None |}
  /\ resolveAbsoluteUrl (with_origin bare_env "https://a.example/")
       {| ref_url := None; ref_path := None; ref_slug := Some "/hello" |}
     = inr "https://a.example/blog/hello".
Proof.
  pose proof (resolveAbsoluteUrl_rules bare_env) as (Hurl & _ & _ & _ & _).
  pose proof (resolveAbsoluteUrl_rules (with_origin bare_env "https://a.example"))
    as (_ & _ & Hpath & _ & _).
  pose proof (resolveAbsoluteUrl_rules bare_env) as (_ & _ & _ & _ & Hslug).
  split; [|split].
  - apply Hurl; [reflexivity|discriminate].
  - apply (Hpath "docs"); [discriminate|reflexivity].
  - apply (Hslug "https://a.example/" "/hello"); [discriminate|discriminate|reflexivity].
Defined.

(** ** [get_ga_metrics] *)

Section AnalyticsFacts.

Lemma toYMD_given (d : UTCDate) : Str.given (Some (toYMD d)) = true.
Proof.
  unfold toYMD, Str.given, JS.truthy.
  destruct (Str.of_int (utcFullYear d)); reflexivity.
Qed.

Lemma allowed_in (m : string) :
  GA.allowed m = true -> In m GA.DEFAULT_GA_METRICS.
Proof.
  unfold GA.allowed. intros (x & Hin & ->%String.eqb_eq)%existsb_exists. exact Hin.
Qed.

(** What [runGa4ReportByLocation] asks for. *)
Lemma report_metrics (env : Env) (opts : GA.ReportOptions) (r : GA.RunReport) :
  GA.runGa4ReportByLocation env opts = inr r ->
  GA.dateRange r = (GA.opt_startDate opts, GA.opt_endDate opts)
  /\ GA.pageLocationFilter r = GA.opt_pageLocation opts
  /\ GA.metrics r
     = match GA.opt_metrics opts with
       | Some (m :: ms) => m :: ms
       | _ => GA.DEFAULT_GA_METRICS
       end.
Proof.
  unfold GA.runGa4ReportByLocation.
  destruct (negb (Str.given (GA4_PROPERTY_ID env))); [discriminate|].
  intros [= <-]. now repeat split.
Qed.

(** A report that [get_ga_metrics] asks for. *)
Lemma get_ga_metrics_report (env : Env) (utc : Z -> UTCDate) (now : Z)
    (input : GA.Input) (r : GA.RunReport) :
  GA.get_ga_metrics env utc now input = inr r ->
  exists u s e,
    resolveAbsoluteUrl env (GA.page input) = inr u
    /\ GA.runGa4ReportByLocation env
         {| GA.opt_pageLocation := u; GA.opt_startDate := s; GA.opt_endDate := e;
            GA.opt_metrics := Some (List.filter GA.allowed (asked_metrics input)) |}
       = inr r
    /\ (GA.number_given (GA.lastNDays input) = true ->
        s = toYMD (utc (now - ((match GA.lastNDays input with Some k => k | None => 0 end) - 1)
                              * one_day_ms))
        /\ e = toYMD (utc now))
    /\ (GA.number_given (GA.lastNDays input) = false ->
        GA.startDate input = Some s /\ GA.endDate input = Some e
        /\ s <> EmptyString /\ e <> EmptyString).
Proof.
  unfold GA.get_ga_metrics.
  destruct (resolveAbsoluteUrl env (GA.page input)) as [err|u]; [discriminate|].
  destruct (GA.number_given (GA.lastNDays input)) eqn:Hn; cbn [fst snd].
  - rewrite !toYMD_given. cbn [negb orb or_empty]. intros H.
    eexists u, _, _. split; [reflexivity|]. split; [exact H|]. split; [|discriminate].
    intros _. split; reflexivity.
  - destruct (GA.startDate input) as [s|]; [|discriminate].
    destruct (GA.endDate input) as [e|]; [|cbn; rewrite orb_true_r; discriminate].
    cbn [Str.given or_empty].
    destruct (JS.truthy s) eqn:Hs; [|discriminate].
    destruct (JS.truthy e) eqn:He; [|discriminate].
    cbn [negb orb]. intros H.
    exists u, s, e. split; [reflexivity|]. split; [exact H|]. split; [discriminate|].
    intros _. repeat split; intros ->; discriminate.
Qed.

End AnalyticsFacts.

(** Whatever metrics [get_ga_metrics] is asked for, the report it asks
    of the analytics service names at least one metric and only metrics
    among [screenPageViews], [activeUsers] and [sessions]: these are the
    allowed ones among those asked for, in the order asked, and all three
    when none of those asked for is allowed. *)
Theorem ga_metrics_always_allowed (env : Env) (utc : Z -> UTCDate) (now : Z)
    (input : GA.Input) (r : GA.RunReport) :
  GA.get_ga_metrics env utc now input = inr r ->
  GA.metrics r <> []
  /\ Forall (fun m => In m GA.DEFAULT_GA_METRICS) (GA.metrics r)
  /\ (List.filter GA.allowed (asked_metrics input) = [] ->
      GA.metrics r = GA.DEFAULT_GA_METRICS)
  /\ (List.filter GA.allowed (asked_metrics input) <> [] ->
      GA.metrics r = List.filter GA.allowed (asked_metrics input)).
Proof.
  intros (u & s & e & _ & Hrun & _)%get_ga_metrics_report.
  apply report_metrics in Hrun as (_ & _ & Hm). cbn [GA.opt_metrics] in Hm.
  rewrite Hm.
  destruct (List.filter GA.allowed (asked_metrics input)) as [|m ms] eqn:Hf.
  - repeat split; try discriminate; try easy.
    apply List.Forall_forall. now intros m Hin.
  - repeat split; try discriminate; try easy.
    rewrite <- Hf. apply List.Forall_forall. intros x [_ Hx]%List.filter_In.
    now apply allowed_in.
Qed.

Lemma ga_metrics_always_allowed_witness :
  GA.metrics
    {| GA.property := "properties/1"; GA.dateRange := ("2025-01-01", "2025-01-31");
       GA.pageLocationFilter := "https://a.example/x";
       GA.metrics := GA.DEFAULT_GA_METRICS; GA.limit := 100000 |}
  = GA.DEFAULT_GA_METRICS.
Proof.
  refine (proj1 (proj2 (proj2
    (ga_metrics_always_allowed
       {| SITE_ORIGIN := None; BLOG_PATH_PREFIX := None; DATOCMS_API_TOKEN := None;
          GITHUB_TOKEN := None; GA4_PROPERTY_ID := Some "1" |}
       (fun _ => {| utcFullYear := 2025; utcMonth := 0; utcDate := 9 |}) 0
       {| GA.page := {| ref_url := Some "https://a.example/x"; ref_path := None;
                        ref_slug := None |};
          GA.lastNDays := None; GA.startDate := Some "2025-01-01";
          GA.endDate := Some "2025-01-31"; GA.in_metrics := Some ["bounceRate"] |}
       _ eq_refl))) eq_refl).
Defined.

(** The dates of the report of [get_ga_metrics].  With a number of days
    other than 0 the explicit dates are not looked at: the range ends on
    the day of the call and starts that number of days less one before
    it, so that one day gives the day of the call alone.  Without it a
    missing or empty date is an error, raised before the analytics
    property is looked for.  A page that cannot be resolved is the first
    error of all. *)
Theorem ga_date_range (env : Env) (utc : Z -> UTCDate) (now : Z) (input : GA.Input) :
  (forall n, GA.lastNDays input = Some n -> n <> 0 ->
     (forall s e,
        GA.get_ga_metrics env utc now (with_dates input s e)
        = GA.get_ga_metrics env utc now input)
     /\ (forall r,
           GA.get_ga_metrics env utc now input = inr r ->
           GA.dateRange r
           = (toYMD (utc (now - (n - 1) * one_day_ms)), toYMD (utc now))))
  /\ (forall u,
        resolveAbsoluteUrl env (GA.page input) = inr u ->
        GA.number_given (GA.lastNDays input) = false ->
        Str.given (GA.startDate input) = false \/ Str.given (GA.endDate input) = false ->
        GA.get_ga_metrics env utc now input
        = inl (Message "Invalid date range. Check lastNDays or start/end dates."))
  /\ (forall err,
        resolveAbsoluteUrl env (GA.page input) = inl err ->
        GA.get_ga_metrics env utc now input = inl err).
Proof.
  split; [|split].
  - intros n Hn Hne.
    assert (Hgiven : GA.number_given (GA.lastNDays input) = true).
    { rewrite Hn. cbn. now apply Z.eqb_neq in Hne as ->. }
    split.
    + intros s e. unfold GA.get_ga_metrics, with_dates. cbn [GA.page GA.lastNDays GA.in_metrics].
      now rewrite Hgiven.
    + intros r (u & s & e & _ & Hrun & Hdays & _)%get_ga_metrics_report.
      apply report_metrics in Hrun as (Hrange & _). rewrite Hrange. cbn.
      destruct (Hdays Hgiven) as [-> ->]. now rewrite Hn.
  - intros u Hu Hn Hdates. unfold GA.get_ga_metrics. rewrite Hu, Hn. cbn [fst snd].
    destruct Hdates as [-> | ->]; [reflexivity|]. now rewrite orb_true_r.
  - intros err Herr. unfold GA.get_ga_metrics. now rewrite Herr.
Qed.

Lemma ga_date_range_witness :
  GA.dateRange
    {| GA.property := "properties/1"; GA.dateRange := ("2025-01-09", "2025-01-09");
       GA.pageLocationFilter := "https://a.example/x";
       GA.metrics := GA.DEFAULT_GA_METRICS; GA.limit := 100000 |}
  = (toYMD {| utcFullYear := 2025; utcMonth := 0; utcDate := 9 |},
     toYMD {| utcFullYear := 2025; utcMonth := 0; utcDate := 9 |}).
Proof.
  refine (proj2 (proj1
    (ga_date_range
       {| SITE_ORIGIN := None; BLOG_PATH_PREFIX := None; DATOCMS_API_TOKEN := None;
          GITHUB_TOKEN := None; GA4_PROPERTY_ID := Some "1" |}
       (fun _ => {| utcFullYear := 2025; utcMonth := 0; utcDate := 9 |}) 0
       {| GA.page := {| ref_url := Some "https://a.example/x"; ref_path := None;
                        ref_slug := None |};
          GA.lastNDays := Some 1; GA.startDate := Some "2024-01-01";
          GA.endDate := None; GA.in_metrics := None |})
    1 eq_refl _) _ eq_refl).
  discriminate.
Defined.

(** ** [datoQuery] *)

(** [datoQuery] without a token throws before any request.  With a token
    it sends exactly one request, which carries the token and the query.
    It returns the data of the answer exactly when the request was
    answered, the body could be read, the status was a success and the
    body has no [errors] field.  An answer with a success status and an
    empty list of errors is an error all the same, reported with the
    status text. *)
Theorem datoQuery_outcome (env : Env)
    (fetch : Dato.DatoRequest -> option Dato.DatoResponse) (q : Dato.Query) :
  (Str.given (DATOCMS_API_TOKEN env) = false ->
   Dato.datoQuery env fetch q
   = ([], inl (Message "Missing DATOCMS_API_TOKEN environment variable. Please export your DatoCMS API key.")))
  /\ (Str.given (DATOCMS_API_TOKEN env) = true ->
      fst (Dato.datoQuery env fetch q) = [dato_request env q])
  /\ (forall d,
        snd (Dato.datoQuery env fetch q) = inr d <->
        Str.given (DATOCMS_API_TOKEN env) = true
        /\ exists res js,
             fetch (dato_request env q) = Some res
             /\ Dato.json res = Some js
             /\ Dato.ok res = true
             /\ Dato.errors js = None
             /\ Dato.data js = d)
  /\ (forall res js,
        Str.given (DATOCMS_API_TOKEN env) = true ->
        fetch (dato_request env q) = Some res ->
        Dato.json res = Some js ->
        Dato.errors js = Some [] ->
        snd (Dato.datoQuery env fetch q)
        = inl (Message ("DatoCMS GraphQL error: " +:+ Dato.statusText res))).
Proof.
  unfold Dato.datoQuery. fold (dato_request env q).
  destruct (Str.given (DATOCMS_API_TOKEN env)) eqn:Htok; cbn [negb].
  - split; [discriminate|]. split.
    { intros _. unfold Tool.bind, Tool.call. cbn [fst snd].
      destruct (fetch (dato_request env q)) as [res|]; [|reflexivity].
      destruct (Dato.json res) as [js|]; [|reflexivity].
      destruct (negb (Dato.ok res) || bool_decide (is_Some (Dato.errors js)));
        reflexivity. }
    split.
    + intros d. unfold Tool.bind, Tool.call. cbn [fst snd]. split.
      * destruct (fetch (dato_request env q)) as [res|]; [|discriminate].
        destruct (Dato.json res) as [js|] eqn:Hjs; [|discriminate].
        destruct (Dato.ok res) eqn:Hok; [|discriminate]. cbn [negb orb].
        destruct (Dato.errors js) as [msgs|] eqn:Herr.
        { rewrite bool_decide_eq_true_2 by (now eexists). discriminate. }
        rewrite bool_decide_eq_false_2 by (intros [? [=]]).
        cbn. intros [= <-]. split; [reflexivity|]. now exists res, js.
      * intros (_ & res & js & -> & Hjs & Hok & Herr & <-).
        rewrite Hjs, Hok, Herr. cbn [negb orb].
        rewrite bool_decide_eq_false_2 by (intros [? [=]]). reflexivity.
    + intros res js _ Hres Hjs Herr. unfold Tool.bind, Tool.call. cbn [fst snd].
      rewrite Hres, Hjs, Herr.
      rewrite bool_decide_eq_true_2 by (now eexists). rewrite orb_true_r.
      reflexivity.
  - split; [reflexivity|]. split; [discriminate|]. split.
    + intros d. split; [discriminate|]. now intros [[=] _].
    + intros res js [=].
Qed.

Lemma datoQuery_outcome_witness :
  snd (Dato.datoQuery (token_env (Some "t") None)
         (fun _ => Some {| Dato.ok := true; Dato.statusText := "OK";
                           Dato.json := Some {| Dato.data := None;
                                                Dato.errors := Some [] |} |})
         (Dato.FindAuthorIdsForExpertise "ann"))
  = inl (Message "DatoCMS GraphQL error: OK").
Proof.
  apply (proj2 (proj2 (proj2
    (datoQuery_outcome (token_env (Some "t") None)
       (fun _ => Some {| Dato.ok := true; Dato.statusText := "OK";
                         Dato.json := Some {| Dato.data := None;
                                              Dato.errors := Some [] |} |})
       (Dato.FindAuthorIdsForExpertise "ann"))))
    {| Dato.ok := true; Dato.statusText := "OK";
       Dato.json := Some {| Dato.data := None; Dato.errors := Some [] |} |}
    {| Dato.data := None; Dato.errors := Some [] |});
    reflexivity.
Defined.

(** ** The GitHub tools *)

Section GitHubFacts.

Lemma filter_sublist {A} (f : A -> bool) (l : list A) :
  sublist (List.filter f l) l.
Proof.
  induction l as [|x l IH]; cbn; [constructor|].
  destruct (f x); now constructor.
Qed.

Lemma filter_all {A} (l : list A) : List.filter (fun _ => true) l = l.
Proof. induction l as [|x l IH]; cbn; [reflexivity|now rewrite IH]. Qed.

Lemma firstn_sublist {A} (n : nat) (l : list A) : sublist (firstn n l) l.
Proof.
  revert l. induction n as [|n IH]; intros [|x l]; cbn; try constructor.
  - apply sublist_nil_l.
  - apply IH.
Qed.

Lemma slice0_list_sublist {A} (l : list A) (n : Z) :
  sublist (Ranker.slice0_list l n) l.
Proof. unfold Ranker.slice0_list. destruct (n <? 0); apply firstn_sublist. Qed.

Lemma map_sublist {A B} (f : A -> B) (l1 l2 : list A) :
  sublist l1 l2 -> sublist (map f l1) (map f l2).
Proof. induction 1; cbn; now constructor. Qed.

Lemma slice0_list_length {A} (l : list A) (n : Z) :
  0 <= n -> Z.of_nat (length (Ranker.slice0_list l n)) <= n.
Proof.
  intros Hn. unfold Ranker.slice0_list.
  destruct (n <? 0) eqn:Hneg; [apply Z.ltb_lt in Hneg; lia|].
  pose proof (firstn_le_length (Z.to_nat n) l).
  rewrite length_firstn. lia.
Qed.

End GitHubFacts.

(** The releases that [get_github_releases] returns.  With a limit that
    is not negative there are at most that many.  None is a prerelease
    unless prereleases were asked for, none is a draft unless drafts were
    asked for, and each has a body field exactly when bodies were asked
    for.  They come in the order of the answer of the service, none
    twice. *)
Theorem releases_selected (env : Env)
    (fetch : GitHub.ApiRequest -> option (GitHub.ApiResponse GitHub.ApiRelease))
    (repo : string) (limit : Z) (includePrereleases includeDrafts includeBody : bool)
    (out : list GitHub.Release) :
  0 <= limit ->
  snd (GitHub.get_github_releases env fetch repo limit
         includePrereleases includeDrafts includeBody) = inr out ->
  Z.of_nat (length out) <= limit
  /\ Forall (release_permitted includePrereleases includeDrafts includeBody) out
  /\ exists req res js,
       fst (GitHub.get_github_releases env fetch repo limit
              includePrereleases includeDrafts includeBody) = [req]
       /\ fetch req = Some res /\ GitHub.ok res = true /\ GitHub.json res = Some js
       /\ sublist (map GitHub.r_url out) (map GitHub.html_url js).
Proof.
  intros Hlimit. unfold GitHub.get_github_releases.
  destruct (negb (Str.given (GITHUB_TOKEN env))); [discriminate|].
  unfold Tool.bind, Tool.call. cbn [fst snd].
  destruct (fetch _) as [res|] eqn:Hres; [|discriminate].
  destruct (GitHub.json res) as [js|] eqn:Hjs; [|discriminate].
  destruct (GitHub.ok res) eqn:Hok; [|discriminate].
  cbn [negb Tool.ret fst snd]. intros [= <-].
  rewrite length_map. split; [now apply slice0_list_length|]. split.
  - apply List.Forall_forall. intros r (a & <- & Ha)%in_map_iff.
    apply In_slice0_list in Ha.
    apply List.filter_In in Ha as [Ha Hdraft].
    apply List.filter_In in Ha as [_ Hpre].
    unfold release_permitted. cbn. repeat split.
    + intros Hp. rewrite Hp in Hpre. now destruct includePrereleases.
    + intros Hd. rewrite Hd in Hdraft. now destruct includeDrafts.
    + now destruct includeBody.
    + now intros ->.
  - eexists _, res, js. split; [reflexivity|]. repeat split; try assumption.
    rewrite map_map. cbn.
    apply map_sublist. etransitivity; [apply slice0_list_sublist|].
    etransitivity; apply filter_sublist.
Qed.

Lemma releases_selected_witness :
  Z.of_nat
    (length
       [ {| GitHub.r_name := Some "v2"; GitHub.r_tag := Some "v2.0.0";
            GitHub.r_draft := false; GitHub.r_prerelease := false;
            GitHub.r_publishedAt := None; GitHub.r_url := "https://h.example/2";
            GitHub.r_body := None |} ]) <= 1.
Proof.
  refine (proj1
    (releases_selected (token_env None (Some "t"))
       (fun _ =>
          Some {| GitHub.ok := true; GitHub.status := 200; GitHub.statusText := "OK";
                  GitHub.json :=
                    Some [ {| GitHub.name := Some "v3-rc"; GitHub.tag_name := Some "v3.0.0-rc";
                              GitHub.draft := false; GitHub.prerelease := true;
                              GitHub.published_at := None;
                              GitHub.html_url := "https://h.example/3";
                              GitHub.body := Some "notes" |};
                           {| GitHub.name := Some "v2"; GitHub.tag_name := Some "v2.0.0";
                              GitHub.draft := false; GitHub.prerelease := false;
                              GitHub.published_at := None;
                              GitHub.html_url := "https://h.example/2";
                              GitHub.body := Some "notes" |};
                           {| GitHub.name := Some "v1"; GitHub.tag_name := Some "v1.0.0";
                              GitHub.draft := false; GitHub.prerelease := false;
                              GitHub.published_at := None;
                              GitHub.html_url := "https://h.example/1";
                              GitHub.body := None |} ] |})
       "coder" 1 false false false _ _ eq_refl)).
  lia.
Defined.

(** The order of the checks of the two GitHub tools.  Without a token
    both throw before any request.  [get_github_releases] reads the body
    of the answer before it looks at the status, so an error answer
    whose body cannot be read fails with the failure of the read, and
    one whose body can be read with the status message;
    [list_accessible_repos] looks at the status first and reports the
    status whatever the body is.  The page size asked of the service is
    the limit, and never more than 100. *)
Theorem github_error_order (env : Env) (repo type sort direction : string)
    (limit : Z) (pre drafts withBody archived : bool) :
  (Str.given (GITHUB_TOKEN env) = false ->
   forall fetch1 fetch2,
     GitHub.get_github_releases env fetch1 repo limit pre drafts withBody
     = ([], inl GitHub.MISSING_TOKEN)
     /\ GitHub.list_accessible_repos env fetch2 type sort direction archived limit
        = ([], inl GitHub.MISSING_TOKEN))
  /\ (Str.given (GITHUB_TOKEN env) = true ->
      forall code text body1 body2,
        snd (GitHub.get_github_releases env
               (fun _ => Some {| GitHub.ok := false; GitHub.status := code;
                                 GitHub.statusText := text; GitHub.json := body1 |})
               repo limit pre drafts withBody)
        = inl (match body1 with
               | None => BadJson
               | Some _ =>
                   Message ("GitHub releases error: " +:+ Str.of_int code
                            +:+ " " +:+ text)
               end)
        /\ snd (GitHub.list_accessible_repos env
                  (fun _ => Some {| GitHub.ok := false; GitHub.status := code;
                                    GitHub.statusText := text; GitHub.json := body2 |})
                  type sort direction archived limit)
           = inl (Message ("GitHub repos error: " +:+ Str.of_int code
                           +:+ " " +:+ text)))
  /\ (Str.given (GITHUB_TOKEN env) = true ->
      forall fetch1 fetch2 req,
        In req (fst (GitHub.get_github_releases env fetch1 repo limit pre drafts withBody)
                ++ fst (GitHub.list_accessible_repos env fetch2 type sort direction
                          archived limit)) ->
        In ("per_page", Str.of_int (Z.min limit 100)) (GitHub.searchParams req)
        /\ GitHub.authorization req = "Bearer " +:+ or_empty (GITHUB_TOKEN env)).
Proof.
  unfold GitHub.get_github_releases, GitHub.list_accessible_repos.
  destruct (Str.given (GITHUB_TOKEN env)); cbn [negb].
  - split; [discriminate|]. split.
    + intros _ code text body1 body2. unfold Tool.bind, Tool.call. cbn.
      split; [now destruct body1|reflexivity].
    + intros _ fetch1 fetch2 req. unfold Tool.bind, Tool.call. cbn [fst snd].
      intros Hin. apply in_app_iff in Hin.
      assert (Hone : forall (A : Type) (c : Thrown + A) (l : list GitHub.ApiRequest) r,
                 In req (fst (match c with
                              | inl e => ([r], inl e)
                              | inr a => ([r] ++ l, c)
                              end : list GitHub.ApiRequest * (Thrown + A))) ->
                 l = [] -> req = r).
      { intros A c l r H ->. destruct c; cbn in H; now destruct H. }
      destruct Hin as [Hin|Hin].
      * assert (req = GitHub.request env (GitHub.RepoReleases repo)
                        [("per_page", Str.of_int (Z.min limit 100))]) as ->.
        { destruct (fetch1 _) as [res|]; cbn in Hin.
          - destruct (GitHub.json res); cbn in Hin.
            + destruct (negb (GitHub.ok res)); cbn in Hin; now destruct Hin.
            + now destruct Hin.
          - now destruct Hin. }
        split; [now left|reflexivity].
      * assert (req = GitHub.request env GitHub.OrgRepos
                        [("type", type); ("sort", sort); ("direction", direction);
                         ("per_page", Str.of_int (Z.min limit 100))]) as ->.
        { destruct (fetch2 _) as [res|]; cbn in Hin.
          - destruct (negb (GitHub.ok res)); cbn in Hin; [now destruct Hin|].
            destruct (GitHub.json res); cbn in Hin; now destruct Hin.
          - now destruct Hin. }
        split; [cbn; tauto|reflexivity].
  - split; [now intros _ fetch1 fetch2|]. split; discriminate.
Qed.

Lemma github_error_order_witness :
  snd (GitHub.get_github_releases (token_env None (Some "t"))
         (fun _ => Some {| GitHub.ok := false; GitHub.status := 502;
                           GitHub.statusText := "Bad Gateway"; GitHub.json := None |})
         "coder" 10 false false false)
  = inl BadJson
  /\ snd (GitHub.list_accessible_repos (token_env None (Some "t"))
            (fun _ => Some {| GitHub.ok := false; GitHub.status := 502;
                              GitHub.statusText := "Bad Gateway"; GitHub.json := None |})
            "all" "updated" "desc" false 30)
     = inl (Message "GitHub repos error: 502 Bad Gateway").
Proof.
  split.
  - apply (proj1 (proj2 (github_error_order (token_env None (Some "t"))
                           "coder" "all" "updated" "desc" 10 false false false false))
             eq_refl 502 "Bad Gateway" None None).
  - apply (proj1 (proj2 (github_error_order (token_env None (Some "t"))
                           "coder" "all" "updated" "desc" 30 false false false false))
             eq_refl 502 "Bad Gateway" None None).
Defined.

(** The repositories that [list_accessible_repos] returns: none is
    archived unless archived ones were asked for, and they come in the
    order of the answer.  The limit only sets the page size of the
    request: when archived ones are asked for, every repository of the
    answer is returned, however many there are. *)
Theorem repos_selected (env : Env)
    (fetch : GitHub.ApiRequest -> option (GitHub.ApiResponse GitHub.ApiRepo))
    (type sort direction : string) (includeArchived : bool) (limit : Z)
    (out : list GitHub.Repo) :
  snd (GitHub.list_accessible_repos env fetch type sort direction includeArchived limit)
  = inr out ->
  Forall (fun r => GitHub.o_archived r = true -> includeArchived = true) out
  /\ exists req res js,
       fst (GitHub.list_accessible_repos env fetch type sort direction
              includeArchived limit) = [req]
       /\ fetch req = Some res /\ GitHub.ok res = true /\ GitHub.json res = Some js
       /\ sublist (map GitHub.o_fullName out) (map GitHub.full_name js)
       /\ (includeArchived = true ->
           map GitHub.o_fullName out = map GitHub.full_name js).
Proof.
  unfold GitHub.list_accessible_repos.
  destruct (negb (Str.given (GITHUB_TOKEN env))); [discriminate|].
  unfold Tool.bind, Tool.call. cbn [fst snd].
  destruct (fetch _) as [res|] eqn:Hres; [|discriminate].
  destruct (GitHub.ok res) eqn:Hok; [|discriminate]. cbn [negb].
  destruct (GitHub.json res) as [js|] eqn:Hjs; [|discriminate].
  cbn [Tool.ret fst snd]. intros [= <-]. split.
  - apply List.Forall_forall. intros r (a & <- & Ha)%in_map_iff.
    apply List.filter_In in Ha as [_ Harch]. cbn. intros Ha.
    rewrite Ha in Harch. now destruct includeArchived.
  - eexists _, res, js. split; [reflexivity|]. repeat split; try assumption.
    + rewrite map_map. cbn. apply map_sublist, filter_sublist.
    + intros ->. rewrite map_map. cbn. now rewrite filter_all.
Qed.


Lemma repos_selected_witness :
  Forall (fun r => GitHub.o_archived r = true -> false = true)
    [ {| GitHub.o_name := "coder"; GitHub.o_fullName := "coder/coder";
         GitHub.o_private := false; GitHub.o_archived := false; GitHub.o_fork := false;
         GitHub.o_description := None; GitHub.o_language := Some "Go";
         GitHub.o_stars := 5; GitHub.o_updatedAt := "2025-01-09T00:00:00Z";
         GitHub.o_url := "https://h.example/coder" |} ].
Proof.
  refine (proj1
    (repos_selected (token_env None (Some "t"))
       (fun _ =>
          Some {| GitHub.ok := true; GitHub.status := 200; GitHub.statusText := "OK";
                  GitHub.json :=
                    Some [ {| GitHub.repo_name := "old"; GitHub.full_name := "coder/old";
                              GitHub.private := false; GitHub.archived := true;
                              GitHub.fork := false; GitHub.description := None;
                              GitHub.language := None; GitHub.stargazers_count := 1;
                              GitHub.updated_at := "2020-01-01T00:00:00Z";
                              GitHub.repo_html_url := "https://h.example/old" |};
                           {| GitHub.repo_name := "coder"; GitHub.full_name := "coder/coder";
                              GitHub.private := false; GitHub.archived := false;
                              GitHub.fork := false; GitHub.description := None;
                              GitHub.language := Some "Go"; GitHub.stargazers_count := 5;
                              GitHub.updated_at := "2025-01-09T00:00:00Z";
                              GitHub.repo_html_url := "https://h.example/coder" |} ] |})
       "all" "updated" "desc" false 1 _ eq_refl)).
Defined.

(* ================================================================== *)
(** * Counting words                                                   *)
(* ================================================================== *)

Section CountFacts.
Import Counts.

Lemma bump_count (w w' : string) (m : list (string * Z)) :
  count_in (bump w m) w' = count_in m w' + (if String.eqb w w' then 1 else 0).
Proof.
  unfold count_in. induction m as [|[k n] m IH]; cbn [bump find fst snd].
  - now destruct (String.eqb w w').
  - destruct (String.eqb_spec k w) as [->|Hkw]; cbn [find fst snd].
    + destruct (String.eqb w w'); [reflexivity|lia].
    + destruct (String.eqb_spec k w') as [->|Hkw'].
      * apply String.eqb_neq in Hkw. rewrite String.eqb_sym, Hkw. lia.
      * exact IH.
Qed.

Lemma bump_all_count (ws : list string) (w' : string) (m : list (string * Z)) :
  count_in (bump_all ws m) w'
  = count_in m w' + Z.of_nat (count_occ String.string_dec ws w').
Proof.
  unfold bump_all. revert m. induction ws as [|w ws IH]; intros m; cbn [fold_left count_occ].
  - lia.
  - rewrite IH, bump_count.
    destruct (String.string_dec w w') as [->|Hne].
    + rewrite String.eqb_refl. lia.
    + apply String.eqb_neq in Hne as ->. lia.
Qed.

Lemma bump_keys (k w : string) (m : list (string * Z)) :
  In k (map fst (bump w m)) -> k = w \/ In k (map fst m).
Proof.
  induction m as [|[k' n] m IH]; cbn [bump].
  - intros [<-|[]]. now left.
  - destruct (String.eqb k' w); cbn [map fst In].
    + tauto.
    + intros [H|H]; [tauto|]. apply IH in H. tauto.
Qed.

Lemma bump_NoDup (w : string) (m : list (string * Z)) :
  List.NoDup (map fst m) -> List.NoDup (map fst (bump w m)).
Proof.
  induction m as [|[k n] m IH]; cbn [bump map fst]; intros Hnd.
  - cbn. constructor; [intros []|constructor].
  - inversion Hnd as [|? ? Hk Hm]; subst.
    destruct (String.eqb_spec k w) as [->|Hne]; cbn [map fst].
    + now constructor.
    + constructor; [|now apply IH].
      intros [->|Hin]%bump_keys; [now apply Hne|now apply Hk].
Qed.

(** Every key satisfies [P] and every count is at least 1. *)
Lemma bump_entries (P : string -> Prop) (w : string) (m : list (string * Z)) :
  P w ->
  Forall (fun kn => P (fst kn) /\ 1 <= snd kn) m ->
  Forall (fun kn => P (fst kn) /\ 1 <= snd kn) (bump w m).
Proof.
  intros Hw. induction m as [|[k n] m IH]; cbn [bump]; intros Hm.
  - repeat constructor; [exact Hw|cbn; lia].
  - inversion Hm as [|? ? [Hk Hn] Hm']; subst. cbn in Hk, Hn.
    destruct (String.eqb k w).
    + constructor; [|exact Hm']. cbn. split; [exact Hk|lia].
    + constructor; [now split|now apply IH].
Qed.

Lemma bump_all_NoDup (ws : list string) (m : list (string * Z)) :
  List.NoDup (map fst m) -> List.NoDup (map fst (bump_all ws m)).
Proof.
  unfold bump_all. revert m. induction ws as [|w ws IH]; intros m Hm; cbn; [exact Hm|].
  now apply IH, bump_NoDup.
Qed.

Lemma bump_all_entries (P : string -> Prop) (ws : list string) (m : list (string * Z)) :
  Forall P ws ->
  Forall (fun kn => P (fst kn) /\ 1 <= snd kn) m ->
  Forall (fun kn => P (fst kn) /\ 1 <= snd kn) (bump_all ws m).
Proof.
  unfold bump_all. revert m. induction ws as [|w ws IH]; intros m Hws Hm; cbn; [exact Hm|].
  inversion Hws; subst. apply IH; [assumption|]. now apply bump_entries.
Qed.


Lemma count_in_entry (m : list (string * Z)) (k : string) (n : Z) :
  List.NoDup (map fst m) -> In (k, n) m -> count_in m k = n.
Proof.
  unfold count_in. induction m as [|[k' n'] m IH]; cbn [map fst find In]; [easy|].
  intros Hnd [[= -> ->]|Hin].
  - now rewrite String.eqb_refl.
  - inversion Hnd as [|? ? Hk Hm]; subst.
    destruct (String.eqb_spec k' k) as [->|Hne]; [|now apply IH].
    exfalso. apply Hk. apply in_map_iff. now exists (k, n).
Qed.

Lemma insert_desc_perm (x : string * Z) (l : list (string * Z)) :
  Permutation (Ranker.insert_desc x l) (x :: l).
Proof.
  induction l as [|y l IH]; cbn; [reflexivity|].
  destruct (snd y <=? snd x); [reflexivity|].
  rewrite IH. apply perm_swap.
Qed.

Lemma sort_desc_perm (l : list (string * Z)) : Permutation (Ranker.sort_desc l) l.
Proof.
  induction l as [|x l IH]; cbn; [reflexivity|].
  rewrite insert_desc_perm. now constructor.
Qed.

Lemma firstn_NoDup {A} (n : nat) (l : list A) :
  List.NoDup l -> List.NoDup (firstn n l).
Proof.
  revert l. induction n as [|n IH]; intros [|x l] Hnd; cbn; try constructor.
  - inversion Hnd as [|? ? Hx Hl]; subst. intros Hin%In_firstn. now apply Hx.
  - inversion Hnd; subst. now apply IH.
Qed.

(** The most frequent entries of a map of counts. *)
Lemma top_entries (n : Z) (m : list (string * Z)) :
  0 <= n ->
  List.NoDup (map fst m) ->
  (Z.of_nat (length (top n m)) <= n)
  /\ List.NoDup (map fst (top n m))
  /\ StronglySorted by_score_desc (top n m)
  /\ (forall x, In x (top n m) -> In x m).
Proof.
  intros Hn Hnd. unfold top, Ranker.slice0_list.
  destruct (n <? 0) eqn:Hneg; [apply Z.ltb_lt in Hneg; lia|].
  split; [|split; [|split]].
  - rewrite length_firstn. lia.
  - rewrite <- firstn_map.
    apply firstn_NoDup.
    eapply Permutation_NoDup; [|exact Hnd].
    apply Permutation_map. symmetry. apply sort_desc_perm.
  - apply firstn_sorted, sort_desc_sorted.
  - intros x Hx. apply In_firstn in Hx. now apply In_sort_desc.
Qed.

Lemma split_words_shape (s w : string) :
  In w (Re.split_ws (Re.blank_non_alnum (JS.toLowerCase s))) ->
  JS.all_chars is_word_char w = true.
Proof.
  intros Hin.
  pose proof (split_ws_pieces _ _ (blank_non_alnum_chars (JS.toLowerCase s))) as H.
  apply (proj1 (List.Forall_forall _ _) H) in Hin.
  revert Hin. apply all_chars_impl. intros c. unfold is_word_char.
  destruct (JS.is_lower_az c), (JS.is_digit c), (JS.is_space c); cbn; congruence.
Qed.

Lemma keywords_shape (r : Topics.ReleaseData) :
  Forall (fun w => is_word w /\ has Topics.COMMON_WORDS w = false) (Topics.keywords r).
Proof.
  apply List.Forall_forall. intros w. unfold Topics.keywords, Ranker.tokenize.
  intros [[Hin Hlen]%List.filter_In Hcommon]%List.filter_In.
  split; [split|].
  - apply Z.ltb_lt in Hlen. lia.
  - now apply split_words_shape in Hin.
  - now apply negb_true_iff in Hcommon.
Qed.


Lemma Forall_concat_map {A B} (P : B -> Prop) (f : A -> list B) (xs : list A) :
  (forall x, Forall P (f x)) -> Forall P (concat (map f xs)).
Proof.
  intros H. induction xs as [|x xs IH]; cbn; [constructor|].
  apply Forall_app. split; [apply H|exact IH].
Qed.

(** The state of the loop of [suggest_content_topics] after all releases. *)
Lemma topics_loop (rs : list Topics.ReleaseData)
    (st : list (string * Z) * list Topics.ContentIdea) :
  fold_left Topics.step rs st
  = (bump_all (concat (map Topics.keywords rs)) (fst st),
     snd st ++ map Topics.idea rs).
Proof.
  revert st. induction rs as [|r rs IH]; intros [m ideas]; cbn [fold_left map concat].
  - cbn. now rewrite app_nil_r.
  - rewrite IH. unfold Topics.step. cbn [fst snd].
    unfold bump_all. rewrite fold_left_app, <- app_assoc. reflexivity.
Qed.

End CountFacts.

(** The themes that [suggest_content_topics] returns: at most fifteen,
    no word twice, in descending order of frequency; each is a word of
    at least three lower-case letters and digits that is not among the
    common words the tool leaves out. *)
Theorem top_themes_invariants (releaseData : list Topics.ReleaseData) :
  (length (Topics.topThemes (Topics.suggest_content_topics releaseData)) <= 15)%nat
  /\ List.NoDup (map fst (Topics.topThemes (Topics.suggest_content_topics releaseData)))
  /\ StronglySorted by_score_desc
       (Topics.topThemes (Topics.suggest_content_topics releaseData))
  /\ Forall (fun tf => is_word (fst tf)
                       /\ Counts.has Topics.COMMON_WORDS (fst tf) = false)
       (Topics.topThemes (Topics.suggest_content_topics releaseData)).
Proof.
  unfold Topics.suggest_content_topics. cbn [Topics.topThemes].
  rewrite topics_loop. cbn [fst].
  assert (Hnd : List.NoDup (map fst (Counts.bump_all
                                  (concat (map Topics.keywords releaseData)) []))).
  { apply bump_all_NoDup. constructor. }
  destruct (top_entries 15 _ ltac:(lia) Hnd) as (Hlen & Hnd' & Hsorted & Hin).
  split; [lia|]. split; [exact Hnd'|]. split; [exact Hsorted|].
  apply List.Forall_forall. intros x Hx%Hin.
  pose proof (bump_all_entries
                (fun w => is_word w /\ Counts.has Topics.COMMON_WORDS w = false)
                (concat (map Topics.keywords releaseData)) []
                (Forall_concat_map _ _ _ keywords_shape) (List.Forall_nil _)) as Hall.
  apply (proj1 (List.Forall_forall _ _) Hall) in Hx. apply Hx.
Qed.

(** The frequency that [suggest_content_topics] reports for a theme is
    the number of times the word occurs among the keywords of all the
    releases, and at least one. *)
Theorem theme_frequency_counts (releaseData : list Topics.ReleaseData)
    (w : string) (n : Z) :
  In (w, n) (Topics.topThemes (Topics.suggest_content_topics releaseData)) ->
  n = Z.of_nat (count_occ String.string_dec (all_keywords releaseData) w)
  /\ 1 <= n.
Proof.
  unfold Topics.suggest_content_topics. cbn [Topics.topThemes].
  rewrite topics_loop. cbn [fst]. fold (all_keywords releaseData).
  assert (Hnd : List.NoDup (map fst (Counts.bump_all (all_keywords releaseData) []))).
  { apply bump_all_NoDup. constructor. }
  destruct (top_entries 15 _ ltac:(lia) Hnd) as (_ & _ & _ & Hin).
  intros Hx%Hin.
  pose proof (count_in_entry _ _ _ Hnd Hx) as Hcount.
  rewrite bump_all_count in Hcount. cbn in Hcount.
  assert (1 <= n); [|lia].
  pose proof (bump_all_entries (fun _ => True) (all_keywords releaseData) []
                ltac:(apply List.Forall_forall; easy) (List.Forall_nil _)) as Hall.
  apply (proj1 (List.Forall_forall _ _) Hall) in Hx. apply Hx.
Qed.

Lemma theme_frequency_counts_witness :
  2 = Z.of_nat
        (count_occ String.string_dec
           (all_keywords
              [ {| Topics.name := Some "Workspace proxies"; Topics.tag := Some "v2.1.0";
                   Topics.body := Some "Add proxies for every workspace." |} ])
           "proxies")
  /\ 1 <= 2.
Proof.
  apply (theme_frequency_counts
           [ {| Topics.name := Some "Workspace proxies"; Topics.tag := Some "v2.1.0";
                Topics.body := Some "Add proxies for every workspace." |} ]
           "proxies" 2).
  vm_compute. tauto.
Defined.

(* ================================================================== *)
(** * [get_author_expertise]                                           *)
(* ================================================================== *)

Section ExpertiseFacts.
Import Tool Dato Expertise.

Variable env : Env.
Variable fetch : DatoRequest -> option DatoResponse.

(** A query that returns has sent its one request. *)
Lemma datoQuery_requests (q : Query) :
  (length (fst (datoQuery env fetch q)) <= 1)%nat
  /\ (forall d, snd (datoQuery env fetch q) = inr d ->
      fst (datoQuery env fetch q) = [dato_request env q]).
Proof.
  unfold datoQuery. fold (dato_request env q).
  destruct (negb (Str.given (DATOCMS_API_TOKEN env))); [split; [cbn; lia|discriminate]|].
  unfold bind, call. cbn [fst snd].
  destruct (fetch (dato_request env q)) as [res|]; [|split; [cbn; lia|discriminate]].
  destruct (json res) as [js|]; [|split; [cbn; lia|discriminate]].
  destruct (negb (ok res) || bool_decide (is_Some (errors js)));
    (split; [cbn; lia|]); [discriminate|reflexivity].
Qed.


Lemma bind_value {A B} (c : IO (Req := DatoRequest) A) (k : A -> IO B)
    (reqs : list DatoRequest) (a : A) :
  c = (reqs, inr a) -> bind c k = (reqs ++ fst (k a), snd (k a)).
Proof. now intros ->. Qed.

Lemma bind_ret {A B} (a : A) (k : A -> IO (Req := DatoRequest) B) :
  bind (ret a) k = k a.
Proof. unfold bind, ret. cbn. now destruct (k a). Qed.

Lemma bind_fst {A B} (c : IO (Req := DatoRequest) A) (k : A -> IO B) :
  exists rest, fst (bind c k) = fst c ++ rest.
Proof.
  unfold bind. destruct (snd c); cbn [fst]; [exists []; now rewrite app_nil_r|].
  now eexists.
Qed.

Lemma datoQuery_sends (q : Query) :
  Str.given (DATOCMS_API_TOKEN env) = true ->
  fst (datoQuery env fetch q) = [dato_request env q].
Proof.
  intros Htok. unfold datoQuery. fold (dato_request env q). rewrite Htok. cbn [negb].
  unfold bind, call. cbn [fst snd].
  destruct (fetch (dato_request env q)) as [res|]; [|reflexivity].
  destruct (json res) as [js|]; [|reflexivity].
  destruct (negb (ok res) || bool_decide (is_Some (errors js))); reflexivity.
Qed.



End ExpertiseFacts.



(** When the first query of [get_author_expertise] finds no author, the
    tool returns the empty result for the name and sends no second
    query; when it finds one, a second query is sent, for the posts of
    the authors found and with the limit of the call. *)
Theorem unknown_author_one_query (env : Env)
    (fetch : Dato.DatoRequest -> option Dato.DatoResponse)
    (name : string) (limit : Z) (d : Dato.Data) :
  snd (Dato.datoQuery env fetch (Dato.FindAuthorIdsForExpertise name)) = inr (Some d) ->
  (Dato.allAuthors d = None \/ Dato.allAuthors d = Some [] ->
   Expertise.get_author_expertise env fetch name limit
   = ([dato_request env (Dato.FindAuthorIdsForExpertise name)],
      inr (Expertise.nothing name)))
  /\ (forall a authors,
        Dato.allAuthors d = Some (a :: authors) ->
        exists rest,
          fst (Expertise.get_author_expertise env fetch name limit)
          = dato_request env (Dato.FindAuthorIdsForExpertise name)
            :: dato_request env
                 (Dato.AuthorExpertiseBlogs (map Dato.author_id (a :: authors)) limit)
            :: rest).
Proof.
  intros Hq.
  pose proof (proj2 (datoQuery_requests env fetch _) _ Hq) as Hreq.
  assert (Htok : Str.given (DATOCMS_API_TOKEN env) = true).
  { unfold Dato.datoQuery in Hq.
    destruct (Str.given (DATOCMS_API_TOKEN env)); [reflexivity|discriminate]. }
  assert (Hrun : Dato.datoQuery env fetch (Dato.FindAuthorIdsForExpertise name)
                 = ([dato_request env (Dato.FindAuthorIdsForExpertise name)],
                    inr (Some d))).
  { destruct (Dato.datoQuery env fetch (Dato.FindAuthorIdsForExpertise name)).
    cbn [fst snd] in Hq, Hreq. now subst. }
  unfold Expertise.get_author_expertise.
  rewrite (bind_value _ _ _ _ Hrun). cbn [Tool.defined]. rewrite bind_ret.
  split.
  - intros [->| ->]; reflexivity.
  - intros a authors ->. cbn [map length Nat.eqb app fst].
    destruct (bind_fst
                (Dato.datoQuery env fetch
                   (Dato.AuthorExpertiseBlogs
                      (Dato.author_id a :: map Dato.author_id authors) limit))
                (fun data =>
                   Tool.bind (Tool.defined data) (fun data0 =>
                   Tool.bind (Tool.defined (Dato.allBlogs data0)) (fun blogs =>
                   if (length blogs =? 0)%nat
                   then Tool.ret (Expertise.nothing name)
                   else
                     Tool.ret
                       {| Expertise.authorName := name;
                          Expertise.postCount := Z.of_nat (length blogs);
                          Expertise.expertise :=
                            Counts.top 10
                              (fold_left
                                 (fun m post =>
                                    Counts.bump_all (Expertise.post_words post) m)
                                 blogs []);
                          Expertise.recentPosts :=
                            map Expertise.recent (Ranker.slice0_list blogs 5) |}))))
      as [rest Hrest].
    rewrite Hrest, (datoQuery_sends env fetch _ Htok). now exists rest.
Qed.

Lemma unknown_author_one_query_witness :
  Expertise.get_author_expertise (token_env (Some "t") None)
    (fun _ => Some (dato_answer
                      {| Dato.data := Some {| Dato.allAuthors := Some [];
                                              Dato.allBlogs := None |};
                         Dato.errors := None |}))
    "ann" 50
  = ([dato_request (token_env (Some "t") None) (Dato.FindAuthorIdsForExpertise "ann")],
     inr (Expertise.nothing "ann")).
Proof.
  apply (proj1
    (unknown_author_one_query (token_env (Some "t") None)
       (fun _ => Some (dato_answer
                         {| Dato.data := Some {| Dato.allAuthors := Some [];
                                                 Dato.allBlogs := None |};
                            Dato.errors := None |}))
       "ann" 50 {| Dato.allAuthors := Some []; Dato.allBlogs := None |} eq_refl)).
  right. reflexivity.
Defined.
